(** * emu_like.sample: a shallow embedding of the [Sample] class

    The development follows [src/emu_like/sample.py].  Arrays hold
    binary64 numbers (primitive floats), attributes that Python initialises
    to [None] are options, exceptions are values of [exn], and methods that
    touch the object, the file system or the console are computations in a
    state-and-exception monad over [world].

    What belongs to other packages (numpy, scikit-learn, the OS) is
    modelled by the small part of its documented behaviour that the class
    relies on; what belongs to sibling modules that are not in the source
    tree ([params], [sampling_functions], [samplers], [io], [defaults]) is
    taken as a parameter of the section [Methods].

    The argument [verbose] only adds printing and is left out, as is the
    progress bar; [rescale] and the plots are not part of this file. *)

From Stdlib Require Import PrimFloat ZArith String Ascii Bool Arith Lia List
  Permutation.
Import ListNotations.
Open Scope string_scope.
Open Scope list_scope.
Open Scope nat_scope.

Set Implicit Arguments.

(* ================================================================= *)
(** ** Exceptions and results *)

(** The exception classes the methods raise or let through, with the
    message where the source gives one. *)
Inductive exn : Type :=
| FileNotFoundError (msg : string)
| NotADirectoryError
| IsADirectoryError
| ValueError (msg : string)
| IndexError (msg : string)
| TypeError (msg : string)
| KeyError (key : string)
| AttributeError (msg : string)
| YAMLError.

Inductive result (A : Type) : Type :=
| Returns (a : A)
| Raises (e : exn).
Arguments Returns {A} a.
Arguments Raises {A} e.

Definition rbind {A B} (r : result A) (k : A -> result B) : result B :=
  match r with
  | Returns a => k a
  | Raises e => Raises e
  end.

Declare Scope result_scope.
Delimit Scope result_scope with res.
Notation "v <-- r ;;; k" := (rbind r (fun v => k))
  (at level 61, r at next level, right associativity) : result_scope.

Fixpoint rmap {A B} (f : A -> result B) (l : list A) : result (list B) :=
  match l with
  | [] => Returns []
  | a :: l' =>
      match f a with
      | Returns b =>
          match rmap f l' with
          | Returns bs => Returns (b :: bs)
          | Raises e => Raises e
          end
      | Raises e => Raises e
      end
  end.

(* ================================================================= *)
(** ** Python strings and sequences *)

Definition TAB : ascii := ascii_of_nat 9.
Definition NL : ascii := ascii_of_nat 10.
Definition HASH : ascii := ascii_of_nat 35.
Definition SLASH : ascii := ascii_of_nat 47.

(** [str.isspace] on the code points up to 255: the ASCII white space
    and separators, U+0085 and U+00A0. *)
Definition is_space (c : ascii) : bool :=
  let n := nat_of_ascii c in
  ((9 <=? n) && (n <=? 13)) || ((28 <=? n) && (n <=? 32)) || (n =? 133) || (n =? 160).

Fixpoint lstrip (s : string) : string :=
  match s with
  | EmptyString => EmptyString
  | String c s' => if is_space c then lstrip s' else s
  end.

Fixpoint rstrip (s : string) : string :=
  match s with
  | EmptyString => EmptyString
  | String c s' =>
      match rstrip s' with
      | EmptyString => if is_space c then EmptyString else String c EmptyString
      | r => String c r
      end
  end.

(** [s.strip()] *)
Definition strip (s : string) : string := rstrip (lstrip s).

(** [s.split(d)] for a one-character delimiter. *)
Fixpoint split (d : ascii) (s : string) : list string :=
  match s with
  | EmptyString => [EmptyString]
  | String c s' =>
      if Ascii.eqb c d then EmptyString :: split d s'
      else match split d s' with
           | w :: ws => String c w :: ws
           | [] => [String c EmptyString]
           end
  end.

(** [re.sub(c, '', s)] for a pattern that is one literal character. *)
Fixpoint re_sub_char (c : ascii) (s : string) : string :=
  match s with
  | EmptyString => EmptyString
  | String a s' => if Ascii.eqb a c then re_sub_char c s' else String a (re_sub_char c s')
  end.

(** [s.startswith(c)] for a one-character prefix. *)
Definition startswith (c : ascii) (s : string) : bool :=
  match s with
  | String a _ => Ascii.eqb a c
  | EmptyString => false
  end.

(** [sep.join(l)] *)
Definition join_str (sep : string) (l : list string) : string := String.concat sep l.

Fixpoint ends_with_slash (s : string) : bool :=
  match s with
  | EmptyString => false
  | String c EmptyString => Ascii.eqb c SLASH
  | String _ s' => ends_with_slash s'
  end.

(** [os.path.join(a, b)] for a relative [b]. *)
Definition os_path_join (a b : string) : string :=
  if String.eqb a "" then b
  else if ends_with_slash a then (a ++ b)%string
  else (a ++ String SLASH b)%string.

(** Truth value of a string and of an optional string ([None] is false). *)
Definition truthy (s : string) : bool := negb (String.eqb s "").
Definition truthy_opt (s : option string) : bool :=
  match s with
  | Some s' => truthy s'
  | None => false
  end.

(** Bounds of [l[start:stop]] on a sequence of length [n]. *)
Definition slice_bound (n : nat) (i : Z) : nat :=
  if (i <? 0)%Z then Z.to_nat (Z.max 0 (i + Z.of_nat n)) else Nat.min (Z.to_nat i) n.

Definition slice_start (n : nat) (start : option Z) : nat :=
  match start with
  | None => 0
  | Some i => slice_bound n i
  end.

Definition slice_stop (n : nat) (stop : option Z) : nat :=
  match stop with
  | None => n
  | Some i => slice_bound n i
  end.

Definition slice_len (n : nat) (start stop : option Z) : nat :=
  slice_stop n stop - slice_start n start.

Definition py_slice {A} (start stop : option Z) (l : list A) : list A :=
  let n := length l in
  firstn (slice_len n start stop) (skipn (slice_start n start) l).

(** Position of index [i] in a sequence of length [n], negative indices
    counting from the end; [None] when out of range. *)
Definition py_index (n : nat) (i : Z) : option nat :=
  let m := Z.of_nat n in
  if ((i <? - m) || (m <=? i))%Z then None
  else Some (Z.to_nat (if (i <? 0)%Z then i + m else i)%Z).

(* ================================================================= *)
(** ** numpy arrays *)

Definition row := list float.

(** A two-dimensional array: [shape[0]] is the number of rows,
    [shape[1]] is kept with the array since it is defined also when there
    is no row. *)
Record array2 : Type := mk_array2 { shape1 : nat; rows : list row }.

Definition shape0 (a : array2) : nat := length (rows a).

(** What [np.genfromtxt] can return for a numeric table. *)
Inductive ndarray : Type :=
| Arr0 (v : float)
| Arr1 (v : row)
| Arr2 (a : array2).

(** [np.isfinite] *)
Definition isfinite (v : float) : bool := negb (is_nan v || is_infinity v).

(** [np.minimum] and [np.maximum]; both propagate NaN. *)
Definition np_minimum (a b : float) : float :=
  if (PrimFloat.ltb a b || is_nan a)%bool then a else b.
Definition np_maximum (a b : float) : float :=
  if (PrimFloat.ltb b a || is_nan a)%bool then a else b.

Fixpoint zip_with {A B C} (f : A -> B -> C) (l : list A) (m : list B) : list C :=
  match l, m with
  | a :: l', b :: m' => f a b :: zip_with f l' m'
  | _, _ => []
  end.

Definition zero_size_msg : string :=
  "zero-size array to reduction operation which has no identity".

(** [np.min(a, axis=0)] and [np.max(a, axis=0)]: the reduction of the rows
    by the binary operation; an array without rows has nothing to start
    from and numpy raises. *)
Definition reduce_axis0 (f : float -> float -> float) (a : array2) : result row :=
  match rows a with
  | [] => Raises (ValueError zero_size_msg)
  | r :: rs => Returns (fold_left (zip_with f) rs r)
  end.

Definition np_min_axis0 : array2 -> result row := reduce_axis0 np_minimum.
Definition np_max_axis0 : array2 -> result row := reduce_axis0 np_maximum.

(** [np.any(np.isfinite(a), axis=1)] *)
Definition any_isfinite_axis1 (a : array2) : list bool :=
  map (existsb isfinite) (rows a).

(** [np.all(np.isfinite(a), axis=1)], what the docstring of [load] asks for. *)
Definition all_isfinite_axis1 (a : array2) : list bool :=
  map (forallb isfinite) (rows a).

Fixpoint mask_filter {A} (mask : list bool) (l : list A) : list A :=
  match mask, l with
  | b :: mask', a :: l' => if b then a :: mask_filter mask' l' else mask_filter mask' l'
  | _, _ => []
  end.

(** [a[mask]] for a boolean mask over the rows. *)
Definition getitem_mask (a : array2) (mask : list bool) : result array2 :=
  if length mask =? shape0 a
  then Returns (mk_array2 (shape1 a) (mask_filter mask (rows a)))
  else Raises (IndexError "boolean index did not match indexed array along axis 0").

(** [a[0]] *)
Definition getitem_row0 (a : array2) : result row :=
  match rows a with
  | r :: _ => Returns r
  | [] => Raises (IndexError "index 0 is out of bounds for axis 0 with size 0")
  end.

(** [a[n:]] over the rows. *)
Definition rows_from (n : nat) (a : array2) : list row := skipn n (rows a).

Definition vstack_msg : string :=
  "all the input array dimensions except for the concatenation axis must match exactly".

(** [np.vstack((a, v))] for a one-dimensional [v]. *)
Definition vstack_row (a : array2) (v : row) : result array2 :=
  if length v =? shape1 a
  then Returns (mk_array2 (shape1 a) (rows a ++ [v]))
  else Raises (ValueError vstack_msg).

(** [np.vstack(tuple)] of two-dimensional arrays. *)
Definition vstack (l : list array2) : result array2 :=
  match l with
  | [] => Raises (ValueError "need at least one array to concatenate")
  | a :: l' =>
      if forallb (fun b => shape1 b =? shape1 a) l'
      then Returns (mk_array2 (shape1 a) (concat (map rows l)))
      else Raises (ValueError vstack_msg)
  end.

(** [np.array(l)] for a list of one-dimensional arrays. *)
Definition np_array (l : list row) : result array2 :=
  match l with
  | [] => Returns (mk_array2 0 [])
  | r :: rs =>
      if forallb (fun r' => length r' =? length r) rs
      then Returns (mk_array2 (length r) l)
      else Raises (ValueError "setting an array element with a sequence")
  end.

(** [np.squeeze] of a two-dimensional array: axes of length one go away. *)
Definition squeeze (a : array2) : ndarray :=
  match rows a with
  | [r] =>
      match r with
      | [v] => Arr0 v
      | _ => Arr1 r
      end
  | rs => if shape1 a =? 1 then Arr1 (map (fun r => hd 0%float r) rs) else Arr2 a
  end.

(** [array[:, np.newaxis]] on a one-dimensional array. *)
Definition newaxis_col (v : row) : array2 := mk_array2 1 (map (fun e => [e]) v).

(** Column selections: a slice object or a list of column indices. *)
Inductive columns : Type :=
| Slice (start stop : option Z)
| Indices (l : list Z).

Definition index_positions (n : nat) (l : list Z) : result (list nat) :=
  rmap (fun i => match py_index n i with
                 | Some p => Returns p
                 | None => Raises (IndexError "index is out of bounds for axis")
                 end) l.

(** [array[:, columns]] *)
Definition getitem_cols (a : array2) (c : columns) : result array2 :=
  match c with
  | Slice start stop =>
      Returns (mk_array2 (slice_len (shape1 a) start stop)
                         (map (py_slice start stop) (rows a)))
  | Indices l =>
      match index_positions (shape1 a) l with
      | Returns ps =>
          Returns (mk_array2 (length l)
                     (map (fun r => map (fun p => nth p r 0%float) ps) (rows a)))
      | Raises e => Raises e
      end
  end.

(** [names[columns]] on an array of strings. *)
Definition getitem_names (names : list string) (c : columns) : result (list string) :=
  match c with
  | Slice start stop => Returns (py_slice start stop names)
  | Indices l =>
      match index_positions (length names) l with
      | Returns ps => Returns (map (fun p => nth p names "") ps)
      | Raises e => Raises e
      end
  end.

(* ================================================================= *)
(** ** Settings documents and the file system *)

(** A YAML value, as far as the class looks into one. *)
#[local] Set Warnings "-register-all".
Inductive yaml : Type :=
| YStr (s : string)
| YInt (z : Z)
| YDict (entries : list (string * yaml)).

Fixpoint assoc {A} (k : string) (l : list (string * A)) : option A :=
  match l with
  | [] => None
  | (k', v) :: l' => if String.eqb k k' then Some v else assoc k l'
  end.

(** [d[k]] *)
Definition getitem_key (d : yaml) (k : string) : result yaml :=
  match d with
  | YDict entries =>
      match assoc k entries with
      | Some v => Returns v
      | None => Raises (KeyError k)
      end
  | _ => Raises (TypeError "indices must be integers")
  end.

(** A numeric text file: the lines before the first data row, and the data
    rows as the written numbers ([%.18e] reads back exactly). *)
Record table : Type := mk_table { leading_lines : list string; data : list row }.

Inductive node : Type :=
| Directory
| TableFile (t : table)
| YamlFile (doc : yaml).

Definition FS : Type := string -> option node.

Definition fs_write (fs : FS) (p : string) (n : node) : FS :=
  fun q => if String.eqb q p then Some n else fs q.

(** [os.path.isdir] and [os.path.isfile], on paths written the way they
    are stored: a path has one spelling. *)
Definition isdir (fs : FS) (p : string) : bool :=
  match fs p with
  | Some Directory => true
  | _ => false
  end.

Definition isfile (fs : FS) (p : string) : bool :=
  match fs p with
  | Some (TableFile _) | Some (YamlFile _) => true
  | _ => false
  end.

Definition nonempty {A} (l : list A) : bool :=
  match l with
  | [] => false
  | _ => true
  end.

(** [np.genfromtxt(path)] with the default arguments: blank lines are
    skipped, rows of different lengths are an error, and the result is
    squeezed. *)
Definition genfromtxt (fs : FS) (p : string) : result ndarray :=
  match fs p with
  | Some (TableFile t) =>
      match filter nonempty (data t) with
      | [] => Returns (Arr1 [])
      | r :: rs =>
          if forallb (fun r' => length r' =? length r) rs
          then Returns (squeeze (mk_array2 (length r) (r :: rs)))
          else Raises (ValueError "Some errors were detected !")
      end
  | Some Directory => Raises IsADirectoryError
  | Some (YamlFile _) => Raises (ValueError "Some errors were detected !")
  | None => Raises (FileNotFoundError (p ++ " not found."))
  end.

(** The header lines [np.savetxt] writes for [header]. *)
Definition header_lines (header : string) : list string :=
  if String.eqb header "" then [] else [("# " ++ header ++ String NL "")%string].

(** [np.savetxt(fpath, X, header=header)] *)
Definition np_savetxt (fs : FS) (fpath : string) (X : list row) (header : string)
  : result FS :=
  match fs fpath with
  | Some Directory => Raises IsADirectoryError
  | _ => Returns (fs_write fs fpath (TableFile (mk_table (header_lines header) X)))
  end.

(** [with open(fpath, 'a') as fn: np.savetxt(fn, [y_val])] *)
Definition append_savetxt (fs : FS) (fpath : string) (y_val : row) : result FS :=
  match fs fpath with
  | Some Directory => Raises IsADirectoryError
  | Some (TableFile t) =>
      Returns (fs_write fs fpath (TableFile (mk_table (leading_lines t) (data t ++ [y_val]))))
  | Some (YamlFile _) => Raises (ValueError "not a numeric table")
  | None => Returns (fs_write fs fpath (TableFile (mk_table [] [y_val])))
  end.

(* ================================================================= *)
(** ** The Sample object *)

(** The attributes of [__init__]; an attribute that holds [None] in Python
    is [None] here. *)
Record Sample : Type := mk_Sample {
  x : option array2;
  y : option array2;
  x_names : option (list string);
  y_names : option (list string);
  n_samples : option nat;
  n_x : option nat;
  n_y : option nat;
  settings : option yaml;
  path : option string;
  x_train : option array2;
  y_train : option array2;
  x_test : option array2;
  y_test : option array2;
  x_ranges : option (list (float * float))
}.

(** [Sample()] *)
Definition Sample_init : Sample :=
  mk_Sample None None None None None None None None None None None None None None.

Definition set_x v (s : Sample) : Sample :=
  mk_Sample v (y s) (x_names s) (y_names s) (n_samples s) (n_x s) (n_y s) (settings s)
    (path s) (x_train s) (y_train s) (x_test s) (y_test s) (x_ranges s).
Definition set_y v (s : Sample) : Sample :=
  mk_Sample (x s) v (x_names s) (y_names s) (n_samples s) (n_x s) (n_y s) (settings s)
    (path s) (x_train s) (y_train s) (x_test s) (y_test s) (x_ranges s).
Definition set_x_names v (s : Sample) : Sample :=
  mk_Sample (x s) (y s) v (y_names s) (n_samples s) (n_x s) (n_y s) (settings s)
    (path s) (x_train s) (y_train s) (x_test s) (y_test s) (x_ranges s).
Definition set_y_names v (s : Sample) : Sample :=
  mk_Sample (x s) (y s) (x_names s) v (n_samples s) (n_x s) (n_y s) (settings s)
    (path s) (x_train s) (y_train s) (x_test s) (y_test s) (x_ranges s).
Definition set_n_samples v (s : Sample) : Sample :=
  mk_Sample (x s) (y s) (x_names s) (y_names s) v (n_x s) (n_y s) (settings s)
    (path s) (x_train s) (y_train s) (x_test s) (y_test s) (x_ranges s).
Definition set_n_x v (s : Sample) : Sample :=
  mk_Sample (x s) (y s) (x_names s) (y_names s) (n_samples s) v (n_y s) (settings s)
    (path s) (x_train s) (y_train s) (x_test s) (y_test s) (x_ranges s).
Definition set_n_y v (s : Sample) : Sample :=
  mk_Sample (x s) (y s) (x_names s) (y_names s) (n_samples s) (n_x s) v (settings s)
    (path s) (x_train s) (y_train s) (x_test s) (y_test s) (x_ranges s).
Definition set_settings v (s : Sample) : Sample :=
  mk_Sample (x s) (y s) (x_names s) (y_names s) (n_samples s) (n_x s) (n_y s) v
    (path s) (x_train s) (y_train s) (x_test s) (y_test s) (x_ranges s).
Definition set_path v (s : Sample) : Sample :=
  mk_Sample (x s) (y s) (x_names s) (y_names s) (n_samples s) (n_x s) (n_y s) (settings s)
    v (x_train s) (y_train s) (x_test s) (y_test s) (x_ranges s).
Definition set_x_ranges v (s : Sample) : Sample :=
  mk_Sample (x s) (y s) (x_names s) (y_names s) (n_samples s) (n_x s) (n_y s) (settings s)
    (path s) (x_train s) (y_train s) (x_test s) (y_test s) v.
Definition set_split (xtr xte ytr yte : array2) (s : Sample) : Sample :=
  mk_Sample (x s) (y s) (x_names s) (y_names s) (n_samples s) (n_x s) (n_y s) (settings s)
    (path s) (Some xtr) (Some ytr) (Some xte) (Some yte) (x_ranges s).

(* ================================================================= *)
(** ** Methods as computations *)

(** What a method call can change: the object it is called on, the files,
    and the warnings printed so far. *)
Record world : Type := mk_world { self : Sample; fs : FS; warnings : list string }.

Definition M (A : Type) : Type := world -> result A * world.

Definition ret {A} (a : A) : M A := fun w => (Returns a, w).
Definition raise {A} (e : exn) : M A := fun w => (Raises e, w).
Definition bind {A B} (m : M A) (k : A -> M B) : M B :=
  fun w => match m w with
           | (Returns a, w') => k a w'
           | (Raises e, w') => (Raises e, w')
           end.

(** [try: m except NotADirectoryError: h] and the like. *)
Definition try_except {A} (m : M A) (catches : exn -> bool) (h : M A) : M A :=
  fun w => match m w with
           | (Returns a, w') => (Returns a, w')
           | (Raises e, w') => if catches e then h w' else (Raises e, w')
           end.

Definition lift {A} (r : result A) : M A := fun w => (r, w).

Declare Scope monad_scope.
Delimit Scope monad_scope with M.
Notation "v <- m ;; k" := (bind m (fun v => k))
  (at level 61, m at next level, right associativity) : monad_scope.
Notation "m ;; k" := (bind m (fun _ => k))
  (at level 61, right associativity) : monad_scope.

Definition get_self : M Sample := fun w => (Returns (self w), w).
Definition update_self (f : Sample -> Sample) : M unit :=
  fun w => (Returns tt, mk_world (f (self w)) (fs w) (warnings w)).
Definition get_fs : M FS := fun w => (Returns (fs w), w).
Definition put_fs (f : FS) : M unit :=
  fun w => (Returns tt, mk_world (self w) f (warnings w)).
(** [io.warning(msg)] *)
Definition io_warning (msg : string) : M unit :=
  fun w => (Returns tt, mk_world (self w) (fs w) (warnings w ++ [msg])).

Definition when (b : bool) (m : M unit) : M unit := if b then m else ret tt.

(** [for a in l: body(a)] *)
Fixpoint for_each {A} (l : list A) (body : A -> M unit) : M unit :=
  match l with
  | [] => ret tt
  | a :: l' => bind (body a) (fun _ => for_each l' body)
  end.

(** An attribute that must not be [None] when it is used. *)
Definition require {A} (o : option A) (e : exn) : M A :=
  match o with
  | Some a => ret a
  | None => raise e
  end.

(* ================================================================= *)
(** ** The methods of the class *)

Section Methods.

(** The entries of [defaults.file_names] the class reads. *)
Variable file_name_params : string.
Variable file_header_params : string.
Variable file_name_x : string.
Variable file_name_y : string.

(** [Params().load(path)] and [Params(content).save(name, root, header)]
    of [params.py]. *)
Variable Params_load : FS -> string -> result yaml.
Variable Params_save : option yaml -> string -> string -> string -> FS -> result FS.

(** [io.Folder(path).create()] *)
Variable Folder_create : string -> FS -> result FS.

(** The functions of [sampling_functions.py]: from an x-row, the names of
    x, the parameters and (after the first call) the model, to the y-row,
    the names of y and the model. *)
Variable model : Type.
Definition sampling_function : Type :=
  row -> option (list string) -> yaml -> option model
  -> row * option (list string) * model.
Variable fng : string -> option sampling_function.

(** [smp.Sampler().choose_one(spacing).get_x(params, x_names, n_samples)] *)
Variable Sampler_get_x : string -> yaml -> list string -> Z -> result array2.

(** [rng.permutation(n)] of [RandomState(seed)], used by scikit-learn. *)
Variable rng_permutation : Z -> nat -> list nat.

(** *** Loading arrays *)

(** The loop of [_try_to_load_names_array]: the last line of the leading
    run of lines that start with the comment character. *)
Fixpoint last_comment (comments : ascii) (lines : list string) (names : option string)
  : option string :=
  match lines with
  | [] => names
  | line :: rest =>
      if startswith comments line then last_comment comments rest (Some line)
      else names
  end.

Definition _try_to_load_names_array (fs : FS) (path : string) (n_names : option nat)
  : result (option (list string)) :=
  match fs path with
  | Some (TableFile t) =>
      match last_comment HASH (leading_lines t) None with
      | None => Returns None
      | Some line =>
          let names := re_sub_char HASH line in
          let names := split TAB names in
          let names := map strip names in
          match n_names with
          | Some (S n) =>
              if S n =? length names then Returns (Some names) else Returns None
          | _ => Returns (Some names)
          end
      end
  | Some Directory => Raises IsADirectoryError
  | Some (YamlFile _) => Returns None
  | None => Raises (FileNotFoundError ("[Errno 2] No such file or directory: " ++ path))
  end.

Definition _load_array (fs : FS) (path : string) (cols : columns)
  : result (array2 * option (list string)) :=
  (array <-- genfromtxt fs path ;;;
   array <-- match array with
             | Arr1 v => Returns (newaxis_col v)
             | Arr2 a => Returns a
             | Arr0 _ => Raises (IndexError "tuple index out of range")
             end ;;;
   names <-- _try_to_load_names_array fs path (Some (shape1 array)) ;;;
   array <-- getitem_cols array cols ;;;
   names <-- match names with
             | Some ns => ns' <-- getitem_names ns cols ;;; Returns (Some ns')
             | None => Returns None
             end ;;;
   Returns (array, names))%res.

(** *** Saving *)

Definition no_path : exn :=
  TypeError "expected str, bytes or os.PathLike object, not NoneType".
Definition no_array : exn :=
  AttributeError "'NoneType' object has no attribute 'shape'".

Definition _save_settings (path : string) : M unit :=
  (s <- get_self ;;
   f <- get_fs ;;
   f' <- lift (Params_save (settings s) file_name_params path file_header_params f) ;;
   put_fs f')%M.

(** [np.savetxt(fpath, X, header=header)] on an attribute: for [None]
    numpy has created the file, empty, when it finds that there is no
    array to write. *)
Definition savetxt_attribute (fpath : string) (X : option array2) (header : string)
  : M unit :=
  (f <- get_fs ;;
   match X with
   | Some a =>
       f' <- lift (np_savetxt f fpath (rows a) header) ;;
       put_fs f'
   | None =>
       f' <- lift (np_savetxt f fpath [] "") ;;
       put_fs f' ;;
       raise (ValueError "Expected 1D or 2D array, got 0D array instead")
   end)%M.

Definition _save_x (path : string) : M unit :=
  (let fpath := os_path_join path file_name_x in
   s <- get_self ;;
   names <- require (x_names s) (TypeError "can only join an iterable") ;;
   savetxt_attribute fpath (x s) (join_str (String TAB "") names))%M.

Definition _save_y (path : string) : M unit :=
  (let fpath := os_path_join path file_name_y in
   s <- get_self ;;
   let header := match y_names s with
                 | Some names => join_str (String TAB "") names
                 | None => ""
                 end in
   savetxt_attribute fpath (y s) header)%M.

Definition _append_y (path : option string) (y_val : row) : M unit :=
  (p <- require path no_path ;;
   let fpath := os_path_join p file_name_y in
   f <- get_fs ;;
   f' <- lift (append_savetxt f fpath y_val) ;;
   put_fs f')%M.

Definition _is_varying (params : yaml) (param : string) : result bool :=
  match getitem_key params param with
  | Returns (YDict entries) => Returns (existsb (fun kv => String.eqb (fst kv) "prior") entries)
  | Returns _ => Returns false
  | Raises e => Raises e
  end.

Definition save (path : string) : M unit :=
  (update_self (set_path (Some path)) ;;
   f <- get_fs ;;
   f' <- lift (Folder_create path f) ;;
   put_fs f' ;;
   _save_settings path ;;
   _save_x path ;;
   _save_y path)%M.

(** *** load *)

Definition is_NotADirectoryError (e : exn) : bool :=
  match e with
  | NotADirectoryError => true
  | _ => false
  end.

Definition sample_path_msg : string :=
  "Something is wrong with your sample path. I could not identify the x and y paths".

Definition settings_warning : string := "Unable to load parameter file!".

(** Lines 250-255: the settings, if any. *)
Definition load_settings (path : string) : M unit :=
  (let path_settings := os_path_join path file_name_params in
   try_except
     (f <- get_fs ;;
      st <- lift (Params_load f path_settings) ;;
      update_self (set_settings (Some st)))
     is_NotADirectoryError
     (io_warning settings_warning))%M.

(** Lines 257-280: the paths of x and y and the columns to read. *)
Definition assign_paths (path : string) (path_y : option string)
    (columns_x columns_y : columns) : M (string * string * columns * columns) :=
  (f <- get_fs ;;
   if truthy path && truthy_opt path_y then
     ret (path, match path_y with Some p => p | None => "" end, columns_x, columns_y)
   else if isdir f path then
     update_self (set_path (Some path)) ;;
     ret (os_path_join path file_name_x, os_path_join path file_name_y,
          columns_x, columns_y)
   else if isfile f path then
     ret (path, path, Slice None (Some (-1)%Z), Slice (Some (-1)%Z) None)
   else raise (FileNotFoundError sample_path_msg))%M.

(** Lines 282-299: the data, the ranges, the filter and the counts. *)
Definition load_data (path_x path_y : string) (columns_x columns_y : columns)
    (remove_non_finite : bool) : M unit :=
  (f <- get_fs ;;
   xn <- lift (_load_array f path_x columns_x) ;;
   update_self (fun s => set_x_names (snd xn) (set_x (Some (fst xn)) s)) ;;
   yn <- lift (_load_array f path_y columns_y) ;;
   update_self (fun s => set_y_names (snd yn) (set_y (Some (fst yn)) s)) ;;
   mins <- lift (np_min_axis0 (fst xn)) ;;
   maxs <- lift (np_max_axis0 (fst xn)) ;;
   update_self (set_x_ranges (Some (combine mins maxs))) ;;
   when remove_non_finite
     (let only_finites := any_isfinite_axis1 (fst yn) in
      xa <- lift (getitem_mask (fst xn) only_finites) ;;
      update_self (set_x (Some xa)) ;;
      ya <- lift (getitem_mask (fst yn) only_finites) ;;
      update_self (set_y (Some ya))) ;;
   s <- get_self ;;
   xa <- require (x s) no_array ;;
   update_self (set_n_samples (Some (shape0 xa))) ;;
   update_self (set_n_x (Some (shape1 xa))) ;;
   ya <- require (y s) no_array ;;
   update_self (set_n_y (Some (shape1 ya))))%M.

(** Lines 257-299: what follows the settings. *)
Definition load_rest (path : string) (path_y : option string)
    (columns_x columns_y : columns) (remove_non_finite : bool) : M unit :=
  (p <- assign_paths path path_y columns_x columns_y ;;
   let '(path_x, path_y, columns_x, columns_y) := p in
   load_data path_x path_y columns_x columns_y remove_non_finite)%M.

Definition load (path : string) (path_y : option string)
    (columns_x columns_y : columns) (remove_non_finite : bool) : M unit :=
  (load_settings path ;;
   load_rest path path_y columns_x columns_y remove_non_finite)%M.

(** *** generate *)

Definition cobaya : string := "cobaya_loglike".

(** [list.append] on the list of rows [self.y] holds while [generate]
    runs; the rows are kept in the attribute and [np.array] makes the
    array at the end. *)
Definition append_row (y_val : row) (ya : option array2) : option array2 :=
  match ya with
  | Some a => Some (mk_array2 (shape1 a) (rows a ++ [y_val]))
  | None => None
  end.

(** [[k for k in d if self._is_varying(d, k)]] *)
Definition varying_names (sampled_params : yaml) : result (list string) :=
  match sampled_params with
  | YDict entries =>
      (flags <-- rmap (fun kv => _is_varying sampled_params (fst kv)) entries ;;;
       Returns (mask_filter flags (map fst entries)))%res
  | _ => Raises (TypeError "object is not iterable")
  end.

(** [eval('fng.' + name)] for a [name] that is the name of an attribute:
    the sampling function of that name, and [AttributeError] when the
    module has no such attribute. *)
Definition eval_fng (name : string) : M sampling_function :=
  require (fng name) (AttributeError name).

(** Lines 362-408: everything up to the first row of y. *)
Definition generate_first (params : yaml) (sampled_function : string) (n : Z)
    (spacing : string) (save_incrementally : bool) (output_path : option string)
  : M (sampling_function * model * list string * array2) :=
  (when save_incrementally
     (update_self (set_path output_path) ;;
      p <- require output_path no_path ;;
      f <- get_fs ;;
      f' <- lift (Folder_create p f) ;;
      put_fs f') ;;
   let params_name := if String.eqb sampled_function cobaya then "cobaya" else "params" in
   update_self (set_settings (Some (YDict [(params_name, params);
                                           ("sampled_function", YStr sampled_function);
                                           ("n_samples", YInt n);
                                           ("spacing", YStr spacing)]))) ;;
   when save_incrementally
     (p <- require output_path no_path ;; _save_settings p) ;;
   fun_ <- eval_fng sampled_function ;;
   sampled_params <- (if String.eqb sampled_function cobaya
                      then lift (getitem_key params "params")
                      else ret params) ;;
   names <- lift (varying_names sampled_params) ;;
   update_self (set_x_names (Some names)) ;;
   xa <- lift (Sampler_get_x spacing sampled_params names n) ;;
   update_self (set_x (Some xa)) ;;
   update_self (set_n_x (Some (shape1 xa))) ;;
   when save_incrementally
     (p <- require output_path no_path ;; _save_x p) ;;
   x0 <- lift (getitem_row0 xa) ;;
   let '(y_val, ynames, mdl) := fun_ x0 (Some names) params None in
   update_self (set_y_names ynames) ;;
   update_self (set_y (Some (mk_array2 (length y_val) [y_val]))) ;;
   when save_incrementally
     (p <- require output_path no_path ;; _save_y p) ;;
   ret (fun_, mdl, names, xa))%M.

(** Lines 412-415: the body of the loop over [self.x[1:]]. *)
Definition generate_step (fun_ : sampling_function) (mdl : model) (names : list string)
    (params : yaml) (save_incrementally : bool) (output_path : option string)
    (xr : row) : M unit :=
  (let '(y_val, _, _) := fun_ xr (Some names) params (Some mdl) in
   update_self (fun s => set_y (append_row y_val (y s)) s) ;;
   when save_incrementally (_append_y output_path y_val))%M.

(** Lines 417-418. *)
Definition generate_last : M unit :=
  (s <- get_self ;;
   ya <- require (y s) no_array ;;
   arr <- lift (np_array (rows ya)) ;;
   update_self (set_y (Some arr)) ;;
   update_self (set_n_y (Some (shape1 arr))))%M.

Definition generate (params : yaml) (sampled_function : string) (n : Z)
    (spacing : string) (save_incrementally : bool) (output_path : option string)
  : M unit :=
  (c <- generate_first params sampled_function n spacing save_incrementally output_path ;;
   let '(fun_, mdl, names, xa) := c in
   for_each (tl (rows xa))
     (generate_step fun_ mdl names params save_incrementally output_path) ;;
   generate_last)%M.

(** The same run when the process is terminated once [k] rows of y are
    written ([1 <= k]): the loop stops after [k - 1] rows and nothing
    after it runs. *)
Definition generate_killed (k : nat) (params : yaml) (sampled_function : string)
    (n : Z) (spacing : string) (save_incrementally : bool)
    (output_path : option string) : M unit :=
  (c <- generate_first params sampled_function n spacing save_incrementally output_path ;;
   let '(fun_, mdl, names, xa) := c in
   for_each (firstn (k - 1) (tl (rows xa)))
     (generate_step fun_ mdl names params save_incrementally output_path))%M.

(** *** resume *)

Definition getitem_str (d : yaml) (k : string) : result string :=
  match getitem_key d k with
  | Returns (YStr s) => Returns s
  | Returns _ => Raises (TypeError "can only concatenate str")
  | Raises e => Raises e
  end.

Definition getitem_int (d : yaml) (k : string) : result Z :=
  match getitem_key d k with
  | Returns (YInt z) => Returns z
  | Returns _ => Raises (TypeError "unsupported operand type(s) for -")
  | Raises e => Raises e
  end.

(** Lines 462-465: the body of the loop over [self.x[self.y.shape[0]:]]. *)
Definition resume_step (fun_ : sampling_function) (mdl : model)
    (names : option (list string)) (params : yaml) (save_incrementally : bool)
    (xr : row) : M unit :=
  (let '(y_val, _, _) := fun_ xr names params (Some mdl) in
   s <- get_self ;;
   ya <- require (y s) no_array ;;
   ya' <- lift (vstack_row ya y_val) ;;
   update_self (set_y (Some ya')) ;;
   when save_incrementally (_append_y (path s) y_val))%M.

Definition resume (save_incrementally : bool) : M unit :=
  (s <- get_self ;;
   st <- require (settings s) (TypeError "'NoneType' object is not subscriptable") ;;
   n <- lift (getitem_int st "n_samples") ;;
   ya <- require (y s) no_array ;;
   let remaining_steps := (n - Z.of_nat (shape0 ya))%Z in
   if (remaining_steps =? 0)%Z then ret tt
   else
     sf <- lift (getitem_str st "sampled_function") ;;
     fun_ <- eval_fng sf ;;
     sf' <- lift (getitem_str st "sampled_function") ;;
     params <- lift (if String.eqb sf' cobaya
                     then getitem_key st "cobaya"
                     else getitem_key st "params") ;;
     xa <- require (x s) (TypeError "'NoneType' object is not subscriptable") ;;
     x0 <- lift (getitem_row0 xa) ;;
     let '(_, _, mdl) := fun_ x0 (x_names s) params None in
     for_each (rows_from (shape0 ya) xa)
       (resume_step fun_ mdl (x_names s) params save_incrementally))%M.

(** *** join *)

Definition eqb_opt_nat (a b : option nat) : bool :=
  match a, b with
  | Some n, Some m => n =? m
  | None, None => true
  | _, _ => false
  end.

Definition join_msg : string :=
  "Samples can not be joined as they have different number of x variables".

(** An input whose array attribute is still [None] is not a loaded
    sample; stacking it is counted as a type error. *)
Definition not_an_array : exn := TypeError "NoneType is not an array".

Definition arrays_of (get : Sample -> option array2) (samples : list Sample)
  : result (list array2) :=
  rmap (fun s => match get s with
                 | Some a => Returns a
                 | None => Raises not_an_array
                 end) samples.

(** [sum([s.n_samples for s in samples])] *)
Fixpoint sum_n_samples (samples : list Sample) : result nat :=
  match samples with
  | [] => Returns 0
  | s :: rest =>
      match n_samples s with
      | Some n =>
          match sum_n_samples rest with
          | Returns m => Returns (n + m)
          | Raises e => Raises e
          end
      | None => Raises (TypeError "unsupported operand type(s) for +: 'int' and 'NoneType'")
      end
  end.

Definition join (samples : list Sample) : result Sample :=
  match samples with
  | [] => Raises (IndexError "list index out of range")
  | s0 :: _ =>
      let sample := Sample_init in
      if forallb (fun s => eqb_opt_nat (n_x s) (n_x s0)) samples then
        let sample := set_n_x (n_x s0) sample in
        if forallb (fun s => eqb_opt_nat (n_y s) (n_y s0)) samples then
          let sample := set_n_y (n_y s0) sample in
          (total <-- arrays_of x samples ;;;
           xa <-- vstack total ;;;
           let sample := set_x (Some xa) sample in
           mins <-- np_min_axis0 xa ;;;
           maxs <-- np_max_axis0 xa ;;;
           let sample := set_x_ranges (Some (combine mins maxs)) sample in
           total <-- arrays_of y samples ;;;
           ya <-- vstack total ;;;
           let sample := set_y (Some ya) sample in
           let sample := set_x_names (x_names s0) sample in
           let sample := set_y_names (y_names s0) sample in
           n <-- sum_n_samples samples ;;;
           Returns (set_n_samples (Some n) sample))%res
        else Raises (ValueError join_msg)
      else Raises (ValueError join_msg)
  end.

(** *** train_test_split *)

Fixpoint float_of_nat (n : nat) : float :=
  match n with
  | 0 => 0%float
  | S k => (float_of_nat k + 1)%float
  end.

(** [floor(v)] for [0 <= v <= k]: the largest integer up to [k] that is
    not above [v]. *)
Fixpoint floor_upto (k : nat) (v : float) : nat :=
  match k with
  | 0 => 0
  | S k' => if PrimFloat.leb (float_of_nat k) v then k else floor_upto k' v
  end.

(** [floor(train_size * n)] *)
Definition n_train_of (train_size : float) (n : nat) : nat :=
  floor_upto n (train_size * float_of_nat n)%float.

(** [a[idx]] for a list of row positions. *)
Definition take_rows (a : array2) (idx : list nat) : array2 :=
  mk_array2 (shape1 a) (map (fun i => nth i (rows a) []) idx).

(** [sklearn.model_selection.train_test_split(x, y, train_size=f,
    random_state=seed)]: the arrays must have the same number of rows,
    the fraction must lie strictly between 0 and 1, the seed must be a
    32-bit unsigned integer and the train part must not be empty; the
    test part is a prefix of a permutation of the row positions and the
    train part is what follows. *)
Definition skl_train_test_split (xa ya : array2) (train_size : float) (random_state : Z)
  : result (array2 * array2 * array2 * array2) :=
  let n := shape0 xa in
  if negb (shape0 ya =? n) then
    Raises (ValueError "Found input variables with inconsistent numbers of samples")
  else if negb (PrimFloat.ltb 0 train_size && PrimFloat.ltb train_size 1) then
    Raises (ValueError "train_size should be in the (0, 1) range")
  else
    let n_train := n_train_of train_size n in
    let n_test := n - n_train in
    if n_train =? 0 then Raises (ValueError "the resulting train set will be empty")
    else if negb ((0 <=? random_state)%Z && (random_state <? 2 ^ 32)%Z) then
      Raises (ValueError "Seed must be between 0 and 2**32 - 1")
    else
      let permutation := rng_permutation random_state n in
      let ind_test := firstn n_test permutation in
      let ind_train := firstn n_train (skipn n_test permutation) in
      Returns (take_rows xa ind_train, take_rows xa ind_test,
               take_rows ya ind_train, take_rows ya ind_test).

Definition train_test_split (frac_train : float) (seed : Z) : M unit :=
  (s <- get_self ;;
   xa <- require (x s) not_an_array ;;
   ya <- require (y s) not_an_array ;;
   split <- lift (skl_train_test_split xa ya frac_train seed) ;;
   let '(xtr, xte, ytr, yte) := split in
   update_self (set_split xtr xte ytr yte))%M.

End Methods.

(* ================================================================= *)
(** ** A file system for the collaborators *)

(** Is a proper prefix of the path (up to a separator) a regular file? *)
Fixpoint file_on_the_way (f : FS) (pre rest : string) : bool :=
  match rest with
  | EmptyString => false
  | String c rest' =>
      (if Ascii.eqb c SLASH then isfile f pre else false)
      || file_on_the_way f (pre ++ String c "")%string rest'
  end.

(** The error of [open(p)] on a path that is not there. *)
Definition open_error (f : FS) (p : string) : exn :=
  if file_on_the_way f "" p then NotADirectoryError
  else FileNotFoundError ("[Errno 2] No such file or directory: " ++ p).

(** Modelled from the spec: [params.py] is not among the sources.  Section 6
    gives "Settings persistence: load/save a structured key-value document
    at a given path"; loading opens the file and parses it, and the errors
    of [open] and of the parser are not handled here. *)
Definition Params_load_open (f : FS) (p : string) : result yaml :=
  match f p with
  | Some (YamlFile doc) => Returns doc
  | Some (TableFile _) => Raises YAMLError
  | Some Directory => Raises IsADirectoryError
  | None => Raises (open_error f p)
  end.

(** Modelled from the spec: the saving half of the same interface. *)
Definition Params_save_open (content : option yaml) (name root header : string) (f : FS)
  : result FS :=
  match content with
  | Some doc => Returns (fs_write f (os_path_join root name) (YamlFile doc))
  | None => Returns (fs_write f (os_path_join root name) (YamlFile (YDict [])))
  end.

(** Modelled from the spec: [io.py] is not among the sources; creating the
    folder leaves a directory at the path. *)
Definition Folder_create_mkdir (p : string) (f : FS) : result FS :=
  match f p with
  | Some (TableFile _) | Some (YamlFile _) =>
      Raises (FileNotFoundError ("[Errno 17] File exists: " ++ p))
  | _ => Returns (fs_write f p Directory)
  end.

Definition empty_fs : FS := fun _ => None.

(* ================================================================= *)
(** ** Names of the specification *)

(** The specification calls the [ValueError] of [join]
    [IncompatibleSampleError] and the [FileNotFoundError] of [load]
    [InvalidPathError]. *)
Definition IncompatibleSampleError : exn := ValueError join_msg.

(** The invariant of section 3 of the specification as a check on one
    object: [x.rows == y.rows == n_samples], [n_x == x.cols],
    [n_y == y.cols]. *)
Definition consistent (s : Sample) : bool :=
  match x s, y s, n_samples s, n_x s, n_y s with
  | Some xa, Some ya, Some n, Some nx, Some ny =>
      (shape0 xa =? n) && (shape0 ya =? n) && (shape1 xa =? nx) && (shape1 ya =? ny)
  | _, _, _, _, _ => false
  end.

(** The same without the comparison of the two row counts, which a sample
    that is still to be resumed does not satisfy. *)
Definition counted (s : Sample) : bool :=
  match x s, y s, n_samples s, n_x s, n_y s with
  | Some xa, Some ya, Some n, Some nx, Some ny =>
      (shape0 xa =? n) && (shape1 xa =? nx) && (shape1 ya =? ny)
  | _, _, _, _, _ => false
  end.

(** A rectangular array: every row has [shape[1]] entries. *)
Definition well_formed (a : array2) : bool :=
  forallb (fun r => length r =? shape1 a) (rows a).

(** What [load] leaves behind: arrays, counts that agree with them, and a
    rectangular x. *)
Definition loaded (s : Sample) : bool :=
  counted s && match x s with
               | Some xa => well_formed xa
               | None => false
               end.

Definition empty_array : array2 := mk_array2 0 [].
Definition the_x (s : Sample) : array2 :=
  match x s with Some a => a | None => empty_array end.
Definition the_y (s : Sample) : array2 :=
  match y s with Some a => a | None => empty_array end.
Definition the_n_samples (s : Sample) : nat :=
  match n_samples s with Some n => n | None => 0 end.

(** Column [j] of an array, and the (min, max) of every column. *)
Definition column (j : nat) (a : array2) : list float :=
  map (fun r => nth j r 0%float) (rows a).

Definition reduce_list (f : float -> float -> float) (l : list float) : float :=
  match l with
  | [] => 0%float
  | v :: vs => fold_left f vs v
  end.

Definition column_ranges (a : array2) : list (float * float) :=
  map (fun j => (reduce_list np_minimum (column j a), reduce_list np_maximum (column j a)))
      (seq 0 (shape1 a)).

(** Two objects that differ at most in [y]. *)
Definition same_but_y (s s' : Sample) : Prop :=
  x s' = x s /\ x_names s' = x_names s /\ y_names s' = y_names s
  /\ n_samples s' = n_samples s /\ n_x s' = n_x s /\ n_y s' = n_y s
  /\ settings s' = settings s /\ path s' = path s.

(** The y-row of an x-row once the model is there. *)
Definition y_of {model : Type} (f : sampling_function model)
    (names : option (list string)) (params : yaml) (mdl : model) (xr : row) : row :=
  fst (fst (f xr names params (Some mdl))).

(** The settings [generate] records. *)
Definition settings_of (params : yaml) (sampled_function : string) (n : Z)
    (spacing : string) : yaml :=
  YDict [(if String.eqb sampled_function cobaya then "cobaya" else "params", params);
         ("sampled_function", YStr sampled_function);
         ("n_samples", YInt n);
         ("spacing", YStr spacing)].

(** The parameters given to the sampler. *)
Definition sampled_params_of (params : yaml) (sampled_function : string) : result yaml :=
  if String.eqb sampled_function cobaya then getitem_key params "params"
  else Returns params.

(** The names read back from a file that [np.savetxt] wrote with the header
    [header], for an array of [c] columns. *)
Definition names_of_header (header : string) (c : nat) : option (list string) :=
  if String.eqb header "" then None
  else
    let names :=
      map strip (split TAB (re_sub_char HASH ("# " ++ header ++ String NL "")%string)) in
    match c with
    | 0 => Some names
    | S _ => if c =? length names then Some names else None
    end.




(** The number of rows a boolean mask keeps. *)
Definition count_true (mask : list bool) : nat := length (filter (fun b => b) mask).

(* ================================================================= *)
(** ** A concrete installation *)

Module Scenario.

Definition file_name_params : string := "params.yaml".
Definition file_header_params : string := "Parameters".
Definition file_name_x : string := "x_sample.txt".
Definition file_name_y : string := "y_sample.txt".

(** A sampled function with two outputs and no state to speak of. *)
Definition two_outputs : sampling_function unit :=
  fun xr _ _ _ =>
    (match xr with
     | v :: _ => [v; (v + 1)%float]
     | [] => [0%float; 0%float]
     end, Some ["y0"; "y1"], tt).

Definition fng (name : string) : option (sampling_function unit) :=
  if String.eqb name "two_outputs" then Some two_outputs else None.

(** A sampler that puts the points [0, 1, 2, ...] on every axis. *)
Definition Sampler_get_x (spacing : string) (params : yaml) (names : list string) (n : Z)
  : result array2 :=
  Returns (mk_array2 (length names)
             (map (fun i => map (fun _ => float_of_nat i) names) (seq 0 (Z.to_nat n)))).

(** A generator whose permutation is the reversal. *)
Definition rng_permutation (seed : Z) (n : nat) : list nat := rev (seq 0 n).

Definition params : yaml :=
  YDict [("a", YDict [("prior", YDict [("min", YInt 0); ("max", YInt 1)])]);
         ("b", YInt 3)].

Definition settings_3 : yaml := settings_of params "two_outputs" 3%Z "grid".


Definition generate :=
  generate file_name_params file_header_params file_name_x file_name_y
    Params_save_open Folder_create_mkdir fng Sampler_get_x.
Definition generate_killed :=
  generate_killed file_name_params file_header_params file_name_x file_name_y
    Params_save_open Folder_create_mkdir fng Sampler_get_x.
Definition load := load file_name_params file_name_x file_name_y Params_load_open.
Definition resume := resume file_name_y fng.
Definition train_test_split := train_test_split rng_permutation.

Definition all_columns : columns := Slice None None.

(** A process that starts with a new object on the files [f]. *)
Definition fresh (f : FS) : world := mk_world Sample_init f [].

(** Three rows, generated into [out] without interruption. *)
Definition uninterrupted : result unit * world :=
  generate params "two_outputs" 3%Z "grid" true (Some "out") (fresh empty_fs).

(** The same run terminated after [k] rows of y, then a new process
    that loads the folder and resumes. *)
Definition interrupted (k : nat) : result unit * world :=
  generate_killed k params "two_outputs" 3%Z "grid" true (Some "out") (fresh empty_fs).
Definition reloaded (k : nat) : result unit * world :=
  load "out" None all_columns all_columns false (fresh (fs (snd (interrupted k)))).
Definition resumed (k : nat) : result unit * world :=
  resume true (snd (reloaded k)).

Definition table_of (header : string) (d : list row) : node :=
  TableFile (mk_table (header_lines header) d).

(** A folder whose y has one row with a NaN next to a finite value and
    one row without any finite value. *)
Definition fs_nan : FS :=
  fs_write (fs_write (fs_write (fs_write empty_fs
    "nf" Directory)
    "nf/params.yaml" (YamlFile (YDict [])))
    "nf/x_sample.txt" (table_of "a" [[1%float]; [2%float]; [3%float]]))
    "nf/y_sample.txt" (table_of "" [[1%float; nan]; [2%float; 3%float]; [nan; infinity]]).

(** A folder whose y has no finite value at all. *)
Definition fs_all_nan : FS :=
  fs_write (fs_write (fs_write (fs_write empty_fs
    "an" Directory)
    "an/params.yaml" (YamlFile (YDict [])))
    "an/x_sample.txt" (table_of "a" [[1%float]; [2%float]]))
    "an/y_sample.txt" (table_of "c" [[nan]; [nan]]).

(** A folder with the two data files and no settings file. *)
Definition fs_no_settings : FS :=
  fs_write (fs_write (fs_write empty_fs
    "ns" Directory)
    "ns/x_sample.txt" (table_of "a" [[1%float]; [2%float]]))
    "ns/y_sample.txt" (table_of "c" [[3%float]; [4%float]]).

(** Single files with x and y together, without a header: one with two
    rows of three columns, one with a single row of three columns. *)
Definition fs_single : FS :=
  fs_write (fs_write empty_fs
    "xy.txt" (table_of "" [[1%float; 2%float; 3%float]; [4%float; 5%float; 6%float]]))
    "one.txt" (table_of "" [[1%float; 2%float; 3%float]]).

(** Two loaded samples with one row each and a different [n_x]. *)
Definition sample_1x1 : Sample :=
  set_n_y (Some 1) (set_n_x (Some 1) (set_n_samples (Some 1)
    (set_y (Some (mk_array2 1 [[5%float]]))
       (set_x (Some (mk_array2 1 [[1%float]])) Sample_init)))).
Definition sample_1x2 : Sample :=
  set_n_y (Some 1) (set_n_x (Some 2) (set_n_samples (Some 1)
    (set_y (Some (mk_array2 1 [[6%float]]))
       (set_x (Some (mk_array2 2 [[2%float; 3%float]])) Sample_init)))).
Definition sample_2x1 : Sample :=
  set_x_names (Some ["a"]) (set_n_y (Some 1) (set_n_x (Some 1) (set_n_samples (Some 2)
    (set_y (Some (mk_array2 1 [[7%float]; [8%float]]))
       (set_x (Some (mk_array2 1 [[4%float]; [0%float]])) Sample_init))))).

(** A process that holds the object [s] and no file. *)
Definition holding (s : Sample) : world := mk_world s empty_fs [].

(** Two rows, the run terminated after the first row of y, then loaded
    and resumed. *)
Definition uninterrupted_2 : result unit * world :=
  generate params "two_outputs" 2%Z "grid" true (Some "out") (fresh empty_fs).
Definition interrupted_2 : result unit * world :=
  generate_killed 1 params "two_outputs" 2%Z "grid" true (Some "out") (fresh empty_fs).
Definition reloaded_2 : result unit * world :=
  load "out" None all_columns all_columns false (fresh (fs (snd interrupted_2))).
Definition resumed_2 : result unit * world :=
  resume true (snd reloaded_2).

End Scenario.

(* ================================================================= *)
(** ** Headers, priors and whole files *)

(** [c in s] for a character. *)
Fixpoint has_char (c : ascii) (s : string) : bool :=
  match s with
  | EmptyString => false
  | String a s' => Ascii.eqb a c || has_char c s'
  end.

(** Do all the characters of [s] satisfy [p]? *)
Fixpoint all_chars (p : ascii -> bool) (s : string) : bool :=
  match s with
  | EmptyString => true
  | String a s' => p a && all_chars p s'
  end.

(** A character of a name: printable ASCII other than the comment
    character, so neither a delimiter, nor a line break of any kind, nor a
    control character, nor white space outside ASCII. *)
Definition name_char (c : ascii) : bool :=
  let n := nat_of_ascii c in
  (32 <=? n) && (n <=? 126) && negb (n =? 35).

(** A name that goes through a header unchanged: characters of names
    only, and no space at either end. *)
Definition plain_name (s : string) : bool :=
  all_chars name_char s && String.eqb (lstrip s) s && String.eqb (rstrip s) s.


(** The header [_save_y] writes: the names joined by the delimiter, and
    nothing when there are no names. *)
Definition header_of (names : option (list string)) : string :=
  match names with
  | Some l => join_str (String TAB "") l
  | None => ""
  end.


(** *** Names of attributes *)

Definition is_letter (c : ascii) : bool :=
  let n := nat_of_ascii c in
  ((65 <=? n) && (n <=? 90)) || ((97 <=? n) && (n <=? 122)).

Definition is_digit (c : ascii) : bool :=
  let n := nat_of_ascii c in
  (48 <=? n) && (n <=? 57).

(** [keyword.kwlist] *)
Definition python_keywords : list string :=
  ["False"; "None"; "True"; "and"; "as"; "assert"; "async"; "await"; "break"; "class";
   "continue"; "def"; "del"; "elif"; "else"; "except"; "finally"; "for"; "from";
   "global"; "if"; "import"; "in"; "is"; "lambda"; "nonlocal"; "not"; "or"; "pass";
   "raise"; "return"; "try"; "while"; "with"; "yield"].

(** A string [s] for which [eval('fng.' + s)] is the lookup of the
    attribute [s] of the module: an ASCII identifier that starts with a
    letter and is not a keyword. *)
Definition attribute_name (s : string) : bool :=
  match s with
  | EmptyString => false
  | String c s' =>
      is_letter c
      && all_chars (fun a => is_letter a || is_digit a || Ascii.eqb a "_") s'
      && negb (existsb (String.eqb s) python_keywords)
  end.

(** *** Inputs of join *)

(** The inputs on which the array operations of [join] go through: every
    input holds x, y and [n_samples], the x of every input has as many
    columns as the x of the first, likewise the y, and some x has a
    row. *)
Definition stackable (samples : list Sample) : bool :=
  match samples with
  | [] => false
  | s0 :: _ =>
      forallb (fun s => match x s, y s, n_samples s with
                        | Some _, Some _, Some _ => true
                        | _, _, _ => false
                        end) samples
      && forallb (fun s => shape1 (the_x s) =? shape1 (the_x s0)) samples
      && forallb (fun s => shape1 (the_y s) =? shape1 (the_y s0)) samples
      && existsb (fun s => nonempty (rows (the_x s))) samples
  end.

(** Is the value a dictionary with the key [prior]? *)
Definition has_prior (v : yaml) : bool :=
  match v with
  | YDict entries => existsb (fun kv => String.eqb (fst kv) "prior") entries
  | _ => false
  end.


(** The rows numpy leaves after the mask [np.any(np.isfinite(y), axis=1)]. *)
Definition finite_rows (ya : array2) (a : array2) : array2 :=
  mk_array2 (shape1 a) (mask_filter (any_isfinite_axis1 ya) (rows a)).

(** The pieces of a joined line, with something before the first and
    after the last. *)
Fixpoint wrap_last (suf : string) (l : list string) : list string :=
  match l with
  | [] => []
  | [n] => [(n ++ suf)%string]
  | n :: l' => n :: wrap_last suf l'
  end.

Definition wrap (pre suf : string) (l : list string) : list string :=
  match wrap_last suf l with
  | [] => []
  | n :: l' => (pre ++ n)%string :: l'
  end.


(** The files of a run of [generate] into [out] after the first row of y,
    on top of the files [f0]. *)
Definition first_files (file_name_params file_name_x file_name_y out : string) (f0 : FS)
    (params : yaml) (sf : string) (n : Z) (spacing : string)
    (names : list string) (xa : array2) (ynames : option (list string)) (y0 : row) : FS :=
  fs_write
    (fs_write
       (fs_write (fs_write f0 out Directory) (os_path_join out file_name_params)
          (YamlFile (settings_of params sf n spacing)))
       (os_path_join out file_name_x)
       (TableFile (mk_table (header_lines (join_str (String TAB "") names)) (rows xa))))
    (os_path_join out file_name_y)
    (TableFile (mk_table (header_lines (header_of ynames)) [y0])).

(* ================================================================= *)
(** ** pipelines/sample.py *)

(** How a script ends: [exit()] raises [SystemExit], and an exception
    that nothing catches ends it as well. *)
Inductive ending : Type :=
| SystemExit
| Uncaught (e : exn).

Section Pipeline.

Variables file_name_params file_name_x file_name_y : string.
Variable Params_load : FS -> string -> result yaml.

(** [sample = Sample()] followed by [sample.load(path, path_y=path_y)]
    with the other arguments at their defaults. *)
Definition load_new (path : string) (path_y : option string) : M unit :=
  (update_self (fun _ => Sample_init) ;;
   load file_name_params file_name_x file_name_y Params_load path path_y
     (Slice None None) (Slice None None) false)%M.

(** [sample_emu(args)] up to its first [exit()], which is always reached
    unless a [load] raises; what follows it in the source never runs. *)
Definition sample_emu (w : world) : ending * world :=
  match (load_new "output/full_2files" None ;;
         load_new "output/full_1file/xy_sample.txt" None ;;
         load_new "output/full_2files/x_sample.txt"
           (Some "output/full_2files/y_sample.txt"))%M w with
  | (Returns _, w') => (SystemExit, w')
  | (Raises e, w') => (Uncaught e, w')
  end.

End Pipeline.

(** The files the pipeline looks for: a folder with the settings and the
    two tables, and a single file with x and y. *)
Definition pipeline_files : FS :=
  fs_write (fs_write (fs_write (fs_write (fs_write (fs_write (fs_write empty_fs
    "output" Directory)
    "output/full_2files" Directory)
    "output/full_2files/params.yaml" (YamlFile (YDict [("n_samples", YInt 2)])))
    "output/full_2files/x_sample.txt"
      (TableFile (mk_table (header_lines "a") [[1%float]; [2%float]])))
    "output/full_2files/y_sample.txt"
      (TableFile (mk_table (header_lines "c") [[3%float]; [4%float]])))
    "output/full_1file" Directory)
    "output/full_1file/xy_sample.txt"
      (TableFile (mk_table [] [[1%float; 3%float]; [2%float; 4%float]])).

(* ================================================================= *)
(** * Properties *)

Unset Implicit Arguments.

(** ** join *)

Lemma eqb_opt_nat_spec (a b : option nat) : eqb_opt_nat a b = true <-> a = b.
Proof.
  destruct a as [n|], b as [m|]; simpl; split; intro H;
    try discriminate; try reflexivity.
  - apply Nat.eqb_eq in H. now subst.
  - injection H as ->. apply Nat.eqb_refl.
Qed.

Lemma forallb_false_exists {A} (p : A -> bool) (l : list A) :
  forallb p l = false <-> exists a, In a l /\ p a = false.
Proof.
  induction l as [|a l IH]; simpl.
  - split; [discriminate | intros [a [[] _]]].
  - rewrite andb_false_iff, IH. split.
    + intros [H | [b [Hin Hb]]]; [exists a | exists b]; auto.
    + intros [b [[-> | Hin] Hb]]; [left | right; exists b]; auto.
Qed.

Lemma arrays_of_raises get l e : arrays_of get l = Raises e -> e = not_an_array.
Proof.
  unfold arrays_of. induction l as [|s l IH]; simpl; [discriminate|].
  destruct (get s); [|intro H; now injection H].
  destruct (rmap _ l); [discriminate|].
  intro H. injection H as <-. now apply IH.
Qed.

Lemma vstack_raises l e :
  vstack l = Raises e ->
  e = ValueError "need at least one array to concatenate" \/ e = ValueError vstack_msg.
Proof.
  destruct l as [|a l]; simpl.
  - intro H. injection H as <-. now left.
  - destruct (forallb _ l); [discriminate|]. intro H. injection H as <-. now right.
Qed.

Lemma reduce_axis0_raises f a e :
  reduce_axis0 f a = Raises e -> e = ValueError zero_size_msg.
Proof.
  unfold reduce_axis0. destruct (rows a); [|discriminate]. intro H. now injection H.
Qed.

Lemma sum_n_samples_raises l e :
  sum_n_samples l = Raises e ->
  e = TypeError "unsupported operand type(s) for +: 'int' and 'NoneType'".
Proof.
  induction l as [|s l IH]; simpl; [discriminate|].
  destruct (n_samples s); [|intro H; now injection H].
  destruct (sum_n_samples l); [discriminate|].
  intro H. injection H as <-. now apply IH.
Qed.

Lemma join_compatible_not_incompatible s0 rest :
  forallb (fun s => eqb_opt_nat (n_x s) (n_x s0)) (s0 :: rest) = true ->
  forallb (fun s => eqb_opt_nat (n_y s) (n_y s0)) (s0 :: rest) = true ->
  join (s0 :: rest) <> Raises IncompatibleSampleError.
Proof.
  intros Hx Hy. unfold join. rewrite Hx, Hy. unfold rbind.
  destruct (arrays_of x _) as [tx|e] eqn:Etx.
  2:{ apply arrays_of_raises in Etx. subst. discriminate. }
  destruct (vstack tx) as [xa|e] eqn:Exa.
  2:{ apply vstack_raises in Exa. destruct Exa; subst; discriminate. }
  destruct (np_min_axis0 xa) as [mins|e] eqn:Emin.
  2:{ apply reduce_axis0_raises in Emin. subst. discriminate. }
  destruct (np_max_axis0 xa) as [maxs|e] eqn:Emax.
  2:{ apply reduce_axis0_raises in Emax. subst. discriminate. }
  destruct (arrays_of y _) as [ty|e] eqn:Ety.
  2:{ apply arrays_of_raises in Ety. subst. discriminate. }
  destruct (vstack ty) as [ya|e] eqn:Eya.
  2:{ apply vstack_raises in Eya. destruct Eya; subst; discriminate. }
  destruct (sum_n_samples _) as [n|e] eqn:En.
  2:{ apply sum_n_samples_raises in En. subst. discriminate. }
  discriminate.
Qed.

(** *** Reductions along the rows are reductions of the columns *)

Lemma zip_with_length {A B C} (f : A -> B -> C) l m :
  length l = length m -> length (zip_with f l m) = length l.
Proof.
  revert m. induction l as [|a l IH]; intros [|b m]; simpl; intros H;
    try discriminate; try reflexivity.
  f_equal. apply IH. now injection H.
Qed.

Lemma zip_with_nth (f : float -> float -> float) l m j :
  length l = length m -> j < length l ->
  nth j (zip_with f l m) 0%float = f (nth j l 0%float) (nth j m 0%float).
Proof.
  revert m j. induction l as [|a l IH]; intros [|b m] j; simpl; intros H Hj;
    try discriminate; try lia.
  destruct j; [reflexivity|]. apply IH; [now injection H | lia].
Qed.

Lemma fold_zip_with_length (f : float -> float -> float) rs r n :
  length r = n -> Forall (fun r' => length r' = n) rs ->
  length (fold_left (zip_with f) rs r) = n.
Proof.
  revert r. induction rs as [|r' rs IH]; intros r Hr Hrs; simpl; [assumption|].
  inversion Hrs; subst. apply IH; [|assumption].
  rewrite zip_with_length; congruence.
Qed.

Lemma fold_zip_with_nth (f : float -> float -> float) rs r n j :
  length r = n -> Forall (fun r' => length r' = n) rs -> j < n ->
  nth j (fold_left (zip_with f) rs r) 0%float
  = fold_left f (map (fun r' => nth j r' 0%float) rs) (nth j r 0%float).
Proof.
  revert r. induction rs as [|r' rs IH]; intros r Hr Hrs Hj; simpl; [reflexivity|].
  inversion Hrs; subst.
  rewrite IH; [|rewrite zip_with_length; congruence|assumption|assumption].
  rewrite zip_with_nth; [reflexivity|congruence|lia].
Qed.

Lemma list_eq_map_nth (l : list float) n :
  length l = n -> l = map (fun j => nth j l 0%float) (seq 0 n).
Proof.
  intros <-. apply nth_ext with (d := 0%float) (d' := 0%float).
  - now rewrite length_map, length_seq.
  - intros j Hj.
    rewrite (nth_indep (map (fun j => nth j l 0%float) (seq 0 (length l)))
               0%float (nth 0 l 0%float))
      by (now rewrite length_map, length_seq).
    rewrite (map_nth (fun j => nth j l 0%float)), seq_nth by assumption. reflexivity.
Qed.

Lemma well_formed_Forall a :
  well_formed a = true -> Forall (fun r => length r = shape1 a) (rows a).
Proof.
  unfold well_formed. rewrite forallb_forall, Forall_forall.
  intros H r Hr. apply Nat.eqb_eq. now apply H.
Qed.

Lemma reduce_axis0_columns f a :
  well_formed a = true -> rows a <> [] ->
  reduce_axis0 f a = Returns (map (fun j => reduce_list f (column j a)) (seq 0 (shape1 a))).
Proof.
  intros Hwf Hne. apply well_formed_Forall in Hwf.
  unfold reduce_axis0, column. destruct (rows a) as [|r rs]; [congruence|].
  inversion Hwf as [|? ? Hr Hrs]; subst. f_equal.
  rewrite (list_eq_map_nth (fold_left (zip_with f) rs r) (shape1 a))
    by (now apply fold_zip_with_length).
  apply map_ext_in. intros j Hj. apply in_seq in Hj. simpl.
  apply fold_zip_with_nth with (n := shape1 a); [assumption|assumption|lia].
Qed.

Lemma combine_map_seq {A B} (g : nat -> A) (h : nat -> B) l :
  combine (map g l) (map h l) = map (fun j => (g j, h j)) l.
Proof. induction l as [|j l IH]; simpl; [reflexivity|now rewrite IH]. Qed.

Lemma x_ranges_columns a :
  well_formed a = true -> rows a <> [] ->
  exists mins maxs, np_min_axis0 a = Returns mins /\ np_max_axis0 a = Returns maxs
                    /\ combine mins maxs = column_ranges a.
Proof.
  intros Hwf Hne. eexists. eexists. unfold np_min_axis0, np_max_axis0.
  rewrite !reduce_axis0_columns by assumption.
  split; [reflexivity|]. split; [reflexivity|].
  unfold column_ranges. apply combine_map_seq.
Qed.

(** *** The success path of join *)

Lemma counted_inv s :
  counted s = true ->
  x s = Some (the_x s) /\ y s = Some (the_y s)
  /\ n_samples s = Some (shape0 (the_x s))
  /\ n_x s = Some (shape1 (the_x s)) /\ n_y s = Some (shape1 (the_y s)).
Proof.
  unfold counted, the_x, the_y.
  destruct (x s) as [xa|], (y s) as [ya|], (n_samples s) as [n|], (n_x s) as [nx|],
    (n_y s) as [ny|]; try discriminate.
  rewrite !andb_true_iff, !Nat.eqb_eq. intros [[-> ->] ->]. repeat split.
Qed.

Lemma loaded_inv s :
  loaded s = true -> counted s = true /\ well_formed (the_x s) = true.
Proof.
  unfold loaded, the_x. rewrite andb_true_iff. intros [Hc Hw].
  split; [assumption|]. destruct (x s); [assumption|discriminate].
Qed.

Lemma arrays_of_some get (the : Sample -> array2) l :
  (forall s, In s l -> get s = Some (the s)) ->
  arrays_of get l = Returns (map the l).
Proof.
  unfold arrays_of. induction l as [|s l IH]; intros H; simpl; [reflexivity|].
  rewrite (H s) by now left. rewrite IH by (intros; apply H; now right). reflexivity.
Qed.

Lemma vstack_same_shape (the : Sample -> array2) s0 rest :
  (forall s, In s rest -> shape1 (the s) = shape1 (the s0)) ->
  vstack (map the (s0 :: rest))
  = Returns (mk_array2 (shape1 (the s0)) (concat (map (fun s => rows (the s)) (s0 :: rest)))).
Proof.
  intros H. unfold vstack. cbn [map].
  replace (forallb _ (map the rest)) with true.
  - simpl. rewrite map_map. reflexivity.
  - symmetry. apply forallb_forall. intros b Hb. apply in_map_iff in Hb.
    destruct Hb as [s [<- Hs]]. apply Nat.eqb_eq. now apply H.
Qed.

Lemma sum_n_samples_some l :
  (forall s, In s l -> n_samples s = Some (the_n_samples s)) ->
  sum_n_samples l = Returns (list_sum (map the_n_samples l)).
Proof.
  induction l as [|s l IH]; intros H; simpl; [reflexivity|].
  rewrite (H s) by now left. rewrite IH by (intros; apply H; now right). reflexivity.
Qed.

Lemma forallb_same {A} (p : A -> bool) l :
  (forall a, In a l -> p a = true) -> forallb p l = true.
Proof. intro H. now apply forallb_forall. Qed.

(** C6 (as amended): for every non-empty list of loaded samples that agree
    on [n_x] and on [n_y] and hold at least one row between them, [join]
    returns a new sample whose x and y are the rows of the inputs' x and y
    one input after the other, whose [n_samples] is the sum of the inputs'
    [n_samples], whose names are those of the first input and whose
    [x_ranges] are the (min, max) of every column of the joined x. *)
Theorem join_concatenates (s0 : Sample) (rest : list Sample) :
  let samples := s0 :: rest in
  forallb loaded samples = true ->
  (forall s, In s samples -> n_x s = n_x s0 /\ n_y s = n_y s0) ->
  (exists s, In s samples /\ n_samples s <> Some 0) ->
  exists s',
    join samples = Returns s'
    /\ x s' = Some (mk_array2 (shape1 (the_x s0))
                      (concat (map (fun s => rows (the_x s)) samples)))
    /\ y s' = Some (mk_array2 (shape1 (the_y s0))
                      (concat (map (fun s => rows (the_y s)) samples)))
    /\ n_samples s' = Some (list_sum (map the_n_samples samples))
    /\ x_names s' = x_names s0 /\ y_names s' = y_names s0
    /\ n_x s' = n_x s0 /\ n_y s' = n_y s0
    /\ x_ranges s' = Some (column_ranges (the_x s')).
Proof.
  intros samples; subst samples; intros Hl Hc [s1 [Hin1 Hn1]].
  rewrite forallb_forall in Hl.
  assert (Hinv : forall s, In s (s0 :: rest) ->
            x s = Some (the_x s) /\ y s = Some (the_y s)
            /\ n_samples s = Some (shape0 (the_x s))
            /\ n_x s = Some (shape1 (the_x s)) /\ n_y s = Some (shape1 (the_y s))
            /\ well_formed (the_x s) = true).
  { intros s Hs. destruct (loaded_inv _ (Hl s Hs)) as [Hcs Hw].
    destruct (counted_inv _ Hcs) as (? & ? & ? & ? & ?). repeat split; assumption. }
  assert (H0 : In s0 (s0 :: rest)) by now left.
  destruct (Hinv s0 H0) as (Hx0 & Hy0 & Hn0 & Hnx0 & Hny0 & Hw0).
  assert (Hsx : forall s, In s rest -> shape1 (the_x s) = shape1 (the_x s0)).
  { intros s Hs. assert (Hs' : In s (s0 :: rest)) by now right.
    destruct (Hinv s Hs') as (_ & _ & _ & Hnx & _ & _).
    destruct (Hc s Hs') as [E _]. congruence. }
  assert (Hsy : forall s, In s rest -> shape1 (the_y s) = shape1 (the_y s0)).
  { intros s Hs. assert (Hs' : In s (s0 :: rest)) by now right.
    destruct (Hinv s Hs') as (_ & _ & _ & _ & Hny & _).
    destruct (Hc s Hs') as [_ E]. congruence. }
  set (xa := mk_array2 (shape1 (the_x s0)) (concat (map (fun s => rows (the_x s)) (s0 :: rest)))).
  assert (Hwf : well_formed xa = true).
  { unfold well_formed, xa. cbn [rows shape1]. apply forallb_same. intros r Hr.
    apply in_concat in Hr. destruct Hr as [rs [Hrs Hr]].
    apply in_map_iff in Hrs. destruct Hrs as [s [<- Hs]].
    destruct (Hinv s Hs) as (_ & _ & _ & _ & _ & Hw).
    apply well_formed_Forall in Hw. rewrite Forall_forall in Hw.
    rewrite (Hw r Hr). apply Nat.eqb_eq.
    destruct Hs as [<- | Hs]; [reflexivity | now apply Hsx]. }
  assert (Hne : rows xa <> []).
  { unfold xa. cbn [rows]. intro E.
    destruct (Hinv s1 Hin1) as (_ & _ & Hn & _).
    apply Hn1. rewrite Hn. f_equal. unfold shape0.
    assert (Hin : In (rows (the_x s1)) (map (fun s => rows (the_x s)) (s0 :: rest)))
      by (apply in_map_iff; now exists s1).
    destruct (rows (the_x s1)) as [|r rs]; [reflexivity|].
    exfalso. assert (Hr : In r (concat (map (fun s => rows (the_x s)) (s0 :: rest)))).
    { apply in_concat. eexists. split; [exact Hin | now left]. }
    rewrite E in Hr. destruct Hr. }
  destruct (x_ranges_columns xa Hwf Hne) as (mins & maxs & Emin & Emax & Ecomb).
  eexists. split.
  - unfold join.
    rewrite (forallb_same (fun s => eqb_opt_nat (n_x s) (n_x s0)) (s0 :: rest))
      by (intros s Hs; apply eqb_opt_nat_spec; now apply Hc).
    rewrite (forallb_same (fun s => eqb_opt_nat (n_y s) (n_y s0)) (s0 :: rest))
      by (intros s Hs; apply eqb_opt_nat_spec; now apply Hc).
    rewrite (arrays_of_some x the_x (s0 :: rest)) by (intros s Hs; now apply Hinv).
    cbn [rbind]. rewrite (vstack_same_shape the_x s0 rest Hsx).
    cbn [rbind]. fold xa. rewrite Emin, Emax. cbn [rbind].
    rewrite (arrays_of_some y the_y (s0 :: rest)) by (intros s Hs; now apply Hinv).
    cbn [rbind]. rewrite (vstack_same_shape the_y s0 rest Hsy).
    cbn [rbind]. rewrite (sum_n_samples_some (s0 :: rest)).
    + cbn [rbind]. reflexivity.
    + intros s Hs. destruct (Hinv s Hs) as (_ & _ & Hn & _).
      unfold the_n_samples. now rewrite Hn.
  - cbn. repeat split; try reflexivity.
    unfold the_x. cbn. fold xa. now rewrite Ecomb.
Qed.

Lemma join_concatenates_witness :
  exists s', join [Scenario.sample_1x1; Scenario.sample_2x1] = Returns s'
             /\ n_samples s' = Some 3
             /\ x s' = Some (mk_array2 1 [[1%float]; [4%float]; [0%float]])
             /\ x_ranges s' = Some [(0%float, 4%float)].
Proof.
  destruct (join_concatenates Scenario.sample_1x1 [Scenario.sample_2x1])
    as (s' & Hj & Hx & _ & Hn & _ & _ & _ & _ & Hr).
  - reflexivity.
  - intros s [<- | [<- | []]]; split; reflexivity.
  - exists Scenario.sample_1x1. split; [now left | discriminate].
  - exists s'. split; [exact Hj|]. split; [exact Hn|]. split; [exact Hx|].
    rewrite Hr. unfold the_x. rewrite Hx. reflexivity.
Defined.

(** C6, as stated, fails on a loaded sample without rows: loading the
    folder [an] with [remove_non_finite] leaves no row, and joining the
    result raises instead of returning. *)
Lemma join_without_rows_raises :
  let r := Scenario.load "an" None Scenario.all_columns Scenario.all_columns true
             (Scenario.fresh Scenario.fs_all_nan) in
  let s := self (snd r) in
  fst r = Returns tt
  /\ loaded s = true /\ n_samples s = Some 0
  /\ join [s] = Raises (ValueError zero_size_msg).
Proof. vm_compute. repeat split. Qed.

(** ** load *)

Ltac unfold_monad :=
  unfold require, when, bind, ret, raise, lift, try_except, get_self, get_fs, put_fs,
    update_self, io_warning in *.

Ltac break_inner_in H :=
  match type of H with
  | context [match ?e with _ => _ end] =>
      lazymatch e with
      | context [match _ with _ => _ end] => fail
      | _ => destruct e eqn:?
      end
  end.

Ltac break_inner :=
  match goal with
  | |- context [match ?e with _ => _ end] =>
      lazymatch e with
      | context [match _ with _ => _ end] => fail
      | _ => destruct e eqn:?
      end
  end.


Ltac inv_results :=
  repeat match goal with
  | H : Returns _ = Raises _ |- _ => discriminate H
  | H : Raises _ = Returns _ |- _ => discriminate H
  | H : Raises _ = Raises _ |- _ => injection H as H; try subst
  | H : Returns _ = Returns _ |- _ => injection H as H; try subst
  end.



Lemma mask_filter_length {A} (m : list bool) (l : list A) :
  length m = length l -> length (mask_filter m l) = count_true m.
Proof.
  unfold count_true. revert l. induction m as [|b m IH]; intros [|a l] H;
    try discriminate; [reflexivity|].
  injection H as H. simpl. destruct b; simpl; rewrite IH; auto.
Qed.

Lemma getitem_mask_rows a m a' :
  getitem_mask a m = Returns a' ->
  shape1 a' = shape1 a /\ shape0 a' = count_true m
  /\ rows a' = mask_filter m (rows a).
Proof.
  unfold getitem_mask. destruct (length m =? shape0 a) eqn:E; [|discriminate].
  intro H. injection H as <-. apply Nat.eqb_eq in E. cbn.
  repeat split. unfold shape0. cbn. now apply mask_filter_length.
Qed.

Lemma genfromtxt_table f p t r1 r2 rs c :
  f p = Some (TableFile t) ->
  data t = r1 :: r2 :: rs ->
  Forall (fun r => length r = c) (data t) -> 2 <= c ->
  genfromtxt f p = Returns (Arr2 (mk_array2 c (data t))).
Proof.
  intros Hp Hd Hall Hc. unfold genfromtxt. rewrite Hp.
  assert (Hf : filter nonempty (data t) = data t).
  { apply forallb_filter_id. apply forallb_forall. intros r Hr.
    rewrite Forall_forall in Hall. specialize (Hall r Hr).
    destruct r; [cbn in Hall; lia | reflexivity]. }
  rewrite Hf, Hd. rewrite Hd in Hall.
  inversion Hall as [|? ? H1 Hall']; subst.
  replace (forallb _ (r2 :: rs)) with true.
  - unfold squeeze. cbn [rows shape1].
    destruct (length r1 =? 1) eqn:E; [apply Nat.eqb_eq in E; lia | reflexivity].
  - symmetry. apply forallb_forall. intros r Hr. apply Nat.eqb_eq.
    rewrite Forall_forall in Hall'. now apply Hall'.
Qed.

Lemma py_slice_but_last {A} (r : list A) :
  py_slice None (Some (-1)%Z) r = firstn (length r - 1) r.
Proof.
  unfold py_slice, slice_len, slice_stop, slice_start, slice_bound. cbn [Z.ltb Z.compare].
  rewrite Nat.sub_0_r. cbn [skipn]. f_equal. lia.
Qed.

Lemma py_slice_last {A} (r : list A) :
  py_slice (Some (-1)%Z) None r = skipn (length r - 1) r.
Proof.
  unfold py_slice, slice_len, slice_stop, slice_start, slice_bound. cbn [Z.ltb Z.compare].
  replace (Z.to_nat (Z.max 0 (-1 + Z.of_nat (length r)))) with (length r - 1) by lia.
  apply firstn_all2. rewrite length_skipn. lia.
Qed.

(** Inside a section a primed name is the method with the collaborators of
    the section. *)
Section LoadProperties.

Variables file_name_params file_name_x file_name_y : string.
Variable Params_load : FS -> string -> result yaml.

Local Abbreviation load' := (load file_name_params file_name_x file_name_y Params_load).
Local Abbreviation load_settings' := (load_settings file_name_params Params_load).
Local Abbreviation load_rest' := (load_rest file_name_x file_name_y).
Local Abbreviation assign_paths' := (assign_paths file_name_x file_name_y).




Lemma load_settings_cases path w :
  match Params_load (fs w) (os_path_join path file_name_params) with
  | Returns st =>
      load_settings' path w
      = (Returns tt, mk_world (set_settings (Some st) (self w)) (fs w) (warnings w))
  | Raises e =>
      if is_NotADirectoryError e
      then load_settings' path w
           = (Returns tt, mk_world (self w) (fs w) (warnings w ++ [settings_warning]))
      else load_settings' path w = (Raises e, w)
  end.
Proof.
  unfold load_settings. unfold_monad. cbn.
  destruct (Params_load _ _) as [st|e]; [reflexivity|].
  destruct (is_NotADirectoryError e); reflexivity.
Qed.

Lemma load_settings_fs path w : fs (snd (load_settings' path w)) = fs w.
Proof.
  pose proof (load_settings_cases path w) as H.
  destruct (Params_load _ _) as [st|e]; [now rewrite H|].
  destruct (is_NotADirectoryError e); now rewrite H.
Qed.

Lemma load_unfold path path_y cx cy rnf w :
  load' path path_y cx cy rnf w
  = match load_settings' path w with
    | (Returns _, w1) => load_rest' path path_y cx cy rnf w1
    | (Raises e, w1) => (Raises e, w1)
    end.
Proof. reflexivity. Qed.




Lemma load_rest_keeps path path_y cx cy rnf w :
  settings (self (snd (load_rest' path path_y cx cy rnf w))) = settings (self w)
  /\ warnings (snd (load_rest' path path_y cx cy rnf w)) = warnings w
  /\ fs (snd (load_rest' path path_y cx cy rnf w)) = fs w.
Proof.
  unfold load_rest, assign_paths, load_data. unfold_monad.
  repeat (break_inner; cbn); repeat split.
Qed.


Lemma load_data_returns px py cx cy rnf w :
  fst (load_data px py cx cy rnf w) = Returns tt ->
  counted (self (snd (load_data px py cx cy rnf w))) = true
  /\ (rnf = true -> consistent (self (snd (load_data px py cx cy rnf w))) = true).
Proof.
  unfold load_data. unfold_monad.
  repeat (break_inner; cbn); try discriminate; intros _;
    unfold counted, consistent; cbn; rewrite ?Nat.eqb_refl; cbn;
    (split; [reflexivity|]); intros; try discriminate.
  repeat match goal with
         | E : getitem_mask _ _ = Returns _ |- _ =>
             apply getitem_mask_rows in E; destruct E as (? & ? & ?)
         end.
  rewrite !andb_true_r. apply Nat.eqb_eq. congruence.
Qed.

Lemma load_returns path path_y cx cy rnf w :
  fst (load' path path_y cx cy rnf w) = Returns tt ->
  counted (self (snd (load' path path_y cx cy rnf w))) = true
  /\ (rnf = true -> consistent (self (snd (load' path path_y cx cy rnf w))) = true).
Proof.
  rewrite load_unfold. destruct (load_settings' path w) as [[[]|e] w1]; [|discriminate].
  unfold load_rest, assign_paths. unfold_monad. cbn -[load_data].
  repeat (break_inner; cbn -[load_data]); try discriminate; apply load_data_returns.
Qed.
(** What [load] leaves when the two arrays are read and x has a row. *)
Lemma load_data_run px py cx cy rnf w xa xn ya yn :
  _load_array (fs w) px cx = Returns (xa, xn) ->
  _load_array (fs w) py cy = Returns (ya, yn) ->
  rows xa <> [] ->
  let mask := any_isfinite_axis1 ya in
  let r := load_data px py cx cy rnf w in
  (rnf = false ->
   fst r = Returns tt
   /\ x (self (snd r)) = Some xa /\ y (self (snd r)) = Some ya
   /\ x_names (self (snd r)) = xn /\ y_names (self (snd r)) = yn
   /\ n_samples (self (snd r)) = Some (shape0 xa)
   /\ n_x (self (snd r)) = Some (shape1 xa) /\ n_y (self (snd r)) = Some (shape1 ya))
  /\ (rnf = true -> shape0 ya = shape0 xa ->
      fst r = Returns tt
      /\ x (self (snd r)) = Some (mk_array2 (shape1 xa) (mask_filter mask (rows xa)))
      /\ y (self (snd r)) = Some (mk_array2 (shape1 ya) (mask_filter mask (rows ya)))
      /\ n_samples (self (snd r)) = Some (count_true mask)).
Proof.
  intros Hx Hy Hne. cbv zeta. unfold load_data. unfold_monad. cbv beta.
  rewrite Hx, Hy. cbv beta iota. cbn [fst snd].
  assert (Hmin : exists v, np_min_axis0 xa = Returns v)
    by (unfold np_min_axis0, reduce_axis0; destruct (rows xa); [congruence | eauto]).
  assert (Hmax : exists v, np_max_axis0 xa = Returns v)
    by (unfold np_max_axis0, reduce_axis0; destruct (rows xa); [congruence | eauto]).
  destruct Hmin as [mins ->]. destruct Hmax as [maxs ->]. cbv beta iota.
  split.
  - intros ->. cbn. repeat split.
  - intros -> Hr.
    assert (Mx : getitem_mask xa (any_isfinite_axis1 ya)
                 = Returns (mk_array2 (shape1 xa)
                              (mask_filter (any_isfinite_axis1 ya) (rows xa)))).
    { unfold getitem_mask, any_isfinite_axis1. rewrite length_map.
      match goal with
      | |- (if ?c then _ else _) = _ =>
          replace c with true by (symmetry; apply Nat.eqb_eq; exact Hr)
      end. reflexivity. }
    assert (My : getitem_mask ya (any_isfinite_axis1 ya)
                 = Returns (mk_array2 (shape1 ya)
                              (mask_filter (any_isfinite_axis1 ya) (rows ya)))).
    { unfold getitem_mask, any_isfinite_axis1. rewrite length_map.
      match goal with
      | |- (if ?c then _ else _) = _ =>
          replace c with true by (symmetry; apply Nat.eqb_eq; reflexivity)
      end. reflexivity. }
    rewrite Mx, My. cbn.
    repeat split. f_equal. unfold shape0. cbn [rows].
    apply mask_filter_length. unfold any_isfinite_axis1. rewrite length_map.
    exact Hr.
Qed.

Lemma _load_array_single f p t r1 r2 rs c :
  f p = Some (TableFile t) ->
  last_comment HASH (leading_lines t) None = None ->
  data t = r1 :: r2 :: rs ->
  Forall (fun r => length r = c) (data t) -> 2 <= c ->
  _load_array f p (Slice None (Some (-1)%Z))
  = Returns (mk_array2 (c - 1) (map (firstn (c - 1)) (data t)), None)
  /\ _load_array f p (Slice (Some (-1)%Z) None)
     = Returns (mk_array2 1 (map (skipn (c - 1)) (data t)), None).
Proof.
  intros Hp Hl Hd Hall Hc. unfold _load_array.
  rewrite (genfromtxt_table f p t r1 r2 rs c Hp Hd Hall Hc). cbn [rbind].
  unfold _try_to_load_names_array. rewrite Hp, Hl. cbn [rbind getitem_cols shape1 rows].
  assert (E1 : map (py_slice None (Some (-1)%Z)) (data t) = map (firstn (c - 1)) (data t)).
  { apply map_ext_in. intros r Hr. rewrite py_slice_but_last.
    rewrite Forall_forall in Hall. now rewrite (Hall r Hr). }
  assert (E2 : map (py_slice (Some (-1)%Z) None) (data t) = map (skipn (c - 1)) (data t)).
  { apply map_ext_in. intros r Hr. rewrite py_slice_last.
    rewrite Forall_forall in Hall. now rewrite (Hall r Hr). }
  rewrite E1, E2.
  assert (L1 : slice_len c None (Some (-1)%Z) = c - 1).
  { unfold slice_len, slice_stop, slice_start, slice_bound. cbn [Z.ltb Z.compare]. lia. }
  assert (L2 : slice_len c (Some (-1)%Z) None = 1).
  { unfold slice_len, slice_stop, slice_start, slice_bound. cbn [Z.ltb Z.compare]. lia. }
  rewrite L1, L2. split; reflexivity.
Qed.

(** The single file of C9 with at least two rows: the split is the one of
    the claim. *)
Lemma load_single_file path path_y cx cy w t r1 r2 rs c :
  fst (load_settings' path w) = Returns tt ->
  truthy_opt path_y = false ->
  fs w path = Some (TableFile t) ->
  last_comment HASH (leading_lines t) None = None ->
  data t = r1 :: r2 :: rs ->
  Forall (fun r => length r = c) (data t) -> 2 <= c ->
  let r := load' path path_y cx cy false w in
  fst r = Returns tt
  /\ x (self (snd r)) = Some (mk_array2 (c - 1) (map (firstn (c - 1)) (data t)))
  /\ y (self (snd r)) = Some (mk_array2 1 (map (skipn (c - 1)) (data t)))
  /\ x_names (self (snd r)) = None /\ y_names (self (snd r)) = None
  /\ n_samples (self (snd r)) = Some (length (data t))
  /\ n_x (self (snd r)) = Some (c - 1) /\ n_y (self (snd r)) = Some 1.
Proof.
  intros Hs Hpy Hp Hl Hd Hall Hc. cbv zeta. rewrite load_unfold.
  pose proof (load_settings_fs path w) as Hfs.
  destruct (load_settings' path w) as [r0 w1]. cbn [fst snd] in Hs, Hfs. subst r0.
  rewrite <- Hfs in Hp.
  unfold load_rest, assign_paths. unfold_monad. cbv beta.
  rewrite Hpy, andb_false_r. unfold isdir, isfile. rewrite Hp. cbv beta iota.
  destruct (_load_array_single (fs w1) path t r1 r2 rs c Hp Hl Hd Hall Hc) as [Ex Ey].
  assert (Hne : rows (mk_array2 (c - 1) (map (firstn (c - 1)) (data t))) <> [])
    by (rewrite Hd; discriminate).
  destruct (load_data_run path path (Slice None (Some (-1)%Z)) (Slice (Some (-1)%Z) None)
              false w1 _ _ _ _ Ex Ey Hne) as [H _].
  destruct (H eq_refl) as (H1 & H2 & H3 & H4 & H5 & H6 & H7 & H8).
  unfold shape0 in H6. cbn [rows shape1] in H6, H7, H8. rewrite length_map in H6.
  repeat split; assumption.
Qed.

End LoadProperties.





(** C2: [load] with [remove_non_finite] on the folder [nf], whose y has the
    rows [1, nan], [2, 3] and [nan, inf], returns; it keeps the row
    [1, nan] although one of its values is not finite, so that two rows
    are left where the claim leaves one. *)
Theorem load_remove_non_finite_keeps_row_with_nan :
  let r := Scenario.load "nf" None Scenario.all_columns Scenario.all_columns true
             (Scenario.fresh Scenario.fs_nan) in
  fst r = Returns tt
  /\ y (self (snd r)) = Some (mk_array2 2 [[1%float; nan]; [2%float; 3%float]])
  /\ x (self (snd r)) = Some (mk_array2 1 [[1%float]; [2%float]])
  /\ n_samples (self (snd r)) = Some 2
  /\ all_isfinite_axis1 (mk_array2 2 [[1%float; nan]; [2%float; 3%float]; [nan; infinity]])
     = [false; true; false]
  /\ any_isfinite_axis1 (mk_array2 2 [[1%float; nan]; [2%float; 3%float]; [nan; infinity]])
     = [true; true; false].
Proof. vm_compute. repeat split. Qed.

(** C9: [load] of the single file [one.txt], one row of three columns
    without a header, returns a sample with three rows, no column of x and
    one column of y, where the claim gives two columns of x; on the file
    [xy.txt] with two such rows the split is the one of the claim. *)
Theorem load_single_file_with_one_row :
  let r := Scenario.load "one.txt" None Scenario.all_columns Scenario.all_columns false
             (Scenario.fresh Scenario.fs_single) in
  let r2 := Scenario.load "xy.txt" None Scenario.all_columns Scenario.all_columns false
              (Scenario.fresh Scenario.fs_single) in
  fst r = Returns tt
  /\ x (self (snd r)) = Some (mk_array2 0 [[]; []; []])
  /\ y (self (snd r)) = Some (mk_array2 1 [[1%float]; [2%float]; [3%float]])
  /\ n_samples (self (snd r)) = Some 3
  /\ n_x (self (snd r)) = Some 0 /\ n_y (self (snd r)) = Some 1
  /\ fst r2 = Returns tt
  /\ x (self (snd r2)) = Some (mk_array2 2 [[1%float; 2%float]; [4%float; 5%float]])
  /\ y (self (snd r2)) = Some (mk_array2 1 [[3%float]; [6%float]])
  /\ n_x (self (snd r2)) = Some 2 /\ n_y (self (snd r2)) = Some 1
  /\ x_names (self (snd r2)) = None /\ y_names (self (snd r2)) = None.
Proof. vm_compute. repeat split. Qed.

(** ** generate and resume *)

Lemma run_returns {A} (p : result A * world) (a : A) :
  fst p = Returns a -> p = (Returns a, snd p).
Proof. destruct p as [r w]. cbn. now intros ->. Qed.

Section GenerateProperties.

Variables file_name_params file_header_params file_name_x file_name_y : string.
Variable Params_save : option yaml -> string -> string -> string -> FS -> result FS.
Variable Folder_create : string -> FS -> result FS.
Variable model : Type.
Variable fng : string -> option (sampling_function model).
Variable Sampler_get_x : string -> yaml -> list string -> Z -> result array2.
Variable Params_load : FS -> string -> result yaml.

Local Abbreviation generate_first' :=
  (generate_first file_name_params file_header_params file_name_x file_name_y
     Params_save Folder_create fng Sampler_get_x).
Local Abbreviation generate_step' := (@generate_step file_name_y model).
Local Abbreviation generate' :=
  (generate file_name_params file_header_params file_name_x file_name_y
     Params_save Folder_create fng Sampler_get_x).
Local Abbreviation generate_killed' :=
  (generate_killed file_name_params file_header_params file_name_x file_name_y
     Params_save Folder_create fng Sampler_get_x).
Local Abbreviation load' := (load file_name_params file_name_x file_name_y Params_load).
Local Abbreviation resume' := (resume file_name_y fng).
Local Abbreviation resume_step' := (@resume_step file_name_y model).
Local Abbreviation _append_y' := (_append_y file_name_y).

Lemma same_but_y_refl s : same_but_y s s.
Proof. repeat split. Qed.

Lemma same_but_y_trans s1 s2 s3 :
  same_but_y s1 s2 -> same_but_y s2 s3 -> same_but_y s1 s3.
Proof.
  unfold same_but_y. intros (?&?&?&?&?&?&?&?) (?&?&?&?&?&?&?&?).
  repeat split; congruence.
Qed.

Lemma _append_y_self p v w :
  self (snd (_append_y' p v w)) = self w.
Proof.
  unfold _append_y. unfold_monad. repeat (break_inner; cbn); reflexivity.
Qed.

Lemma generate_step_returns f mdl names params si out xr w w' ya :
  generate_step' f mdl names params si out xr w = (Returns tt, w') ->
  y (self w) = Some ya ->
  y (self w') = Some (mk_array2 (shape1 ya) (rows ya ++ [y_of f (Some names) params mdl xr]))
  /\ same_but_y (self w) (self w').
Proof.
  unfold generate_step, y_of.
  destruct (f xr (Some names) params (Some mdl)) as [[y_val ?] ?]. cbn [fst].
  unfold_monad. cbn. destruct si.
  - intros H Hy.
    pose proof (_append_y_self out y_val
      (mk_world (set_y (append_row y_val (y (self w))) (self w)) (fs w) (warnings w))) as Hs.
    rewrite H in Hs. cbn in Hs. rewrite Hs. cbn. rewrite Hy. cbn.
    split; [reflexivity | repeat split].
  - intros H Hy. injection H as <-. cbn. rewrite Hy. cbn.
    split; [reflexivity | repeat split].
Qed.

Lemma for_each_cons {A} (a : A) l body w :
  for_each (a :: l) body w
  = match body a w with
    | (Returns _, w1) => for_each l body w1
    | (Raises e, w1) => (Raises e, w1)
    end.
Proof. reflexivity. Qed.

Lemma generate_loop_returns f mdl names params si out l :
  forall w w' ya,
  for_each l (generate_step' f mdl names params si out) w = (Returns tt, w') ->
  y (self w) = Some ya ->
  y (self w') = Some (mk_array2 (shape1 ya)
                        (rows ya ++ map (y_of f (Some names) params mdl) l))
  /\ same_but_y (self w) (self w').
Proof.
  induction l as [|xr l IH]; intros w w' ya H Hy.
  - cbn in H. injection H as <-. rewrite app_nil_r. destruct ya.
    split; [assumption | apply same_but_y_refl].
  - rewrite for_each_cons in H.
    destruct (generate_step' f mdl names params si out xr w) as [[[]|e] w1] eqn:E;
      [|discriminate].
    destruct (generate_step_returns _ _ _ _ _ _ _ _ _ _ E Hy) as [Hy1 Hs1].
    destruct (IH _ _ _ H Hy1) as [Hy' Hs']. cbn [shape1 rows] in Hy'.
    rewrite <- app_assoc in Hy'. split; [exact Hy'|].
    eapply same_but_y_trans; eassumption.
Qed.


Lemma generate_first_returns params sf n spacing si out w f mdl names xa w1 :
  generate_first' params sf n spacing si out w = (Returns (f, mdl, names, xa), w1) ->
  exists sp x0 y0 ynames,
    fng sf = Some f
    /\ sampled_params_of params sf = Returns sp
    /\ varying_names sp = Returns names
    /\ Sampler_get_x spacing sp names n = Returns xa
    /\ getitem_row0 xa = Returns x0
    /\ f x0 (Some names) params None = (y0, ynames, mdl)
    /\ x (self w1) = Some xa
    /\ n_x (self w1) = Some (shape1 xa)
    /\ y (self w1) = Some (mk_array2 (length y0) [y0])
    /\ x_names (self w1) = Some names
    /\ settings (self w1) = Some (settings_of params sf n spacing)
    /\ n_samples (self w1) = n_samples (self w).
Proof.
  unfold generate_first, _save_settings, _save_x, _save_y, savetxt_attribute, eval_fng,
    sampled_params_of.
  unfold_monad. intros H.
  repeat (break_inner_in H; cbn in H); try discriminate;
    inv_results;
    repeat match goal with
           | E : (_, _) = (_, _) |- _ => injection E as ? ?; subst
           end.
  all: try discriminate.
  all: do 4 eexists; repeat split; try eassumption; try reflexivity.
  all: cbn; unfold settings_of;
    match goal with E : (_ =? cobaya)%string = _ |- _ => rewrite E end; reflexivity.
Qed.


Lemma generate_last_returns w ya0 :
  y (self w) = Some ya0 ->
  match np_array (rows ya0) with
  | Returns arr =>
      generate_last w
      = (Returns tt, mk_world (set_n_y (Some (shape1 arr)) (set_y (Some arr) (self w)))
                       (fs w) (warnings w))
  | Raises e => fst (generate_last w) = Raises e
  end.
Proof.
  intros Hy. unfold generate_last. unfold_monad. cbn. rewrite Hy.
  destruct (np_array (rows ya0)); reflexivity.
Qed.

Lemma np_array_cons r rs arr :
  np_array (r :: rs) = Returns arr -> arr = mk_array2 (length r) (r :: rs).
Proof.
  unfold np_array. destruct (forallb (fun r' => length r' =? length r) rs);
    [|discriminate]. intro H. now injection H.
Qed.

Lemma generate_returns params sf n spacing si out w w' :
  generate' params sf n spacing si out w = (Returns tt, w') ->
  exists f mdl names xa sp x0 y0 ynames,
    fng sf = Some f
    /\ sampled_params_of params sf = Returns sp
    /\ varying_names sp = Returns names
    /\ Sampler_get_x spacing sp names n = Returns xa
    /\ getitem_row0 xa = Returns x0
    /\ f x0 (Some names) params None = (y0, ynames, mdl)
    /\ x (self w') = Some xa
    /\ n_x (self w') = Some (shape1 xa)
    /\ y (self w') = Some (mk_array2 (length y0)
                             (y0 :: map (y_of f (Some names) params mdl) (tl (rows xa))))
    /\ n_y (self w') = Some (length y0)
    /\ n_samples (self w') = n_samples (self w).
Proof.
  unfold generate. unfold bind at 1.
  destruct (generate_first' params sf n spacing si out w) as [[c|e] w1] eqn:E1;
    [|discriminate].
  destruct c as [[[f mdl] names] xa]. unfold bind at 1.
  destruct (for_each _ _ w1) as [[[]|e] w2] eqn:E2; [|discriminate].
  intros H3.
  destruct (generate_first_returns _ _ _ _ _ _ _ _ _ _ _ _ E1)
    as (sp & x0 & y0 & ynames & Hf & Hsp & Hn & Hx & Hx0 & Hy0 & Hsx & Hnx & Hsy & _ & _ & Hns).
  destruct (generate_loop_returns _ _ _ _ _ _ _ _ _ _ E2 Hsy) as [Hy2 Hsame].
  cbn [shape1 rows app] in Hy2.
  pose proof (generate_last_returns w2 _ Hy2) as HL. cbn [rows] in HL.
  destruct (np_array _) as [arr|e] eqn:Ea; [|rewrite H3 in HL; discriminate].
  apply np_array_cons in Ea. subst arr. rewrite H3 in HL. injection HL as ->.
  destruct Hsame as (Sx & _ & _ & Sn & Snx & _).
  exists f, mdl, names, xa, sp, x0, y0, ynames. cbn.
  repeat split; try assumption; congruence.
Qed.

Lemma getitem_row0_rows xa x0 :
  getitem_row0 xa = Returns x0 -> rows xa = x0 :: tl (rows xa).
Proof.
  unfold getitem_row0. destruct (rows xa); [discriminate|].
  intro H. injection H as ->. reflexivity.
Qed.

(** *** resume' *)

Lemma resume_step_returns f mdl names params si xr w w' ya :
  resume_step' f mdl names params si xr w = (Returns tt, w') ->
  y (self w) = Some ya ->
  y (self w') = Some (mk_array2 (shape1 ya) (rows ya ++ [y_of f names params mdl xr]))
  /\ same_but_y (self w) (self w').
Proof.
  unfold resume_step, y_of.
  destruct (f xr names params (Some mdl)) as [[y_val ?] ?]. cbn [fst].
  unfold_monad. cbn. intros H Hy. rewrite Hy in H. unfold vstack_row in H.
  destruct (length y_val =? shape1 ya); [|discriminate]. destruct si.
  - pose proof (_append_y_self (path (self w)) y_val
      (mk_world (set_y (Some (mk_array2 (shape1 ya) (rows ya ++ [y_val]))) (self w))
                (fs w) (warnings w))) as Hs.
    rewrite H in Hs. cbn in Hs. rewrite Hs. cbn.
    split; [reflexivity | repeat split].
  - injection H as <-. cbn. split; [reflexivity | repeat split].
Qed.

Lemma resume_loop_returns f mdl names params si l :
  forall w w' ya,
  for_each l (resume_step' f mdl names params si) w = (Returns tt, w') ->
  y (self w) = Some ya ->
  y (self w') = Some (mk_array2 (shape1 ya) (rows ya ++ map (y_of f names params mdl) l))
  /\ same_but_y (self w) (self w').
Proof.
  induction l as [|xr l IH]; intros w w' ya H Hy.
  - cbn in H. injection H as <-. rewrite app_nil_r. destruct ya.
    split; [assumption | apply same_but_y_refl].
  - rewrite for_each_cons in H.
    destruct (resume_step' f mdl names params si xr w) as [[[]|e] w1] eqn:E;
      [|discriminate].
    destruct (resume_step_returns _ _ _ _ _ _ _ _ _ E Hy) as [Hy1 Hs1].
    destruct (IH _ _ _ H Hy1) as [Hy' Hs']. cbn [shape1 rows] in Hy'.
    rewrite <- app_assoc in Hy'. split; [exact Hy'|].
    eapply same_but_y_trans; eassumption.
Qed.

(** What a successful [resume'] leaves: nothing new when no step remains,
    and otherwise the rows of the remaining x appended to y. *)
Lemma resume_returns si w w' st n xa ya :
  resume' si w = (Returns tt, w') ->
  settings (self w) = Some st -> getitem_int st "n_samples" = Returns n ->
  x (self w) = Some xa -> y (self w) = Some ya ->
  (n = Z.of_nat (shape0 ya) /\ w' = w)
  \/ (n <> Z.of_nat (shape0 ya)
      /\ exists sf f params x0,
           getitem_str st "sampled_function" = Returns sf
           /\ fng sf = Some f
           /\ (if String.eqb sf cobaya then getitem_key st "cobaya"
               else getitem_key st "params") = Returns params
           /\ getitem_row0 xa = Returns x0
           /\ let mdl := snd (f x0 (x_names (self w)) params None) in
              y (self w') = Some (mk_array2 (shape1 ya)
                                    (rows ya ++ map (y_of f (x_names (self w)) params mdl)
                                                    (rows_from (shape0 ya) xa)))
              /\ same_but_y (self w) (self w')).
Proof.
  intros H Hst Hn Hx Hy. unfold resume, eval_fng in H.
  unfold_monad. cbv beta in H. rewrite Hst, Hn, Hy in H. cbv beta iota in H.
  destruct (n - Z.of_nat (shape0 ya) =? 0)%Z eqn:Ez.
  - left. apply Z.eqb_eq in Ez. split; [lia|]. now injection H.
  - right. apply Z.eqb_neq in Ez. split; [lia|].
    destruct (getitem_str st "sampled_function") as [sf|] eqn:Esf;
      cbv beta iota in H; [|discriminate H].
    destruct (fng sf) as [f|] eqn:Ef; cbv beta iota in H; [|discriminate H].
    destruct (if String.eqb sf cobaya then _ else _) as [params|] eqn:Ep;
      cbv beta iota in H; [|discriminate H].
    rewrite Hx in H. cbv beta iota in H.
    destruct (getitem_row0 xa) as [x0|] eqn:Ex0; cbv beta iota in H; [|discriminate H].
    destruct (f x0 (x_names (self w)) params None) as [[? ?] mdl] eqn:Ef0.
    exists sf, f, params, x0. cbv zeta. rewrite Ef0. cbn [snd].
    repeat split; try assumption; try reflexivity;
      eapply resume_loop_returns; eassumption.
Qed.


(** *** The invariant of the data model *)

Lemma consistent_counted s :
  consistent s = true <-> counted s = true /\ shape0 (the_y s) = shape0 (the_x s).
Proof.
  unfold consistent, counted, the_x, the_y.
  destruct (x s) as [xa|], (y s) as [ya|], (n_samples s) as [n|], (n_x s) as [nx|],
    (n_y s) as [ny|]; try (split; [discriminate | intros [? _]; discriminate]).
  rewrite !andb_true_iff, !Nat.eqb_eq. split.
  - intros [[[-> ->] ->] ->]. repeat split.
  - intros [[[-> ->] ->] ->]. repeat split.
Qed.

Lemma resume_restores si w w' st xa ya :
  resume' si w = (Returns tt, w') ->
  settings (self w) = Some st ->
  getitem_int st "n_samples" = Returns (Z.of_nat (shape0 xa)) ->
  x (self w) = Some xa -> y (self w) = Some ya ->
  counted (self w) = true -> shape0 ya <= shape0 xa ->
  consistent (self w') = true.
Proof.
  intros H Hst Hn Hx Hy Hc Hle.
  destruct (counted_inv _ Hc) as (Hx' & Hy' & Hns & Hnx & Hny).
  assert (Ex : the_x (self w) = xa) by (unfold the_x; now rewrite Hx).
  assert (Ey : the_y (self w) = ya) by (unfold the_y; now rewrite Hy).
  rewrite Ex in *. rewrite Ey in *.
  destruct (resume_returns _ _ _ _ _ _ _ H Hst Hn Hx Hy)
    as [[E ->] | [_ (sf & f & params & x0 & _ & _ & _ & _ & Hy2 & Hs)]].
  - apply consistent_counted. split; [assumption|]. rewrite Ex, Ey. lia.
  - cbv zeta in Hy2. destruct Hs as (Sx & _ & _ & Sn & Snx & Sny & _).
    unfold consistent. rewrite Sx, Hx, Hy2, Sn, Hns, Snx, Hnx, Sny, Hny.
    unfold shape0, rows_from. cbn [rows shape1].
    rewrite length_app, length_map, length_skipn, !Nat.eqb_refl.
    unfold shape0 in Hle. cbn.
    rewrite ?andb_true_r. apply Nat.eqb_eq. lia.
Qed.

Lemma consistent_inv s :
  consistent s = true ->
  x s = Some (the_x s) /\ y s = Some (the_y s)
  /\ n_samples s = Some (shape0 (the_x s))
  /\ shape0 (the_y s) = shape0 (the_x s)
  /\ n_x s = Some (shape1 (the_x s)) /\ n_y s = Some (shape1 (the_y s)).
Proof.
  intro H. apply consistent_counted in H. destruct H as [Hc He].
  destruct (counted_inv _ Hc) as (? & ? & ? & ? & ?). repeat split; assumption.
Qed.

Lemma vstack_returns l a :
  vstack l = Returns a ->
  rows a = concat (map rows l) /\ shape1 a = shape1 (hd empty_array l).
Proof.
  unfold vstack. destruct l as [|a0 l]; [discriminate|].
  destruct (forallb (fun b => shape1 b =? shape1 a0) l); [|discriminate].
  intro H. injection H as <-. split; reflexivity.
Qed.

Lemma join_returns_consistent s0 rest s' :
  forallb consistent (s0 :: rest) = true ->
  join (s0 :: rest) = Returns s' ->
  consistent s' = true.
Proof.
  intros Hall. rewrite forallb_forall in Hall.
  assert (Hinv : forall s, In s (s0 :: rest) ->
            x s = Some (the_x s) /\ y s = Some (the_y s)
            /\ n_samples s = Some (shape0 (the_x s))
            /\ shape0 (the_y s) = shape0 (the_x s)
            /\ n_x s = Some (shape1 (the_x s)) /\ n_y s = Some (shape1 (the_y s)))
    by (intros s Hs; apply consistent_inv; now apply Hall).
  destruct (Hinv s0 (or_introl eq_refl)) as (_ & _ & _ & _ & Hnx0 & Hny0).
  unfold join.
  destruct (forallb (fun s => eqb_opt_nat (n_x s) (n_x s0)) (s0 :: rest)); [|discriminate].
  destruct (forallb (fun s => eqb_opt_nat (n_y s) (n_y s0)) (s0 :: rest)); [|discriminate].
  rewrite (arrays_of_some x the_x (s0 :: rest)) by (intros s Hs; now apply Hinv).
  rewrite (arrays_of_some y the_y (s0 :: rest)) by (intros s Hs; now apply Hinv).
  rewrite (sum_n_samples_some (s0 :: rest)).
  2:{ intros s Hs. destruct (Hinv s Hs) as (_ & _ & Hn & _).
      unfold the_n_samples. now rewrite Hn. }
  cbn [rbind].
  destruct (vstack (map the_x (s0 :: rest))) as [xa|] eqn:Evx; [|discriminate].
  cbn [rbind].
  destruct (np_min_axis0 xa); [|discriminate]. cbn [rbind].
  destruct (np_max_axis0 xa); [|discriminate]. cbn [rbind].
  destruct (vstack (map the_y (s0 :: rest))) as [ya|] eqn:Evy; [|discriminate].
  cbn [rbind].
  intro H. injection H as <-.
  destruct (vstack_returns _ _ Evx) as [Rx Sx].
  destruct (vstack_returns _ _ Evy) as [Ry Sy].
  unfold consistent. cbn. rewrite Hnx0, Hny0. unfold shape0. rewrite Rx, Ry, Sx, Sy.
  cbn [map hd]. rewrite !Nat.eqb_refl, !andb_true_r.
  rewrite <- !map_cons, !length_concat, !map_map.
  assert (E1 : map (fun s => length (rows (the_x s))) (s0 :: rest)
               = map the_n_samples (s0 :: rest)).
  { apply map_ext_in. intros s Hs. destruct (Hinv s Hs) as (_ & _ & Hn & _).
    unfold the_n_samples. rewrite Hn. reflexivity. }
  assert (E2 : map (fun s => length (rows (the_y s))) (s0 :: rest)
               = map the_n_samples (s0 :: rest)).
  { apply map_ext_in. intros s Hs. destruct (Hinv s Hs) as (_ & _ & Hn & He & _).
    unfold the_n_samples. rewrite Hn. exact He. }
  rewrite E1, E2, Nat.eqb_refl. reflexivity.
Qed.

(** C3 (as amended): after [load'] completes, [n_samples], [n_x] and
    [n_y] are the number of rows of x, of columns of x and of columns of
    y, and x and y have the same number of rows when the filter of
    non-finite rows was requested; after [generate'] completes, x and y
    have the same number of rows, [n_x] is the number of columns of x and
    [n_y] the number of columns of y; after [resume'] completes on a
    sample with these counts whose settings ask for as many rows as x
    has, and whose y is not longer than x, the whole invariant holds;
    after [join] returns on inputs that satisfy the invariant, the result
    satisfies it. *)
Theorem invariant_after_mutation :
  (forall path path_y cx cy rnf w,
      fst (load' path path_y cx cy rnf w) = Returns tt ->
      counted (self (snd (load' path path_y cx cy rnf w))) = true
      /\ (rnf = true -> consistent (self (snd (load' path path_y cx cy rnf w))) = true))
  /\ (forall params sf n spacing si out w,
        fst (generate' params sf n spacing si out w) = Returns tt ->
        exists xa ya,
          x (self (snd (generate' params sf n spacing si out w))) = Some xa
          /\ y (self (snd (generate' params sf n spacing si out w))) = Some ya
          /\ shape0 ya = shape0 xa
          /\ n_x (self (snd (generate' params sf n spacing si out w))) = Some (shape1 xa)
          /\ n_y (self (snd (generate' params sf n spacing si out w))) = Some (shape1 ya))
  /\ (forall si w st xa ya,
        fst (resume' si w) = Returns tt ->
        settings (self w) = Some st ->
        getitem_int st "n_samples" = Returns (Z.of_nat (shape0 xa)) ->
        x (self w) = Some xa -> y (self w) = Some ya ->
        counted (self w) = true -> shape0 ya <= shape0 xa ->
        consistent (self (snd (resume' si w))) = true)
  /\ (forall s0 rest s',
        forallb consistent (s0 :: rest) = true ->
        join (s0 :: rest) = Returns s' ->
        consistent s' = true).
Proof.
  split; [|split; [|split]].
  - intros. now apply load_returns.
  - intros params sf n spacing si out w H. apply run_returns in H.
    destruct (generate_returns _ _ _ _ _ _ _ _ H)
      as (f & mdl & names & xa & sp & x0 & y0 & ynames
          & _ & _ & _ & _ & Hx0 & _ & Hx & Hnx & Hy & Hny & _).
    eexists. eexists. split; [exact Hx|]. split; [exact Hy|].
    split; [|split; [exact Hnx | exact Hny]].
    unfold shape0. cbn [rows]. rewrite (getitem_row0_rows _ _ Hx0).
    cbn. now rewrite length_map.
  - intros si w st xa ya H. apply run_returns in H. revert H. apply resume_restores.
  - apply join_returns_consistent.
Qed.

(** *** The first row *)



Lemma generate_loop_no_save f mdl names params out l :
  forall w, fst (for_each l (generate_step' f mdl names params false out) w) = Returns tt.
Proof.
  induction l as [|xr l IH]; intros w; [reflexivity|].
  rewrite for_each_cons. unfold generate_step at 1.
  destruct (f xr (Some names) params (Some mdl)) as [[? ?] ?].
  unfold_monad. cbv beta iota. apply IH.
Qed.







End GenerateProperties.


Lemma invariant_after_mutation_witness :
  counted (self (snd (Scenario.load "xy.txt" None Scenario.all_columns Scenario.all_columns
                        false (Scenario.fresh Scenario.fs_single)))) = true
  /\ (exists xa ya,
        x (self (snd Scenario.uninterrupted)) = Some xa
        /\ y (self (snd Scenario.uninterrupted)) = Some ya
        /\ shape0 ya = shape0 xa)
  /\ consistent (self (snd (Scenario.resumed 2))) = true
  /\ (forall s', join [Scenario.sample_1x1; Scenario.sample_2x1] = Returns s' ->
                 consistent s' = true).
Proof.
  destruct (invariant_after_mutation
              Scenario.file_name_params Scenario.file_header_params
              Scenario.file_name_x Scenario.file_name_y
              Params_save_open Folder_create_mkdir unit Scenario.fng
              Scenario.Sampler_get_x Params_load_open)
    as (HL & HG & HR & HJ).
  split; [|split; [|split]].
  - assert (H := proj1 (HL "xy.txt" None Scenario.all_columns Scenario.all_columns false
                          (Scenario.fresh Scenario.fs_single)
                          ltac:(vm_compute; reflexivity))).
    vm_compute in H. vm_compute. exact H.
  - assert (H := HG Scenario.params "two_outputs" 3%Z "grid" true (Some "out")
                    (Scenario.fresh empty_fs) ltac:(vm_compute; reflexivity)).
    destruct H as (xa & ya & Hx & Hy & Hr & _).
    exists xa, ya. vm_compute in Hx, Hy. vm_compute.
    split; [exact Hx|]. split; [exact Hy|]. exact Hr.
  - assert (H := HR true (snd (Scenario.reloaded 2)) Scenario.settings_3
                    (mk_array2 1 [[0%float]; [1%float]; [2%float]])
                    (mk_array2 2 [[0%float; 1%float]; [1%float; 2%float]])
                    ltac:(vm_compute; reflexivity) ltac:(vm_compute; reflexivity)
                    ltac:(vm_compute; reflexivity) ltac:(vm_compute; reflexivity)
                    ltac:(vm_compute; reflexivity) ltac:(vm_compute; reflexivity)
                    ltac:(cbn; lia)).
    vm_compute in H. vm_compute. exact H.
  - intros s'. apply (HJ Scenario.sample_1x1 [Scenario.sample_2x1] s'). reflexivity.
Defined.

(** C3, as stated, fails after [load]: the folder left by a run that was
    terminated after two rows of y loads without an error, and the loaded
    sample has three rows of x and two rows of y. *)
Lemma load_of_interrupted_run_is_not_consistent :
  let s := self (snd (Scenario.reloaded 2)) in
  fst (Scenario.reloaded 2) = Returns tt
  /\ option_map shape0 (x s) = Some 3
  /\ option_map shape0 (y s) = Some 2
  /\ n_samples s = Some 3
  /\ consistent s = false.
Proof. vm_compute. repeat split. Qed.

(** [generate] does not assign [n_samples]. *)
Lemma generate_leaves_n_samples :
  fst Scenario.uninterrupted = Returns tt
  /\ n_samples (self (snd Scenario.uninterrupted)) = None
  /\ option_map shape0 (x (self (snd Scenario.uninterrupted))) = Some 3.
Proof. vm_compute. repeat split. Qed.


(** C1: a run of three rows and the same run terminated after the first
    row of y, loaded and resumed.  The y file then holds one row of two
    values, [load] reads it as two rows of one value, and [resume] raises
    on the first remaining row; with two rows in all, [resume] finds
    nothing to do and leaves the two rows of one value.  Terminated after
    two rows of y, the resumed run has the y of the uninterrupted one. *)
Theorem resume_after_first_row :
  fst Scenario.uninterrupted = Returns tt
  /\ y (self (snd Scenario.uninterrupted))
     = Some (mk_array2 2 [[0%float; 1%float]; [1%float; 2%float]; [2%float; 3%float]])
  /\ fst (Scenario.interrupted 1) = Returns tt
  /\ fs (snd (Scenario.interrupted 1)) "out/y_sample.txt"
     = Some (Scenario.table_of (join_str (String TAB "") ["y0"; "y1"]) [[0%float; 1%float]])
  /\ fst (Scenario.reloaded 1) = Returns tt
  /\ y (self (snd (Scenario.reloaded 1))) = Some (mk_array2 1 [[0%float]; [1%float]])
  /\ fst (Scenario.resumed 1) = Raises (ValueError vstack_msg)
  /\ fst Scenario.uninterrupted_2 = Returns tt
  /\ y (self (snd Scenario.uninterrupted_2))
     = Some (mk_array2 2 [[0%float; 1%float]; [1%float; 2%float]])
  /\ fst Scenario.resumed_2 = Returns tt
  /\ y (self (snd Scenario.resumed_2)) = Some (mk_array2 1 [[0%float]; [1%float]])
  /\ fst (Scenario.resumed 2) = Returns tt
  /\ y (self (snd (Scenario.resumed 2))) = y (self (snd Scenario.uninterrupted)).
Proof. vm_compute. repeat split. Qed.

(** ** resume after generate *)

(** *** Paths *)

Lemma append_length a b : String.length (a ++ b)%string = String.length a + String.length b.
Proof. induction a as [|c a IH]; cbn; [reflexivity | now rewrite IH]. Qed.

Lemma append_cancel a b c : (a ++ b)%string = (a ++ c)%string -> b = c.
Proof.
  induction a as [|x a IH]; cbn; intro H; [assumption|].
  injection H as H. now apply IH.
Qed.

Lemma os_path_join_longer a b : b <> "" -> String.length a < String.length (os_path_join a b).
Proof.
  intro Hb. assert (0 < String.length b) by (destruct b; [congruence | cbn; lia]).
  unfold os_path_join. destruct (String.eqb_spec a "") as [-> | Ha]; [cbn; lia|].
  destruct (ends_with_slash a); rewrite append_length; cbn; lia.
Qed.

Lemma os_path_join_not_folder a b : b <> "" -> os_path_join a b <> a.
Proof.
  intros Hb E. pose proof (os_path_join_longer a b Hb) as H. rewrite E in H. lia.
Qed.

Lemma os_path_join_inj a b c : os_path_join a b = os_path_join a c -> b = c.
Proof.
  unfold os_path_join. destruct (String.eqb a ""); [trivial|].
  destruct (ends_with_slash a); intro H; apply append_cancel in H;
    [assumption | now injection H].
Qed.

Lemma fs_write_same f p n : fs_write f p n p = Some n.
Proof. unfold fs_write. now rewrite String.eqb_refl. Qed.

Lemma fs_write_other f p n q : q <> p -> fs_write f p n q = f q.
Proof. unfold fs_write. intro H. apply String.eqb_neq in H. now rewrite H. Qed.

Lemma in_firstn_in {A} (n : nat) (l : list A) (a : A) : In a (firstn n l) -> In a l.
Proof. intro H. rewrite <- (firstn_skipn n l). apply in_or_app. now left. Qed.

Lemma in_skipn_in {A} (n : nat) (l : list A) (a : A) : In a (skipn n l) -> In a l.
Proof. intro H. rewrite <- (firstn_skipn n l). apply in_or_app. now right. Qed.

(** *** Reading back what was written *)

Lemma py_slice_all {A} (l : list A) : py_slice None None l = l.
Proof.
  unfold py_slice, slice_len, slice_start, slice_stop. cbn [skipn].
  rewrite Nat.sub_0_r. apply firstn_all.
Qed.

Lemma filter_nonempty_rows (d : list row) c :
  Forall (fun r => length r = c) d -> 1 <= c -> filter nonempty d = d.
Proof.
  intros Hall Hc. apply forallb_filter_id. apply forallb_forall. intros r Hr.
  rewrite Forall_forall in Hall. specialize (Hall r Hr).
  destruct r; [cbn in Hall; lia | reflexivity].
Qed.

Lemma singleton_rows (d : list row) :
  Forall (fun r => length r = 1) d -> map (fun e => [e]) (map (fun r => hd 0%float r) d) = d.
Proof.
  induction 1 as [|r d Hr _ IH]; [reflexivity|]. cbn. rewrite IH.
  destruct r as [|e [|? ?]]; try discriminate. reflexivity.
Qed.

Lemma genfromtxt_rows f p t r1 r2 rs c :
  f p = Some (TableFile t) ->
  data t = r1 :: r2 :: rs ->
  Forall (fun r => length r = c) (data t) -> 1 <= c ->
  match genfromtxt f p with
  | Returns (Arr2 a) => a = mk_array2 c (data t)
  | Returns (Arr1 v) => newaxis_col v = mk_array2 c (data t)
  | _ => False
  end.
Proof.
  intros Hp Hd Hall Hc.
  destruct (Nat.eq_dec c 1) as [-> | Hc1].
  - unfold genfromtxt. rewrite Hp, (filter_nonempty_rows _ 1 Hall Hc), Hd.
    rewrite Hd in Hall. inversion Hall as [|? ? H1 Hall']; subst.
    replace (forallb _ (r2 :: rs)) with true.
    + unfold squeeze. cbn [rows shape1]. rewrite H1. cbn [Nat.eqb].
      unfold newaxis_col. f_equal. apply (singleton_rows (r1 :: r2 :: rs)). exact Hall.
    + symmetry. apply forallb_forall. intros r Hr. apply Nat.eqb_eq.
      rewrite Forall_forall in Hall'. rewrite H1. now apply Hall'.
  - rewrite (genfromtxt_table f p t r1 r2 rs c Hp Hd Hall); [reflexivity | lia].
Qed.

Lemma last_comment_header h :
  last_comment HASH (header_lines h) None
  = if String.eqb h "" then None else Some ("# " ++ h ++ String NL "")%string.
Proof. unfold header_lines. destruct (String.eqb h ""); reflexivity. Qed.

Lemma _load_array_written f p h d r1 r2 rs c :
  f p = Some (TableFile (mk_table (header_lines h) d)) ->
  d = r1 :: r2 :: rs ->
  Forall (fun r => length r = c) d -> 1 <= c ->
  _load_array f p (Slice None None) = Returns (mk_array2 c d, names_of_header h c).
Proof.
  intros Hp Hd Hall Hc. unfold _load_array.
  pose proof (genfromtxt_rows f p _ r1 r2 rs c Hp Hd Hall Hc) as Hg. cbn [data] in Hg.
  assert (Hn : _try_to_load_names_array f p (Some c) = Returns (names_of_header h c)).
  { unfold _try_to_load_names_array, names_of_header. rewrite Hp. cbn [leading_lines].
    rewrite last_comment_header. destruct (String.eqb h ""); [reflexivity|].
    destruct c; [lia|]. cbv zeta.
    destruct (S c =? _); reflexivity. }
  assert (Hcols : getitem_cols (mk_array2 c d) (Slice None None) = Returns (mk_array2 c d)).
  { unfold getitem_cols, slice_len, slice_start, slice_stop. cbn [shape1 rows].
    rewrite Nat.sub_0_r. do 2 f_equal.
    rewrite <- (map_id d) at 2. apply map_ext. intro r. apply py_slice_all. }
  assert (Hnames : forall o : option (list string),
            match o with
            | Some ns => rbind (getitem_names ns (Slice None None)) (fun ns' => Returns (Some ns'))
            | None => Returns None
            end = Returns o).
  { intros [ns|]; [|reflexivity]. unfold getitem_names. cbn [rbind].
    now rewrite py_slice_all. }
  destruct (genfromtxt f p) as [[v|v|a]|e]; try contradiction; cbn [rbind].
  - rewrite Hg. cbn [shape1]. rewrite Hn. cbn [rbind]. rewrite Hcols. cbn [rbind].
    rewrite Hnames. reflexivity.
  - subst a. cbn [shape1]. rewrite Hn. cbn [rbind]. rewrite Hcols. cbn [rbind].
    rewrite Hnames. reflexivity.
Qed.

Section LoadFolder.

Variables file_name_params file_name_x file_name_y : string.
Variable Params_load : FS -> string -> result yaml.

Local Abbreviation load' := (load file_name_params file_name_x file_name_y Params_load).
Local Abbreviation load_settings' := (load_settings file_name_params Params_load).

Lemma load_data_keeps px py cx cy rnf w :
  settings (self (snd (load_data px py cx cy rnf w))) = settings (self w)
  /\ path (self (snd (load_data px py cx cy rnf w))) = path (self w)
  /\ fs (snd (load_data px py cx cy rnf w)) = fs w.
Proof.
  unfold load_data. unfold_monad. repeat (break_inner; cbn); repeat split.
Qed.

(** [load] of a folder that holds the settings and two readable tables. *)
Lemma load_folder dir cx cy w st xa xn ya yn :
  Params_load (fs w) (os_path_join dir file_name_params) = Returns st ->
  isdir (fs w) dir = true ->
  _load_array (fs w) (os_path_join dir file_name_x) cx = Returns (xa, xn) ->
  _load_array (fs w) (os_path_join dir file_name_y) cy = Returns (ya, yn) ->
  rows xa <> [] ->
  let r := load' dir None cx cy false w in
  fst r = Returns tt
  /\ x (self (snd r)) = Some xa /\ y (self (snd r)) = Some ya
  /\ x_names (self (snd r)) = xn
  /\ n_samples (self (snd r)) = Some (shape0 xa)
  /\ n_x (self (snd r)) = Some (shape1 xa) /\ n_y (self (snd r)) = Some (shape1 ya)
  /\ settings (self (snd r)) = Some st
  /\ path (self (snd r)) = Some dir
  /\ fs (snd r) = fs w.
Proof.
  intros Hst Hdir Hx Hy Hne. cbv zeta. rewrite load_unfold.
  pose proof (load_settings_cases file_name_params Params_load dir w) as Hs.
  rewrite Hst in Hs. rewrite Hs.
  unfold load_rest, assign_paths. unfold_monad. cbv beta.
  cbn [truthy_opt fs]. rewrite andb_false_r, Hdir. cbv beta iota.
  set (w2 := mk_world (set_path (Some dir) (self (mk_world (set_settings (Some st) (self w))
                                                           (fs w) (warnings w))))
                      (fs w) (warnings w)).
  destruct (load_data_run (os_path_join dir file_name_x) (os_path_join dir file_name_y)
              cx cy false w2 xa xn ya yn Hx Hy Hne) as [H _].
  destruct (H eq_refl) as (H1 & H2 & H3 & H4 & _ & H6 & H7 & H8).
  destruct (load_data_keeps (os_path_join dir file_name_x) (os_path_join dir file_name_y)
              cx cy false w2) as (K1 & K2 & K3).
  cbn [fst snd self fs warnings] in *.
  repeat split; assumption.
Qed.

End LoadFolder.

Section ResumeRefines.

Variables file_name_params file_header_params file_name_x file_name_y : string.
Variable model : Type.
Variable fng : string -> option (sampling_function model).
Variable Sampler_get_x : string -> yaml -> list string -> Z -> result array2.
Variable out : string.

Hypothesis file_name_x_given : file_name_x <> "".
Hypothesis file_name_y_given : file_name_y <> "".
Hypothesis file_name_params_given : file_name_params <> "".
Hypothesis file_names_x_y : file_name_x <> file_name_y.
Hypothesis file_names_x_params : file_name_x <> file_name_params.
Hypothesis file_names_y_params : file_name_y <> file_name_params.

Local Abbreviation generate_first' :=
  (generate_first file_name_params file_header_params file_name_x file_name_y
     Params_save_open Folder_create_mkdir fng Sampler_get_x).
Local Abbreviation generate_step' := (@generate_step file_name_y model).
Local Abbreviation generate' :=
  (generate file_name_params file_header_params file_name_x file_name_y
     Params_save_open Folder_create_mkdir fng Sampler_get_x).
Local Abbreviation generate_killed' :=
  (generate_killed file_name_params file_header_params file_name_x file_name_y
     Params_save_open Folder_create_mkdir fng Sampler_get_x).
Local Abbreviation load' :=
  (load file_name_params file_name_x file_name_y Params_load_open).
Local Abbreviation resume' := (resume file_name_y fng).
Local Abbreviation resume_step' := (@resume_step file_name_y model).
Local Abbreviation xp := (os_path_join out file_name_x).
Local Abbreviation yp := (os_path_join out file_name_y).
Local Abbreviation pp := (os_path_join out file_name_params).

Lemma paths_apart :
  xp <> pp /\ xp <> out /\ yp <> xp /\ yp <> pp /\ yp <> out /\ pp <> out.
Proof.
  repeat split;
    try (apply os_path_join_not_folder; assumption);
    intro E; apply os_path_join_inj in E; congruence.
Qed.

(** The files of a run after the first row of y. *)
Lemma generate_first_saved params sf n spacing s0 ws f sp names xa x0 y0 ynames mdl :
  fng sf = Some f ->
  sampled_params_of params sf = Returns sp ->
  varying_names sp = Returns names ->
  Sampler_get_x spacing sp names n = Returns xa ->
  getitem_row0 xa = Returns x0 ->
  f x0 (Some names) params None = (y0, ynames, mdl) ->
  let r := generate_first' params sf n spacing true (Some out) (mk_world s0 empty_fs ws) in
  fst r = Returns (f, mdl, names, xa)
  /\ fs (snd r) out = Some Directory
  /\ fs (snd r) pp = Some (YamlFile (settings_of params sf n spacing))
  /\ fs (snd r) xp
     = Some (TableFile (mk_table (header_lines (join_str (String TAB "") names)) (rows xa)))
  /\ exists yh, fs (snd r) yp = Some (TableFile (mk_table (header_lines yh) [y0])).
Proof.
  intros Hf Hsp Hn Hx Hx0 Hy0. destruct paths_apart as (P1 & P2 & P3 & P4 & P5 & P6).
  cbv zeta. unfold generate_first, _save_settings, _save_x, _save_y, savetxt_attribute, eval_fng,
    sampled_params_of, Folder_create_mkdir, Params_save_open, np_savetxt in *.
  unfold_monad. rewrite Hf. unfold settings_of.
  destruct (sf =? cobaya)%string eqn:Ec; [rewrite Hsp | injection Hsp as <-].
  all: cbn -[os_path_join fs_write header_lines join_str String.eqb].
  all: rewrite Hn.
  all: cbn -[os_path_join fs_write header_lines join_str String.eqb].
  all: rewrite Hx.
  all: cbn -[os_path_join fs_write header_lines join_str String.eqb].
  all: rewrite (fs_write_other _ pp _ xp P1), (fs_write_other _ out _ xp P2).
  all: cbn -[os_path_join fs_write header_lines join_str String.eqb].
  all: rewrite Hx0.
  all: cbn -[os_path_join fs_write header_lines join_str String.eqb].
  all: rewrite Hy0.
  all: cbn -[os_path_join fs_write header_lines join_str String.eqb].
  all: rewrite (fs_write_other _ xp _ yp P3), (fs_write_other _ pp _ yp P4),
         (fs_write_other _ out _ yp P5).
  all: cbn -[os_path_join fs_write header_lines join_str String.eqb].
  all: split; [reflexivity|].
  all: split;
         [rewrite (fs_write_other _ yp _ out (not_eq_sym P5)),
            (fs_write_other _ xp _ out (not_eq_sym P2)),
            (fs_write_other _ pp _ out (not_eq_sym P6)); apply fs_write_same|].
  all: split;
         [rewrite (fs_write_other _ yp _ pp (not_eq_sym P4)),
            (fs_write_other _ xp _ pp (not_eq_sym P1)); apply fs_write_same|].
  all: split; [rewrite (fs_write_other _ yp _ xp (not_eq_sym P3)); apply fs_write_same|].
  all: eexists; apply fs_write_same.
Qed.
(** One more row of y on the files. *)
Lemma _append_y_saved p v w hdr d :
  fs w (os_path_join p file_name_y) = Some (TableFile (mk_table hdr d)) ->
  _append_y file_name_y (Some p) v w
  = (Returns tt,
     mk_world (self w)
       (fs_write (fs w) (os_path_join p file_name_y) (TableFile (mk_table hdr (d ++ [v]))))
       (warnings w)).
Proof.
  intro H. unfold _append_y, append_savetxt. unfold_monad. cbv beta iota.
  rewrite H. reflexivity.
Qed.

Lemma generate_loop_saved f mdl names params l :
  forall w hdr d,
  fs w yp = Some (TableFile (mk_table hdr d)) ->
  let r := for_each l (generate_step' f mdl names params true (Some out)) w in
  fst r = Returns tt
  /\ fs (snd r) yp
     = Some (TableFile (mk_table hdr (d ++ map (y_of f (Some names) params mdl) l)))
  /\ (forall q, q <> yp -> fs (snd r) q = fs w q).
Proof.
  induction l as [|xr l IH]; intros w hdr d Hy; cbv zeta.
  - cbn. rewrite app_nil_r. repeat split. assumption.
  - set (y_val := y_of f (Some names) params mdl xr).
    set (W := mk_world (set_y (append_row y_val (y (self w))) (self w))
                (fs_write (fs w) yp (TableFile (mk_table hdr (d ++ [y_val]))))
                (warnings w)).
    assert (E : for_each (xr :: l) (generate_step' f mdl names params true (Some out)) w
                = for_each l (generate_step' f mdl names params true (Some out)) W).
    { rewrite for_each_cons. unfold generate_step at 1. subst W y_val. unfold y_of.
      destruct (f xr (Some names) params (Some mdl)) as [[y_val ?] ?]. cbn [fst].
      unfold bind, update_self, when. cbv beta iota.
      rewrite (_append_y_saved out y_val _ hdr d) by exact Hy.
      reflexivity. }
    rewrite E.
    destruct (IH W hdr (d ++ [y_val])) as (H1 & H2 & H3);
      [subst W; cbn [fs]; apply fs_write_same|].
    split; [exact H1|]. split.
    + rewrite H2. cbn [map]. fold y_val. now rewrite <- app_assoc.
    + intros q Hq. rewrite (H3 q Hq). subst W. cbn [fs]. now apply fs_write_other.
Qed.

Lemma resume_loop_saved f mdl names params l :
  forall w ya hdr d,
  y (self w) = Some ya ->
  path (self w) = Some out ->
  fs w yp = Some (TableFile (mk_table hdr d)) ->
  (forall xr, In xr l -> length (y_of f names params mdl xr) = shape1 ya) ->
  fst (for_each l (resume_step' f mdl names params true) w) = Returns tt.
Proof.
  induction l as [|xr l IH]; intros w ya hdr d Hy Hp Hf Hlen; [reflexivity|].
  rewrite for_each_cons. unfold resume_step at 1.
  pose proof (Hlen xr (or_introl eq_refl)) as Hl. unfold y_of in Hl.
  destruct (f xr names params (Some mdl)) as [[y_val ?] ?] eqn:Ef. cbn [fst] in Hl.
  unfold bind, get_self, require, lift, update_self, when, ret. cbv beta iota.
  rewrite Hy. cbv beta iota. unfold vstack_row. rewrite Hl, Nat.eqb_refl.
  cbv beta iota. rewrite Hp.
  rewrite (_append_y_saved out y_val _ hdr d) by exact Hf.
  cbv beta iota.
  eapply IH.
  - cbn. reflexivity.
  - cbn. exact Hp.
  - cbn [fs]. apply fs_write_same.
  - intros xr' Hin. cbn [shape1]. apply Hlen. now right.
Qed.



Lemma settings_of_lookups params sf n spacing :
  getitem_int (settings_of params sf n spacing) "n_samples" = Returns n
  /\ getitem_str (settings_of params sf n spacing) "sampled_function" = Returns sf
  /\ (if String.eqb sf cobaya
      then getitem_key (settings_of params sf n spacing) "cobaya"
      else getitem_key (settings_of params sf n spacing) "params") = Returns params.
Proof.
  unfold settings_of, getitem_int, getitem_str, getitem_key.
  destruct (String.eqb sf cobaya); repeat split.
Qed.

(** [resume] when rows remain: the loop over the remaining rows of x. *)
Lemma resume_run si w st n sf f params xa ya x0 :
  settings (self w) = Some st ->
  getitem_int st "n_samples" = Returns n ->
  getitem_str st "sampled_function" = Returns sf ->
  fng sf = Some f ->
  (if String.eqb sf cobaya then getitem_key st "cobaya" else getitem_key st "params")
  = Returns params ->
  x (self w) = Some xa -> y (self w) = Some ya ->
  n <> Z.of_nat (shape0 ya) ->
  getitem_row0 xa = Returns x0 ->
  resume' si w
  = for_each (rows_from (shape0 ya) xa)
      (resume_step' f (snd (f x0 (x_names (self w)) params None)) (x_names (self w))
         params si) w.
Proof.
  intros Hst Hn Hsf Hf Hp Hx Hy Hne Hx0.
  unfold resume, eval_fng. unfold_monad. cbv beta.
  rewrite Hst, Hn, Hy. cbv beta iota.
  replace (n - Z.of_nat (shape0 ya) =? 0)%Z with false
    by (symmetry; apply Z.eqb_neq; lia).
  rewrite Hsf. cbv beta iota. rewrite Hf. cbv beta iota. rewrite Hp. cbv beta iota.
  rewrite Hx. cbv beta iota. rewrite Hx0. cbv beta iota.
  destruct (f x0 (x_names (self w)) params None) as [[? ?] mdl]. reflexivity.
Qed.

Lemma np_array_rows r0 rs :
  (forall r, In r rs -> length r = length r0) ->
  np_array (r0 :: rs) = Returns (mk_array2 (length r0) (r0 :: rs)).
Proof.
  intro H. unfold np_array.
  replace (forallb _ rs) with true; [reflexivity|].
  symmetry. apply forallb_forall. intros r Hr. apply Nat.eqb_eq. now apply H.
Qed.

(** Resuming a run that was terminated after at least two rows of y gives
    the y of the run that was not terminated. *)
Theorem resume_completes_interrupted_run
    params sf n spacing k f sp names xa x0 y0 ynames mdl :
  fng sf = Some f ->
  sampled_params_of params sf = Returns sp ->
  varying_names sp = Returns names ->
  Sampler_get_x spacing sp names n = Returns xa ->
  getitem_row0 xa = Returns x0 ->
  f x0 (Some names) params None = (y0, ynames, mdl) ->
  n = Z.of_nat (shape0 xa) ->
  well_formed xa = true -> 1 <= shape1 xa ->
  names_of_header (join_str (String TAB "") names) (shape1 xa) = Some names ->
  (forall xr, In xr (rows xa) -> length (y_of f (Some names) params mdl xr) = length y0) ->
  1 <= length y0 ->
  2 <= k < shape0 xa ->
  let w0 := mk_world Sample_init empty_fs [] in
  let full := generate' params sf n spacing true (Some out) w0 in
  let killed := generate_killed' k params sf n spacing true (Some out) w0 in
  let reloaded := load' out None (Slice None None) (Slice None None) false
                    (mk_world Sample_init (fs (snd killed)) []) in
  let resumed := resume' true (snd reloaded) in
  fst full = Returns tt /\ fst killed = Returns tt /\ fst reloaded = Returns tt
  /\ fst resumed = Returns tt
  /\ y (self (snd resumed)) = y (self (snd full)).
Proof.
  intros Hf Hsp Hn Hx Hx0 Hy0 HN Hwf Hc Hnames Hlen Hly Hk w0.
  pose proof (getitem_row0_rows _ _ Hx0) as Hrows.
  set (tlx := tl (rows xa)) in *.
  assert (Htl : length tlx = shape0 xa - 1)
    by (unfold shape0; rewrite Hrows; cbn; lia).
  assert (Hlen_tl : forall xr, In xr tlx ->
            length (y_of f (Some names) params mdl xr) = length y0)
    by (intros xr Hin; apply Hlen; rewrite Hrows; now right).
  (* the first row *)
  set (FIRST := generate_first' params sf n spacing true (Some out) w0).
  destruct (generate_first_saved params sf n spacing Sample_init [] f sp names xa x0 y0
              ynames mdl Hf Hsp Hn Hx Hx0 Hy0) as (F1 & Fdir & Fpp & Fxp & [yh Fyp]).
  fold w0 in F1, Fdir, Fpp, Fxp, Fyp. fold FIRST in F1, Fdir, Fpp, Fxp, Fyp.
  pose proof (run_returns FIRST _ F1) as EF.
  pose proof EF as EF'. apply generate_first_returns in EF'.
  destruct EF'
    as (sp' & x0' & y0' & ynames' & _ & _ & _ & _ & Hx0' & Hy0' & Hx1 & _ & Hy1 & _).
  assert (x0' = x0) by congruence. subst x0'.
  assert (y0' = y0) by congruence. subst y0'.
  set (step := generate_step' f mdl names params true (Some out)).
  (* the run that is not terminated *)
  set (L := for_each tlx step (snd FIRST)).
  destruct (generate_loop_saved f mdl names params tlx (snd FIRST) _ _ Fyp)
    as (L1 & _ & _). fold step in L1. fold L in L1.
  pose proof (run_returns L _ L1) as EL.
  pose proof EL as EL'. eapply generate_loop_returns in EL'; [|exact Hy1].
  destruct EL' as [HyL _].
  cbn [shape1 rows app] in HyL.
  pose proof (generate_last_returns (snd L) _ HyL) as Hlast. cbn [rows] in Hlast.
  rewrite np_array_rows in Hlast
    by (intros r Hr; apply in_map_iff in Hr; destruct Hr as [xr [<- Hin]];
        now apply Hlen_tl).
  assert (Efull : generate' params sf n spacing true (Some out) w0
                  = generate_last (snd L)).
  { unfold generate. unfold bind at 1. fold FIRST. rewrite EF. cbv beta iota.
    unfold bind at 1. fold tlx. fold step. fold L. rewrite EL. reflexivity. }
  (* the run that is terminated *)
  set (LK := for_each (firstn (k - 1) tlx) step (snd FIRST)).
  destruct (generate_loop_saved f mdl names params (firstn (k - 1) tlx) (snd FIRST) _ _ Fyp)
    as (K1 & Kyp & Kother). fold step in K1, Kyp, Kother. fold LK in K1, Kyp, Kother.
  assert (Ekilled : generate_killed' k params sf n spacing true (Some out) w0 = LK).
  { unfold generate_killed. unfold bind at 1. fold FIRST. rewrite EF. reflexivity. }
  destruct paths_apart as (P1 & P2 & P3 & P4 & P5 & P6).
  (* the folder, loaded *)
  set (dy := [y0] ++ map (y_of f (Some names) params mdl) (firstn (k - 1) tlx)) in *.
  set (wl := mk_world Sample_init (fs (snd LK)) []).
  assert (Hst : Params_load_open (fs wl) pp = Returns (settings_of params sf n spacing)).
  { unfold Params_load_open. cbn [fs wl].
    rewrite (Kother pp (not_eq_sym P4)), Fpp. reflexivity. }
  assert (Hdir : isdir (fs wl) out = true).
  { unfold isdir. cbn [fs wl]. rewrite (Kother out (not_eq_sym P5)), Fdir. reflexivity. }
  assert (Hxrows : exists r1 r2 rs, rows xa = r1 :: r2 :: rs).
  { unfold shape0 in Hk. destruct (rows xa) as [|r1 [|r2 rs]]; cbn in Hk; try lia.
    now exists r1, r2, rs. }
  destruct Hxrows as (r1 & r2 & rs & Hxr).
  assert (Hlx : _load_array (fs wl) xp (Slice None None) = Returns (xa, Some names)).
  { rewrite (_load_array_written (fs wl) xp (join_str (String TAB "") names) (rows xa)
               r1 r2 rs (shape1 xa)).
    - rewrite Hnames. destruct xa. reflexivity.
    - cbn [fs wl]. rewrite (Kother xp (not_eq_sym P3)). exact Fxp.
    - exact Hxr.
    - now apply well_formed_Forall.
    - exact Hc. }
  assert (Hfirstn : exists t1 ts, firstn (k - 1) tlx = t1 :: ts).
  { destruct (firstn (k - 1) tlx) as [|t1 ts] eqn:E.
    - apply (f_equal (@length row)) in E. rewrite length_firstn in E. cbn in E. lia.
    - now exists t1, ts. }
  destruct Hfirstn as (t1 & ts & Hfn).
  assert (Hly' : _load_array (fs wl) yp (Slice None None)
                 = Returns (mk_array2 (length y0) dy, names_of_header yh (length y0))).
  { apply (_load_array_written (fs wl) yp yh dy y0
             (y_of f (Some names) params mdl t1)
             (map (y_of f (Some names) params mdl) ts)).
    - cbn [fs wl]. exact Kyp.
    - unfold dy. rewrite Hfn. reflexivity.
    - unfold dy. apply Forall_forall. intros r [<- | Hr]; [reflexivity|].
      apply in_map_iff in Hr. destruct Hr as [xr [<- Hin]].
      apply Hlen_tl. eapply in_firstn_in; eassumption.
    - exact Hly. }
  assert (Hne : rows xa <> []) by (rewrite Hxr; discriminate).
  destruct (load_folder file_name_params file_name_x file_name_y Params_load_open out
              (Slice None None) (Slice None None) wl _ _ _ _ _ Hst Hdir Hlx Hly' Hne)
    as (R1 & Rx & Ry & Rn & _ & _ & _ & Rst & Rp & Rfs).
  set (RL := load' out None (Slice None None) (Slice None None) false wl) in *.
  (* the loaded sample, resumed *)
  destruct (settings_of_lookups params sf n spacing) as (S1 & S2 & S3).
  assert (Hrem : n <> Z.of_nat (shape0 (mk_array2 (length y0) dy))).
  { unfold shape0, dy. cbn [rows]. rewrite length_app, length_map, length_firstn.
    cbn [length]. lia. }
  pose proof (resume_run true (snd RL) _ _ _ _ _ _ _ _ Rst S1 S2 Hf S3 Rx Ry Hrem Hx0) as ER.
  rewrite Rn, Hy0 in ER. cbn [snd] in ER.
  set (rest := rows_from (shape0 (mk_array2 (length y0) dy)) xa) in *.
  set (rstep := resume_step' f mdl (Some names) params true) in *.
  assert (Hrest : rest = skipn (k - 1) tlx).
  { unfold rest, rows_from, shape0, dy. cbn [rows].
    rewrite length_app, length_map, length_firstn, Hrows. cbn [length].
    replace (1 + Nat.min (k - 1) (length tlx)) with (S (k - 1)) by lia. reflexivity. }
  assert (RS1 : fst (for_each rest rstep (snd RL)) = Returns tt).
  { apply (resume_loop_saved f mdl (Some names) params rest (snd RL)
             (mk_array2 (length y0) dy) (header_lines yh) dy Ry Rp).
    - rewrite Rfs. cbn [fs wl]. exact Kyp.
    - intros xr Hin. cbn [shape1]. apply Hlen_tl. rewrite Hrest in Hin.
      eapply in_skipn_in; eassumption. }
  pose proof (run_returns _ _ RS1) as ERS.
  pose proof ERS as ERS'. eapply resume_loop_returns in ERS'; [|exact Ry].
  destruct ERS' as [HyR _].
  cbn [shape1 rows] in HyR.
  (* together *)
  cbv zeta. rewrite Efull, Ekilled. fold wl. fold RL. rewrite ER.
  split; [now rewrite Hlast|]. split; [exact K1|]. split; [exact R1|].
  split; [exact RS1|].
  rewrite HyR, Hlast. cbn [snd self y set_y set_n_y]. f_equal. f_equal.
  unfold dy. rewrite Hrest. cbn [app]. f_equal.
  rewrite <- map_app, firstn_skipn. reflexivity.
Qed.

End ResumeRefines.

Lemma resume_completes_interrupted_run_witness :
  let w0 := mk_world Sample_init empty_fs [] in
  let full := Scenario.generate Scenario.params "two_outputs" 3%Z "grid" true (Some "out") w0 in
  let killed :=
    Scenario.generate_killed 2 Scenario.params "two_outputs" 3%Z "grid" true (Some "out") w0 in
  let reloaded :=
    Scenario.load "out" None (Slice None None) (Slice None None) false
      (mk_world Sample_init (fs (snd killed)) []) in
  let resumed := Scenario.resume true (snd reloaded) in
  fst resumed = Returns tt /\ y (self (snd resumed)) = y (self (snd full)).
Proof.
  assert (H := resume_completes_interrupted_run
                 Scenario.file_name_params Scenario.file_header_params
                 Scenario.file_name_x Scenario.file_name_y unit Scenario.fng
                 Scenario.Sampler_get_x "out"
                 ltac:(discriminate) ltac:(discriminate) ltac:(discriminate)
                 ltac:(discriminate) ltac:(discriminate) ltac:(discriminate)
                 Scenario.params "two_outputs" 3%Z "grid" 2 Scenario.two_outputs
                 Scenario.params ["a"] (mk_array2 1 [[0%float]; [1%float]; [2%float]])
                 [0%float] [0%float; 1%float] (Some ["y0"; "y1"]) tt
                 eq_refl eq_refl eq_refl eq_refl eq_refl eq_refl eq_refl eq_refl
                 ltac:(cbn; lia) eq_refl
                 ltac:(intros [|v xr] _; reflexivity)
                 ltac:(cbn; lia) ltac:(cbn; lia)).
  cbv zeta in H. destruct H as (_ & _ & _ & H4 & H5).
  cbv zeta. split; [exact H4 | exact H5].
Defined.

(** ** train_test_split *)

Lemma floor_upto_le k v : floor_upto k v <= k.
Proof.
  induction k as [|k IH]; simpl; [lia|].
  destruct (PrimFloat.leb _ v); lia.
Qed.

Section SplitProperties.

Variable rng_permutation : Z -> nat -> list nat.

(** What the generator promises: a permutation of the positions. *)
Hypothesis rng_permutation_perm :
  forall seed n, Permutation (rng_permutation seed n) (seq 0 n).

Local Abbreviation train_test_split' := (train_test_split rng_permutation).
Local Abbreviation skl_train_test_split' := (skl_train_test_split rng_permutation).

Lemma skl_train_test_split_returns xa ya frac seed :
  shape0 ya = shape0 xa ->
  (PrimFloat.ltb 0 frac && PrimFloat.ltb frac 1 = true)%bool ->
  n_train_of frac (shape0 xa) <> 0 ->
  (0 <= seed < 2 ^ 32)%Z ->
  exists tr te,
    skl_train_test_split' xa ya frac seed
    = Returns (take_rows xa tr, take_rows xa te, take_rows ya tr, take_rows ya te)
    /\ length tr = n_train_of frac (shape0 xa)
    /\ length tr + length te = shape0 xa
    /\ Permutation (te ++ tr) (seq 0 (shape0 xa)).
Proof.
  intros Hr Hf Hn Hs. unfold skl_train_test_split.
  fold (n_train_of frac (shape0 xa)).
  set (n := shape0 xa) in *. set (k := n_train_of frac n) in *.
  assert (Hk : k <= n) by apply floor_upto_le.
  pose proof (rng_permutation_perm seed n) as Hp.
  assert (Hl : length (rng_permutation seed n) = n)
    by (rewrite (Permutation_length Hp); apply length_seq).
  rewrite Hr, Nat.eqb_refl, Hf. cbn [negb].
  destruct (k =? 0) eqn:Ek; [apply Nat.eqb_eq in Ek; contradiction|].
  replace ((0 <=? seed)%Z && (seed <? 2 ^ 32)%Z)%bool with true
    by (symmetry; apply andb_true_iff; split; [apply Z.leb_le | apply Z.ltb_lt]; lia).
  cbn [negb].
  exists (firstn k (skipn (n - k) (rng_permutation seed n))),
         (firstn (n - k) (rng_permutation seed n)).
  split; [reflexivity|].
  assert (Hfull : firstn k (skipn (n - k) (rng_permutation seed n))
                  = skipn (n - k) (rng_permutation seed n))
    by (apply firstn_all2; rewrite length_skipn; lia).
  rewrite Hfull, length_skipn, length_firstn, Hl, firstn_skipn.
  split; [lia|]. split; [lia | exact Hp].
Qed.

(** C8 (as amended): with a generator that returns permutations, for
    every sample whose x and y have the same number [n] of rows, every
    fraction strictly between 0 and 1 whose product with [n] has a
    non-zero integer part and every seed from 0 to 2^32 - 1,
    [train_test_split'] returns; the train and the test parts are the rows
    of x and of y at two lists of positions, the same two lists for x and
    for y, so that co-indexed rows of the x part and of the y part come
    from the same original row; the two lists have no position in common
    and hold every position once, so that the row counts add up to [n];
    and the parts depend on x, y, the fraction and the seed only. *)
Theorem train_test_split_partitions frac seed w xa ya :
  x (self w) = Some xa -> y (self w) = Some ya ->
  shape0 ya = shape0 xa ->
  (PrimFloat.ltb 0 frac && PrimFloat.ltb frac 1 = true)%bool ->
  n_train_of frac (shape0 xa) <> 0 ->
  (0 <= seed < 2 ^ 32)%Z ->
  exists tr te,
    let s' := self (snd (train_test_split' frac seed w)) in
    fst (train_test_split' frac seed w) = Returns tt
    /\ x_train s' = Some (take_rows xa tr) /\ y_train s' = Some (take_rows ya tr)
    /\ x_test s' = Some (take_rows xa te) /\ y_test s' = Some (take_rows ya te)
    /\ shape0 (take_rows xa tr) + shape0 (take_rows xa te) = shape0 xa
    /\ NoDup (tr ++ te)
    /\ (forall i, In i (tr ++ te) <-> i < shape0 xa)
    /\ (forall i, i < length tr ->
          nth i (rows (take_rows xa tr)) [] = nth (nth i tr 0) (rows xa) []
          /\ nth i (rows (take_rows ya tr)) [] = nth (nth i tr 0) (rows ya) [])
    /\ (forall i, i < length te ->
          nth i (rows (take_rows xa te)) [] = nth (nth i te 0) (rows xa) []
          /\ nth i (rows (take_rows ya te)) [] = nth (nth i te 0) (rows ya) [])
    /\ (forall w2, x (self w2) = Some xa -> y (self w2) = Some ya ->
          let s2 := self (snd (train_test_split' frac seed w2)) in
          x_train s2 = x_train s' /\ y_train s2 = y_train s'
          /\ x_test s2 = x_test s' /\ y_test s2 = y_test s').
Proof.
  intros Hx Hy Hr Hf Hn Hs.
  destruct (skl_train_test_split_returns xa ya frac seed Hr Hf Hn Hs)
    as (tr & te & Hsplit & _ & Hlen & Hperm).
  assert (Hrun : forall w0, x (self w0) = Some xa -> y (self w0) = Some ya ->
            train_test_split' frac seed w0
            = (Returns tt,
               mk_world (set_split (take_rows xa tr) (take_rows xa te)
                                   (take_rows ya tr) (take_rows ya te) (self w0))
                        (fs w0) (warnings w0))).
  { intros w0 Hx0 Hy0. unfold train_test_split. unfold_monad. cbv beta.
    rewrite Hx0, Hy0. cbv beta iota. rewrite Hsplit. reflexivity. }
  assert (Hperm' : Permutation (tr ++ te) (seq 0 (shape0 xa)))
    by (eapply Permutation_trans; [apply Permutation_app_comm | exact Hperm]).
  assert (Hnth : forall (a : array2) (idx : list nat) i, i < length idx ->
            nth i (rows (take_rows a idx)) [] = nth (nth i idx 0) (rows a) []).
  { intros a idx i Hi. unfold take_rows. cbn [rows].
    rewrite (nth_indep _ [] ((fun j => nth j (rows a) []) 0))
      by (now rewrite length_map).
    now rewrite (map_nth (fun j => nth j (rows a) [])). }
  exists tr, te. cbv zeta. rewrite (Hrun w Hx Hy).
  cbn -[train_test_split take_rows].
  split; [reflexivity|]. do 4 (split; [reflexivity|]).
  split; [unfold shape0, take_rows; cbn [rows]; rewrite !length_map; exact Hlen|].
  split; [apply (Permutation_NoDup (Permutation_sym Hperm')); apply seq_NoDup|].
  split.
  { intros i. split; intro H.
    - apply (Permutation_in _ Hperm') in H. apply in_seq in H. lia.
    - apply (Permutation_in _ (Permutation_sym Hperm')). apply in_seq. lia. }
  split; [intros i Hi; split; now apply Hnth|].
  split; [intros i Hi; split; now apply Hnth|].
  intros w2 Hx2 Hy2. rewrite (Hrun w2 Hx2 Hy2). cbn -[take_rows]. repeat split.
Qed.

End SplitProperties.

Lemma reversal_is_a_permutation (seed : Z) (n : nat) :
  Permutation (Scenario.rng_permutation seed n) (seq 0 n).
Proof. apply Permutation_sym, Permutation_rev. Qed.

Lemma train_test_split_partitions_witness :
  let w := Scenario.holding Scenario.sample_2x1 in
  let xa := mk_array2 1 [[4%float]; [0%float]] in
  let ya := mk_array2 1 [[7%float]; [8%float]] in
  exists tr te,
    fst (train_test_split Scenario.rng_permutation 0.5%float 0%Z w) = Returns tt
    /\ x_train (self (snd (train_test_split Scenario.rng_permutation 0.5%float 0%Z w)))
       = Some (take_rows xa tr)
    /\ y_train (self (snd (train_test_split Scenario.rng_permutation 0.5%float 0%Z w)))
       = Some (take_rows ya tr)
    /\ shape0 (take_rows xa tr) + shape0 (take_rows xa te) = shape0 xa
    /\ NoDup (tr ++ te).
Proof.
  intros w xa ya.
  destruct (train_test_split_partitions Scenario.rng_permutation reversal_is_a_permutation
              0.5%float 0%Z w xa ya eq_refl eq_refl eq_refl eq_refl
              ltac:(vm_compute; discriminate)
              ltac:(split; [apply Z.leb_le | apply Z.ltb_lt]; reflexivity))
    as (tr & te & H1 & H2 & H3 & _ & _ & H6 & H7 & _).
  exists tr, te. repeat split; assumption.
Defined.

(** On the two rows of [sample_2x1], with one half and the reversal: the
    second row is the test part and the first row the train part. *)
Example train_test_split_two_rows :
  let r := Scenario.train_test_split 0.5%float 0%Z (Scenario.holding Scenario.sample_2x1) in
  fst r = Returns tt
  /\ x_train (self (snd r)) = Some (mk_array2 1 [[4%float]])
  /\ y_train (self (snd r)) = Some (mk_array2 1 [[7%float]])
  /\ x_test (self (snd r)) = Some (mk_array2 1 [[0%float]])
  /\ y_test (self (snd r)) = Some (mk_array2 1 [[8%float]]).
Proof. vm_compute. repeat split. Qed.

(** C8, as stated, fails on a sample with one row: half of one row is no
    row, scikit-learn refuses an empty train part, and no part is
    assigned; a negative seed is refused as well. *)
Lemma train_test_split_one_row_raises :
  let r := Scenario.train_test_split 0.5%float 0%Z (Scenario.holding Scenario.sample_1x1) in
  let r' := Scenario.train_test_split 0.5%float (-1)%Z
              (Scenario.holding Scenario.sample_2x1) in
  consistent Scenario.sample_1x1 = true
  /\ fst r = Raises (ValueError "the resulting train set will be empty")
  /\ x_train (self (snd r)) = None /\ x_test (self (snd r)) = None
  /\ fst r' = Raises (ValueError "Seed must be between 0 and 2**32 - 1").
Proof. vm_compute. repeat split. Qed.
(** ** Names in headers *)

Lemma string_app_assoc (a b c : string) : ((a ++ b) ++ c)%string = (a ++ (b ++ c))%string.
Proof. induction a as [|x a IH]; cbn; [reflexivity | now rewrite IH]. Qed.

Lemma string_app_nil_r (a : string) : (a ++ "")%string = a.
Proof. induction a as [|x a IH]; cbn; [reflexivity | now rewrite IH]. Qed.

Lemma has_char_app c a b : has_char c (a ++ b)%string = has_char c a || has_char c b.
Proof.
  induction a as [|x a IH]; cbn; [reflexivity|]. rewrite IH. apply orb_assoc.
Qed.

Lemma re_sub_char_app c a b :
  re_sub_char c (a ++ b)%string = (re_sub_char c a ++ re_sub_char c b)%string.
Proof.
  induction a as [|x a IH]; cbn; [reflexivity|].
  destruct (Ascii.eqb x c); cbn; now rewrite IH.
Qed.

Lemma re_sub_char_none c s : has_char c s = false -> re_sub_char c s = s.
Proof.
  induction s as [|x s IH]; cbn; [reflexivity|].
  intro H. apply orb_false_iff in H. destruct H as [H1 H2].
  rewrite H1. now rewrite IH.
Qed.

Lemma split_none d s : has_char d s = false -> split d s = [s].
Proof.
  induction s as [|x s IH]; cbn; [reflexivity|].
  intro H. apply orb_false_iff in H. destruct H as [H1 H2].
  rewrite H1, (IH H2). reflexivity.
Qed.

Lemma split_app d a b :
  has_char d a = false -> split d (a ++ String d b) = a :: split d b.
Proof.
  induction a as [|x a IH]; cbn.
  - intros _. now rewrite Ascii.eqb_refl.
  - intro H. apply orb_false_iff in H. destruct H as [H1 H2].
    rewrite H1, (IH H2). reflexivity.
Qed.

Lemma has_char_join c (l : list string) :
  c <> TAB -> forallb (fun s => negb (has_char c s)) l = true ->
  has_char c (join_str (String TAB "") l) = false.
Proof.
  intros Hc. unfold join_str. induction l as [|n l IH]; [reflexivity|].
  intro H. cbn [forallb] in H. apply andb_true_iff in H. destruct H as [H1 H2].
  apply negb_true_iff in H1.
  destruct l as [|m l]; [exact H1|].
  change (String.concat (String TAB "") (n :: m :: l))
    with (n ++ String TAB (String.concat (String TAB "") (m :: l)))%string.
  rewrite has_char_app, H1. cbn [orb has_char].
  rewrite (IH H2), orb_false_r. apply Ascii.eqb_neq. congruence.
Qed.

Lemma split_join_last suf (l : list string) :
  l <> [] -> has_char TAB suf = false ->
  forallb (fun s => negb (has_char TAB s)) l = true ->
  split TAB (join_str (String TAB "") l ++ suf) = wrap_last suf l.
Proof.
  intros Hl Hs. unfold join_str. induction l as [|n l IH]; [congruence|].
  intro H. cbn [forallb] in H. apply andb_true_iff in H. destruct H as [H1 H2].
  apply negb_true_iff in H1.
  destruct l as [|m l].
  - cbn [String.concat wrap_last]. apply split_none. now rewrite has_char_app, H1, Hs.
  - change (String.concat (String TAB "") (n :: m :: l))
      with (n ++ String TAB "" ++ String.concat (String TAB "") (m :: l))%string.
    rewrite string_app_assoc.
    change ((String TAB "" ++ String.concat (String TAB "") (m :: l)) ++ suf)%string
      with (String TAB (String.concat (String TAB "") (m :: l) ++ suf)).
    rewrite (split_app TAB n _ H1).
    rewrite IH by (congruence || assumption). reflexivity.
Qed.

Lemma wrap_last_cons suf (l : list string) :
  l <> [] -> exists n l', wrap_last suf l = n :: l'.
Proof.
  destruct l as [|n [|m l]]; [congruence | |]; intros _; cbn; eauto.
Qed.

Lemma split_join_wrap pre suf (l : list string) :
  l <> [] -> has_char TAB pre = false -> has_char TAB suf = false ->
  forallb (fun s => negb (has_char TAB s)) l = true ->
  split TAB (pre ++ join_str (String TAB "") l ++ suf) = wrap pre suf l.
Proof.
  intros Hl Hp Hs H. unfold wrap.
  pose proof (split_join_last suf l Hl Hs H) as E.
  destruct (wrap_last_cons suf l Hl) as (n & l' & W). rewrite W in *.
  revert E. generalize (join_str (String TAB "") l ++ suf)%string. intros s E.
  clear W. revert n l' E. clear -Hp. induction pre as [|x pre IH]; intros n l' E.
  - exact E.
  - cbn [has_char] in Hp. apply orb_false_iff in Hp. destruct Hp as [H1 H2].
    change (split TAB (String x (pre ++ s)) = String x (pre ++ n) :: l').
    cbn [split]. rewrite H1, (IH H2 n l' E). reflexivity.
Qed.

(** *** Stripping *)

Lemma lstrip_length s : String.length (lstrip s) <= String.length s.
Proof.
  induction s as [|c s IH]; cbn; [lia|]. destruct (is_space c); cbn; lia.
Qed.

Lemma lstrip_fixed c s : lstrip (String c s) = String c s -> is_space c = false.
Proof.
  cbn. destruct (is_space c); [|reflexivity].
  intro H. apply (f_equal String.length) in H. cbn in H.
  pose proof (lstrip_length s). lia.
Qed.

Lemma lstrip_space_app c s : is_space c = true -> lstrip (String c s) = lstrip s.
Proof. intro H. cbn. now rewrite H. Qed.

Lemma lstrip_app s t : lstrip s = s -> s <> "" -> lstrip (s ++ t) = (s ++ t)%string.
Proof.
  destruct s as [|c s]; [congruence|]. intros H _.
  apply lstrip_fixed in H. cbn. now rewrite H.
Qed.

Lemma rstrip_app_space s c :
  is_space c = true -> rstrip (s ++ String c "") = rstrip s.
Proof.
  intro H. induction s as [|a s IH]; cbn.
  - now rewrite H.
  - now rewrite IH.
Qed.

Lemma strip_plain pre suf n :
  is_space pre = true -> is_space suf = true ->
  lstrip n = n -> rstrip n = n ->
  strip (String pre "" ++ n ++ String suf "") = n
  /\ strip (String pre "" ++ n) = n
  /\ strip (n ++ String suf "") = n
  /\ strip n = n.
Proof.
  intros Hp Hs Hl Hr. unfold strip.
  assert (E : rstrip (lstrip (n ++ String suf "")) = n).
  { destruct (string_dec n "") as [-> | Hn].
    - cbn. now rewrite Hs.
    - rewrite (lstrip_app n _ Hl Hn), (rstrip_app_space n suf Hs). exact Hr. }
  repeat split.
  - change (String pre "" ++ n ++ String suf "")%string with (String pre (n ++ String suf "")).
    now rewrite (lstrip_space_app pre _ Hp).
  - change (String pre "" ++ n)%string with (String pre n).
    now rewrite (lstrip_space_app pre _ Hp), Hl.
  - exact E.
  - now rewrite Hl.
Qed.

Lemma all_chars_has_char p c s :
  p c = false -> all_chars p s = true -> has_char c s = false.
Proof.
  intro Hc. induction s as [|a s IH]; [reflexivity|].
  cbn [all_chars has_char]. intro H. apply andb_true_iff in H. destruct H as [Ha Hs].
  rewrite (IH Hs), orb_false_r. destruct (Ascii.eqb_spec a c) as [-> | _]; [|reflexivity].
  congruence.
Qed.

Lemma plain_name_inv n :
  plain_name n = true ->
  has_char TAB n = false /\ has_char HASH n = false /\ has_char NL n = false
  /\ lstrip n = n /\ rstrip n = n.
Proof.
  unfold plain_name. rewrite !andb_true_iff, !String.eqb_eq. intros [[H Hl] Hr].
  repeat split; try assumption;
    apply (all_chars_has_char name_char); (reflexivity || assumption).
Qed.

Lemma map_strip_wrap_last suf (l : list string) :
  is_space suf = true ->
  forallb plain_name l = true ->
  map strip (wrap_last (String suf "") l) = l.
Proof.
  intros Hs. induction l as [|n l IH]; [reflexivity|].
  intro H. cbn [forallb] in H. apply andb_true_iff in H. destruct H as [H1 H2].
  destruct (plain_name_inv n H1) as (_ & _ & _ & Hl & Hr).
  destruct (strip_plain suf suf n Hs Hs Hl Hr) as (_ & _ & E3 & E4).
  destruct l as [|m l].
  - cbn. now rewrite E3.
  - change (wrap_last (String suf "") (n :: m :: l))
      with (n :: wrap_last (String suf "") (m :: l)).
    cbn [map]. rewrite (IH H2), E4. reflexivity.
Qed.

Lemma map_strip_wrap pre suf (l : list string) :
  is_space pre = true -> is_space suf = true ->
  forallb plain_name l = true ->
  map strip (wrap (String pre "") (String suf "") l) = l.
Proof.
  intros Hp Hs H. unfold wrap.
  destruct l as [|n l]; [reflexivity|].
  pose proof H as H'. cbn [forallb] in H'. apply andb_true_iff in H'.
  destruct H' as [H1 H2].
  destruct (plain_name_inv n H1) as (_ & _ & _ & Hl & Hr).
  destruct (strip_plain pre suf n Hp Hs Hl Hr) as (E1 & E2 & _ & _).
  pose proof (map_strip_wrap_last suf (n :: l) Hs H) as E.
  destruct l as [|m l].
  - cbn [wrap_last map]. now rewrite E1.
  - change (wrap_last (String suf "") (n :: m :: l))
      with (n :: wrap_last (String suf "") (m :: l)) in *.
    set (W := wrap_last (String suf "") (m :: l)) in *.
    cbn [map] in E. injection E as _ E. cbv iota. cbn [map]. rewrite E, E2. reflexivity.
Qed.

Lemma forallb_weaken {A} (p q : A -> bool) l :
  (forall a, p a = true -> q a = true) -> forallb p l = true -> forallb q l = true.
Proof.
  intros Hpq H. rewrite forallb_forall in *. auto.
Qed.

(** The names of a header line that [np.savetxt] wrote. *)
Lemma names_of_line (names : list string) :
  forallb plain_name names = true ->
  join_str (String TAB "") names <> "" ->
  map strip (split TAB (re_sub_char HASH
               ("# " ++ join_str (String TAB "") names ++ String NL "")%string))
  = names.
Proof.
  intros Hp Hj.
  assert (Hne : names <> []) by (intros ->; now apply Hj).
  assert (Hh : has_char HASH (join_str (String TAB "") names) = false).
  { apply has_char_join; [discriminate|].
    eapply forallb_weaken; [|exact Hp]. intros n Hn.
    destruct (plain_name_inv n Hn) as (_ & -> & _). reflexivity. }
  assert (Ht : forallb (fun s => negb (has_char TAB s)) names = true).
  { eapply forallb_weaken; [|exact Hp]. intros n Hn.
    destruct (plain_name_inv n Hn) as (-> & _). reflexivity. }
  change ("# " ++ join_str (String TAB "") names ++ String NL "")%string
    with (String HASH (String " " (join_str (String TAB "") names ++ String NL ""))).
  cbn [re_sub_char]. rewrite Ascii.eqb_refl.
  change (Ascii.eqb " " HASH) with false. cbv iota.
  rewrite re_sub_char_app, (re_sub_char_none _ _ Hh).
  change (re_sub_char HASH (String NL "")) with (String NL "").
  change (String " " (join_str (String TAB "") names ++ String NL ""))
    with (String " " "" ++ join_str (String TAB "") names ++ String NL "")%string.
  rewrite (split_join_wrap _ _ names Hne) by (reflexivity || assumption).
  apply map_strip_wrap; (reflexivity || assumption).
Qed.



(** X1: the names [np.savetxt] writes in a header are the names
    [_try_to_load_names_array] reads from the file: for names of
    printable ASCII characters other than the comment character, without
    a space at either end, whose joined header is not empty, the file
    written with that header gives the names back when [n_names] is their
    number, and [None] when [n_names] is another positive number. *)
Theorem names_written_are_read_back (f f' : FS) (p : string) (X : list row)
    (names : list string) (n : nat) :
  forallb plain_name names = true ->
  join_str (String TAB "") names <> "" ->
  np_savetxt f p X (join_str (String TAB "") names) = Returns f' ->
  1 <= n ->
  _try_to_load_names_array f' p (Some n)
  = Returns (if n =? length names then Some names else None).
Proof.
  intros Hp Hj Hw Hn. unfold np_savetxt in Hw.
  assert (Hf : f' p = Some (TableFile (mk_table
                 (header_lines (join_str (String TAB "") names)) X))).
  { destruct (f p) as [[| |]|]; try discriminate;
      injection Hw as <-; apply fs_write_same. }
  unfold _try_to_load_names_array. rewrite Hf. cbn [leading_lines].
  rewrite last_comment_header.
  destruct (String.eqb_spec (join_str (String TAB "") names) "") as [E|_]; [contradiction|].
  cbv zeta. rewrite (names_of_line names Hp Hj).
  destruct n; [lia|]. destruct (S n =? length names); reflexivity.
Qed.

Lemma names_written_are_read_back_witness :
  _try_to_load_names_array
    (fs_write empty_fs "x.txt"
       (TableFile (mk_table (header_lines (join_str (String TAB "") ["omega_b"; "h"]))
                     [[1%float; 2%float]])))
    "x.txt" (Some 2)
  = Returns (Some ["omega_b"; "h"]).
Proof.
  exact (names_written_are_read_back empty_fs _ "x.txt" [[1%float; 2%float]]
           ["omega_b"; "h"] 2 eq_refl ltac:(discriminate) eq_refl ltac:(lia)).
Defined.
(** ** The varying parameters *)

Lemma assoc_in {A} (k : string) (v : A) (l : list (string * A)) :
  NoDup (map fst l) -> In (k, v) l -> assoc k l = Some v.
Proof.
  induction l as [|[k' v'] l IH]; [contradiction|].
  cbn [map fst]. intros Hnd [E | Hin]; cbn [assoc].
  - injection E as -> ->. now rewrite String.eqb_refl.
  - inversion Hnd as [|? ? Hk Hnd']; subst.
    destruct (String.eqb_spec k k') as [-> | _]; [|now apply IH].
    exfalso. apply Hk. change k' with (fst (k', v)). now apply in_map.
Qed.

Lemma _is_varying_entry entries k v :
  assoc k entries = Some v -> _is_varying (YDict entries) k = Returns (has_prior v).
Proof.
  intro H. unfold _is_varying, getitem_key. rewrite H. destruct v; reflexivity.
Qed.

Lemma mask_filter_map {A B} (p : A -> bool) (g : A -> B) (l : list A) :
  mask_filter (map p l) (map g l) = map g (filter p l).
Proof.
  induction l as [|a l IH]; [reflexivity|]. cbn. destruct (p a); cbn; now rewrite IH.
Qed.

Lemma rmap_returns {A B} (f : A -> result B) (g : A -> B) (l : list A) :
  (forall a, In a l -> f a = Returns (g a)) -> rmap f l = Returns (map g l).
Proof.
  induction l as [|a l IH]; [reflexivity|]. intro H. cbn [rmap map].
  rewrite (H a (or_introl eq_refl)), IH; [reflexivity|].
  intros b Hb. apply H. now right.
Qed.

(** X2: the names of x that [generate] takes from a dictionary of
    parameters are the keys whose value is a dictionary with the key
    [prior], in the order of the dictionary; on a dictionary the selection
    raises nothing. *)
Theorem varying_names_of_dict (entries : list (string * yaml)) :
  NoDup (map fst entries) ->
  varying_names (YDict entries)
  = Returns (map fst (filter (fun kv => has_prior (snd kv)) entries)).
Proof.
  intro Hnd. unfold varying_names.
  rewrite (rmap_returns _ (fun kv => has_prior (snd kv))).
  - cbn [rbind]. now rewrite mask_filter_map.
  - intros [k v] Hin. cbn [fst snd]. apply _is_varying_entry. now apply assoc_in.
Qed.

Lemma varying_names_of_dict_witness :
  varying_names Scenario.params = Returns ["a"].
Proof.
  exact (varying_names_of_dict
           [("a", YDict [("prior", YDict [("min", YInt 0); ("max", YInt 1)])]);
            ("b", YInt 3)]
           ltac:(repeat constructor; cbn; intuition discriminate)).
Defined.
(** ** What load leaves *)

Lemma load_data_inv px py cx cy rnf w :
  fst (load_data px py cx cy rnf w) = Returns tt ->
  exists xa xn ya yn mins maxs,
    _load_array (fs w) px cx = Returns (xa, xn)
    /\ _load_array (fs w) py cy = Returns (ya, yn)
    /\ np_min_axis0 xa = Returns mins /\ np_max_axis0 xa = Returns maxs
    /\ (rnf = true -> shape0 ya = shape0 xa)
    /\ let s := self (snd (load_data px py cx cy rnf w)) in
       x s = Some (if rnf then finite_rows ya xa else xa)
       /\ y s = Some (if rnf then finite_rows ya ya else ya)
       /\ x_names s = xn /\ y_names s = yn
       /\ x_ranges s = Some (combine mins maxs)
       /\ n_samples s = Some (shape0 (if rnf then finite_rows ya xa else xa))
       /\ n_x s = Some (shape1 xa) /\ n_y s = Some (shape1 ya).
Proof.
  unfold load_data. unfold_monad. cbv beta.
  destruct (_load_array (fs w) px cx) as [[xa xn]|e] eqn:Ex; cbv beta iota;
    [|cbn [fst]; intro HH; discriminate HH].
  cbn [fs self warnings fst snd].
  destruct (_load_array (fs w) py cy) as [[ya yn]|e] eqn:Ey; cbv beta iota;
    [|cbn [fst]; intro HH; discriminate HH].
  cbn [fs self warnings fst snd].
  destruct (np_min_axis0 xa) as [mins|e] eqn:Emin; cbv beta iota; [|cbn [fst]; intro HH; discriminate HH].
  destruct (np_max_axis0 xa) as [maxs|e] eqn:Emax; cbv beta iota; [|cbn [fst]; intro HH; discriminate HH].
  destruct rnf.
  - unfold getitem_mask, any_isfinite_axis1. rewrite !length_map.
    match goal with
    | |- context [?a =? shape0 xa] => destruct (a =? shape0 xa) eqn:El
    end; cbv beta iota; [|cbn [fst]; intro HH; discriminate HH].
    match goal with
    | |- context [?a =? shape0 ya] =>
        replace (a =? shape0 ya) with true by (symmetry; apply Nat.eqb_eq; reflexivity)
    end.
    intros _. exists xa, xn, ya, yn, mins, maxs.
    apply Nat.eqb_eq in El. do 4 (split; [first [assumption | reflexivity]|]).
    split; [intros _; exact El | cbn; repeat split].
  - intros _. exists xa, xn, ya, yn, mins, maxs. do 4 (split; [first [assumption | reflexivity]|]).
    split; [intro HH; discriminate HH | cbn; repeat split].
Qed.

Lemma slice_bound_le n i : slice_bound n i <= n.
Proof. unfold slice_bound. destruct (Z.ltb_spec i 0); lia. Qed.

Lemma py_slice_length {A} start stop (l : list A) :
  length (py_slice start stop l) = slice_len (length l) start stop.
Proof.
  unfold py_slice, slice_len. rewrite length_firstn, length_skipn.
  assert (slice_stop (length l) stop <= length l)
    by (destruct stop; cbn [slice_stop]; [apply slice_bound_le | lia]).
  lia.
Qed.

Lemma rmap_length {A B} (f : A -> result B) (l : list A) (bs : list B) :
  rmap f l = Returns bs -> length bs = length l.
Proof.
  revert bs. induction l as [|a l IH]; intros bs; cbn [rmap].
  - intro H. injection H as <-. reflexivity.
  - destruct (f a); [|discriminate]. destruct (rmap f l) as [bs'|]; [|discriminate].
    intro H. injection H as <-. cbn. f_equal. now apply IH.
Qed.

Lemma well_formed_intro a :
  (forall r, In r (rows a) -> length r = shape1 a) -> well_formed a = true.
Proof.
  intro H. unfold well_formed. apply forallb_forall. intros r Hr.
  apply Nat.eqb_eq. now apply H.
Qed.

Lemma well_formed_rows a r : well_formed a = true -> In r (rows a) -> length r = shape1 a.
Proof.
  intros H Hr. apply well_formed_Forall in H. rewrite Forall_forall in H. now apply H.
Qed.

(** What [np.genfromtxt] returns is rectangular and has a column. *)
Lemma genfromtxt_shape f p nd :
  genfromtxt f p = Returns nd ->
  match nd with
  | Arr2 a => well_formed a = true /\ 1 <= shape1 a
  | _ => True
  end.
Proof.
  unfold genfromtxt. destruct (f p) as [[|t|]|]; try discriminate.
  destruct (filter nonempty (data t)) as [|r rs] eqn:Ef.
  - intro H. injection H as <-. exact I.
  - destruct (forallb (fun r' => length r' =? length r) rs) eqn:Ea; [|discriminate].
    intro H. injection H as <-. unfold squeeze. cbn [rows shape1].
    assert (Hr : 1 <= length r).
    { assert (Hin : In r (filter nonempty (data t))) by (rewrite Ef; now left).
      apply filter_In in Hin. destruct Hin as [_ Hn]. destruct r; [discriminate | cbn; lia]. }
    assert (W : well_formed (mk_array2 (length r) (r :: rs)) = true).
    { apply well_formed_intro. cbn [rows shape1]. intros r' [<- | Hr']; [reflexivity|].
      rewrite forallb_forall in Ea. apply Nat.eqb_eq. now apply Ea. }
    destruct rs as [|r2 rs].
    + destruct r as [|v [|v' r]]; exact I.
    + destruct (length r =? 1); [exact I | now split].
Qed.

Lemma newaxis_col_shape v :
  well_formed (newaxis_col v) = true /\ shape1 (newaxis_col v) = 1.
Proof.
  split; [|reflexivity]. apply well_formed_intro. cbn [newaxis_col rows shape1].
  intros r Hr. apply in_map_iff in Hr. destruct Hr as [e [<- _]]. reflexivity.
Qed.

Lemma getitem_cols_shape a c a' :
  well_formed a = true -> getitem_cols a c = Returns a' ->
  well_formed a' = true /\ shape0 a' = shape0 a.
Proof.
  intros Hw. unfold getitem_cols. destruct c as [start stop | l].
  - intro H. injection H as <-. split.
    + apply well_formed_intro. cbn [rows shape1]. intros r Hr.
      apply in_map_iff in Hr. destruct Hr as [r0 [<- Hr0]].
      rewrite py_slice_length. now rewrite (well_formed_rows a r0 Hw Hr0).
    + unfold shape0. cbn [rows]. apply length_map.
  - destruct (index_positions (shape1 a) l) as [ps|] eqn:Ep; [|discriminate].
    intro H. injection H as <-. apply rmap_length in Ep. split.
    + apply well_formed_intro. cbn [rows shape1]. intros r Hr.
      apply in_map_iff in Hr. destruct Hr as [r0 [<- _]]. now rewrite length_map.
    + unfold shape0. cbn [rows]. apply length_map.
Qed.

Lemma getitem_cols_shape1 a c a' ns ns' :
  getitem_cols a c = Returns a' -> length ns = shape1 a ->
  getitem_names ns c = Returns ns' -> length ns' = shape1 a'.
Proof.
  unfold getitem_cols, getitem_names. destruct c as [start stop | l].
  - intros H Hl H'. injection H as <-. injection H' as <-. cbn [shape1].
    rewrite py_slice_length. now rewrite Hl.
  - destruct (index_positions (shape1 a) l) as [ps|] eqn:Ep; [|discriminate].
    destruct (index_positions (length ns) l) as [ps'|] eqn:Ep'; [|discriminate].
    intros H Hl H'. injection H as <-. injection H' as <-. cbn [shape1].
    rewrite length_map. now apply rmap_length in Ep'.
Qed.

Lemma _try_to_load_names_array_length f p n ns :
  _try_to_load_names_array f p (Some (S n)) = Returns (Some ns) -> length ns = S n.
Proof.
  unfold _try_to_load_names_array. destruct (f p) as [[|t|]|]; try discriminate.
  destruct (last_comment HASH (leading_lines t) None); [|discriminate].
  cbv zeta. destruct (S n =? _) eqn:E; [|discriminate].
  intro H. injection H as <-. apply Nat.eqb_eq in E. now symmetry.
Qed.

(** The array of [_load_array] is rectangular, and the names, when there
    are names, are as many as its columns. *)
Lemma _load_array_shape f p c a names :
  _load_array f p c = Returns (a, names) ->
  well_formed a = true
  /\ match names with
     | Some ns => length ns = shape1 a
     | None => True
     end.
Proof.
  unfold _load_array.
  destruct (genfromtxt f p) as [nd|] eqn:Eg; cbn [rbind]; [|discriminate].
  apply genfromtxt_shape in Eg.
  assert ((exists a0, match nd with
                     | Arr1 v => Returns (newaxis_col v)
                     | Arr2 a => Returns a
                     | Arr0 _ => Raises (IndexError "tuple index out of range")
                     end = Returns a0 /\ well_formed a0 = true /\ 1 <= shape1 a0)
          \/ exists e, match nd with
                       | Arr1 v => Returns (newaxis_col v)
                       | Arr2 a => Returns a
                       | Arr0 _ => Raises (IndexError "tuple index out of range")
                       end = Raises e) as [(a0 & -> & W0 & C0) | (e & ->)].
  { destruct nd as [v|v|a1].
    - right. eauto.
    - left. exists (newaxis_col v). destruct (newaxis_col_shape v) as [W S1].
      rewrite S1. auto.
    - left. exists a1. destruct Eg. auto. }
  2: discriminate.
  cbn [rbind].
  destruct (_try_to_load_names_array f p (Some (shape1 a0))) as [names0|] eqn:En;
    cbn [rbind]; [|discriminate].
  destruct (getitem_cols a0 c) as [a1|] eqn:Ec; cbn [rbind]; [|discriminate].
  destruct (getitem_cols_shape a0 c a1 W0 Ec) as [W1 _].
  destruct names0 as [ns|].
  - destruct (getitem_names ns c) as [ns'|] eqn:Egn; cbn [rbind]; [|discriminate].
    intro H. injection H as <- <-. split; [exact W1|].
    destruct (shape1 a0) as [|n] eqn:Es; [lia|].
    apply _try_to_load_names_array_length in En.
    apply (getitem_cols_shape1 a0 c a1 ns ns' Ec); [congruence | exact Egn].
  - intro H. injection H as <- <-. split; [exact W1 | exact I].
Qed.

Lemma mask_filter_in {A} (m : list bool) (l : list A) (a : A) :
  In a (mask_filter m l) -> In a l.
Proof.
  revert l. induction m as [|b m IH]; intros [|x l]; cbn; try contradiction.
  destruct b; cbn; intuition.
Qed.

Lemma finite_rows_well_formed ya a :
  well_formed a = true -> well_formed (finite_rows ya a) = true.
Proof.
  intro W. apply well_formed_intro. cbn [finite_rows rows shape1]. intros r Hr.
  apply mask_filter_in in Hr. now apply well_formed_rows.
Qed.

Section LoadShapes.

Variables file_name_params file_name_x file_name_y : string.
Variable Params_load : FS -> string -> result yaml.

Local Abbreviation load' := (load file_name_params file_name_x file_name_y Params_load).
Local Abbreviation load_settings' := (load_settings file_name_params Params_load).

(** [load] is [load_data] on the paths and columns that the first half of
    the method settles, which do not depend on [remove_non_finite]. *)
Lemma load_as_load_data path path_y cx cy w :
  (exists e w1, forall rnf, load' path path_y cx cy rnf w = (Raises e, w1))
  \/ (exists px py cx' cy' w1,
        fs w1 = fs w
        /\ forall rnf, load' path path_y cx cy rnf w = load_data px py cx' cy' rnf w1).
Proof.
  pose proof (load_settings_fs file_name_params Params_load path w) as Hfs.
  destruct (load_settings' path w) as [[[]|e] w1] eqn:Es; cbn [snd] in Hfs.
  2:{ left. exists e, w1. intro rnf.
      now rewrite (load_unfold file_name_params file_name_x file_name_y Params_load), Es. }
  destruct (truthy path && truthy_opt path_y) eqn:Et;
    [|destruct (isdir (fs w1) path) eqn:Ed; [|destruct (isfile (fs w1) path) eqn:Ef]].
  4:{ left. do 2 eexists. intro rnf.
      rewrite (load_unfold file_name_params file_name_x file_name_y Params_load), Es.
      unfold load_rest, assign_paths. unfold_monad. cbv beta. rewrite Et, Ed, Ef.
      reflexivity. }
  all: right; do 5 eexists; split; [|intro rnf;
         rewrite (load_unfold file_name_params file_name_x file_name_y Params_load), Es;
         unfold load_rest, assign_paths; unfold_monad; cbv beta;
         rewrite Et, ?Ed, ?Ef; reflexivity].
  all: exact Hfs.
Qed.

Lemma reduce_axis0_rows f a v : reduce_axis0 f a = Returns v -> rows a <> [].
Proof. unfold reduce_axis0. destruct (rows a); [discriminate | discriminate]. Qed.

(** X3: when [load] returns, x and y are rectangular arrays, the names of
    x and of y, where the file gave names, are as many as [n_x] and [n_y],
    and without [remove_non_finite] x has at least one row. *)
Theorem load_leaves_arrays_and_names path path_y cx cy rnf w :
  fst (load' path path_y cx cy rnf w) = Returns tt ->
  let s := self (snd (load' path path_y cx cy rnf w)) in
  exists xa ya,
    x s = Some xa /\ y s = Some ya
    /\ well_formed xa = true /\ well_formed ya = true
    /\ match x_names s with
       | Some ns => n_x s = Some (length ns)
       | None => True
       end
    /\ match y_names s with
       | Some ns => n_y s = Some (length ns)
       | None => True
       end
    /\ (rnf = false -> 1 <= shape0 xa).
Proof.
  intros H. cbv zeta.
  destruct (load_as_load_data path path_y cx cy w)
    as [(e & w1 & E) | (px & py & cx' & cy' & w1 & Hfs & E)];
    rewrite E in *; [discriminate H|].
  destruct (load_data_inv px py cx' cy' rnf w1 H)
    as (xa & xn & ya & yn & mins & maxs & Ex & Ey & Emin & _ & _ & Hs).
  cbv zeta in Hs. destruct Hs as (Hx & Hy & Hxn & Hyn & _ & _ & Hnx & Hny).
  destruct (_load_array_shape _ _ _ _ _ Ex) as [Wx Nx].
  destruct (_load_array_shape _ _ _ _ _ Ey) as [Wy Ny].
  rewrite Hx, Hy, Hxn, Hyn, Hnx, Hny.
  exists (if rnf then finite_rows ya xa else xa), (if rnf then finite_rows ya ya else ya).
  split; [reflexivity|]. split; [reflexivity|].
  split; [destruct rnf; [now apply finite_rows_well_formed | exact Wx]|].
  split; [destruct rnf; [now apply finite_rows_well_formed | exact Wy]|].
  split; [destruct xn; [now rewrite Nx | exact I]|].
  split; [destruct yn; [now rewrite Ny | exact I]|].
  intros ->. apply reduce_axis0_rows in Emin. unfold shape0.
  destruct (rows xa); [congruence | cbn; lia].
Qed.

Lemma filter_mask_filter {A} (p : A -> bool) (l : list A) :
  mask_filter (map p l) l = filter p l.
Proof.
  induction l as [|a l IH]; [reflexivity|]. cbn. destruct (p a); now rewrite IH.
Qed.

(** X4: [load] with [remove_non_finite] is [load] without it followed by
    the removal of the rows of x and y at which no value of y is finite:
    the rows of y that stay hold at least one finite value each, x keeps
    the rows at the same positions, [n_samples] counts them, and the
    names, [n_x], [n_y] and [x_ranges] are those of the arrays before the
    removal, so that [x_ranges] are the (min, max) of every column of the
    x in the file. *)
Theorem load_remove_non_finite_filters path path_y cx cy w :
  fst (load' path path_y cx cy true w) = Returns tt ->
  let s0 := self (snd (load' path path_y cx cy false w)) in
  let s := self (snd (load' path path_y cx cy true w)) in
  fst (load' path path_y cx cy false w) = Returns tt
  /\ shape0 (the_y s0) = shape0 (the_x s0)
  /\ x s = Some (finite_rows (the_y s0) (the_x s0))
  /\ y s = Some (mk_array2 (shape1 (the_y s0)) (filter (existsb isfinite) (rows (the_y s0))))
  /\ n_samples s = Some (count_true (any_isfinite_axis1 (the_y s0)))
  /\ x_names s = x_names s0 /\ y_names s = y_names s0
  /\ n_x s = n_x s0 /\ n_y s = n_y s0
  /\ x_ranges s = x_ranges s0
  /\ x_ranges s0 = Some (column_ranges (the_x s0)).
Proof.
  intros H. cbv zeta.
  destruct (load_as_load_data path path_y cx cy w)
    as [(e & w1 & E) | (px & py & cx' & cy' & w1 & Hfs & E)];
    rewrite !E in *; [discriminate H|].
  destruct (load_data_inv px py cx' cy' true w1 H)
    as (xa & xn & ya & yn & mins & maxs & Ex & Ey & Emin & Emax & Hrows & Hs).
  cbv zeta in Hs. destruct Hs as (Hx & Hy & Hxn & Hyn & Hr & Hn & Hnx & Hny).
  specialize (Hrows eq_refl).
  pose proof (reduce_axis0_rows _ _ _ Emin) as Hne.
  destruct (load_data_run px py cx' cy' false w1 xa xn ya yn Ex Ey Hne) as [H0 _].
  destruct (H0 eq_refl) as (R0 & _).
  destruct (load_data_inv px py cx' cy' false w1 R0)
    as (xa' & xn' & ya' & yn' & mins' & maxs' & Ex' & Ey' & Emin' & Emax' & _ & Hs').
  rewrite Ex in Ex'. injection Ex' as <- <-. rewrite Ey in Ey'. injection Ey' as <- <-.
  rewrite Emin in Emin'. injection Emin' as <-. rewrite Emax in Emax'. injection Emax' as <-.
  cbv zeta in Hs'. destruct Hs' as (Hx' & Hy' & Hxn' & Hyn' & Hr' & Hn' & Hnx' & Hny').
  destruct (_load_array_shape _ _ _ _ _ Ex) as [Wx _].
  destruct (x_ranges_columns xa Wx Hne) as (mins' & maxs' & Emin' & Emax' & Ecomb).
  rewrite Emin in Emin'. injection Emin' as <-. rewrite Emax in Emax'. injection Emax' as <-.
  unfold the_x, the_y. rewrite Hx', Hy'.
  split; [exact R0|]. split; [exact Hrows|]. split; [exact Hx|].
  split; [rewrite Hy; unfold finite_rows, any_isfinite_axis1;
          now rewrite filter_mask_filter|].
  split.
  { rewrite Hn. f_equal. unfold shape0, finite_rows. cbn [rows].
    apply mask_filter_length. unfold any_isfinite_axis1. rewrite length_map. exact Hrows. }
  repeat split; try congruence.
Qed.

End LoadShapes.

Lemma load_leaves_arrays_and_names_witness :
  let s := self (snd (Scenario.load "nf" None Scenario.all_columns Scenario.all_columns
                        false (Scenario.fresh Scenario.fs_nan))) in
  exists xa ya,
    x s = Some xa /\ y s = Some ya
    /\ well_formed xa = true /\ well_formed ya = true
    /\ n_x s = Some 1 /\ x_names s = Some ["a"] /\ 1 <= shape0 xa.
Proof.
  destruct (load_leaves_arrays_and_names
              Scenario.file_name_params Scenario.file_name_x Scenario.file_name_y
              Params_load_open "nf" None Scenario.all_columns Scenario.all_columns false
              (Scenario.fresh Scenario.fs_nan) eq_refl)
    as (xa & ya & Hx & Hy & Wx & Wy & Nx & _ & Hr).
  exists xa, ya. repeat split; try assumption; try reflexivity. now apply Hr.
Defined.

Lemma load_remove_non_finite_filters_witness :
  let s := self (snd (Scenario.load "nf" None Scenario.all_columns Scenario.all_columns
                        true (Scenario.fresh Scenario.fs_nan))) in
  y s = Some (mk_array2 2 [[1%float; nan]; [2%float; 3%float]])
  /\ n_samples s = Some 2
  /\ x_ranges s = Some [(1%float, 3%float)].
Proof.
  destruct (load_remove_non_finite_filters
              Scenario.file_name_params Scenario.file_name_x Scenario.file_name_y
              Params_load_open "nf" None Scenario.all_columns Scenario.all_columns
              (Scenario.fresh Scenario.fs_nan) eq_refl)
    as (_ & _ & _ & Hy & Hn & _ & _ & _ & _ & Hr & Hr0).
  cbv zeta. unfold Scenario.load. split; [exact Hy|]. split; [exact Hn|].
  rewrite Hr, Hr0. reflexivity.
Defined.
(** ** Tables with one row and with no row *)

Lemma getitem_all_cols a :
  well_formed a = true ->
  getitem_cols a (Slice None None) = Returns a.
Proof.
  intro W. unfold getitem_cols, slice_len, slice_start, slice_stop.
  rewrite Nat.sub_0_r. destruct a as [c rs]. cbn [shape1 rows]. do 2 f_equal.
  rewrite <- (map_id rs) at 2. apply map_ext. intro r. apply py_slice_all.
Qed.

(** X5: a table with a single row of data does not come back as one row.
    [np.genfromtxt] gives a one-dimensional array for it and
    [_load_array] makes a column of every one-dimensional array: a row of
    at least two values is returned as that many rows of one column, with
    names only if the header holds exactly one name; a row of a single
    value is a zero-dimensional array, on which [_load_array] raises
    [IndexError]. *)
Theorem _load_array_one_row (f : FS) (p : string) (t : table) (r : row) :
  f p = Some (TableFile t) -> data t = [r] ->
  (length r = 1 ->
   forall cols, _load_array f p cols = Raises (IndexError "tuple index out of range"))
  /\ (2 <= length r ->
      exists names,
        _load_array f p (Slice None None)
        = Returns (mk_array2 1 (map (fun e => [e]) r), names)
        /\ match names with
           | Some ns => length ns = 1
           | None => True
           end).
Proof.
  intros Hp Hd. split.
  - intros Hl cols. unfold _load_array, genfromtxt. rewrite Hp, Hd.
    destruct r as [|v [|v' r]]; try discriminate Hl. reflexivity.
  - intros Hl.
    assert (Hg : genfromtxt f p = Returns (Arr1 r)).
    { unfold genfromtxt. rewrite Hp, Hd.
      destruct r as [|v [|v' r]]; cbn in Hl; try lia. reflexivity. }
    destruct (_load_array f p (Slice None None)) as [[a names]|e] eqn:E.
    + pose proof (_load_array_shape _ _ _ _ _ E) as [_ Hn].
      unfold _load_array in E. rewrite Hg in E. cbn [rbind] in E.
      destruct (_try_to_load_names_array f p (Some (shape1 (newaxis_col r))))
        as [names0|]; cbn [rbind] in E; [|discriminate E].
      rewrite getitem_all_cols in E by apply newaxis_col_shape. cbn [rbind] in E.
      assert (a = newaxis_col r).
      { destruct names0 as [ns|]; [|now injection E].
        destruct (getitem_names ns (Slice None None)); [|discriminate E].
        cbn [rbind] in E. now injection E. }
      subst a. exists names. split; [reflexivity|]. exact Hn.
    + exfalso. unfold _load_array in E. rewrite Hg in E. cbn [rbind] in E.
      unfold _try_to_load_names_array in E. rewrite Hp in E.
      destruct (last_comment HASH (leading_lines t) None).
      * cbv zeta in E. cbn [shape1 newaxis_col] in E.
        destruct (1 =? _); cbn [rbind] in E;
          rewrite getitem_all_cols in E by apply newaxis_col_shape;
          cbn [rbind getitem_names] in E; discriminate E.
      * cbn [rbind] in E.
        rewrite getitem_all_cols in E by apply newaxis_col_shape. discriminate E.
Qed.

Lemma _load_array_one_row_witness :
  exists names,
    _load_array Scenario.fs_single "one.txt" (Slice None None)
    = Returns (mk_array2 1 [[1%float]; [2%float]; [3%float]], names).
Proof.
  destruct (proj2 (_load_array_one_row Scenario.fs_single "one.txt"
                     (mk_table [] [[1%float; 2%float; 3%float]])
                     [1%float; 2%float; 3%float] eq_refl eq_refl)
              ltac:(cbn; lia)) as (names & E & _).
  exists names. exact E.
Defined.

Section LoadNoRows.

Variables file_name_params file_name_x file_name_y : string.
Variable Params_load : FS -> string -> result yaml.

Local Abbreviation load' := (load file_name_params file_name_x file_name_y Params_load).

(** X6: a folder whose x file holds no row of data cannot be loaded: the
    x that [_load_array] returns has one column and no row, and the
    minimum over its rows, which [load] takes for [x_ranges], raises
    [ValueError]; the arrays and names are assigned by then, the counts
    are not. *)
Theorem load_folder_without_rows_raises dir start stop cy rnf w st tx ya yn :
  Params_load (fs w) (os_path_join dir file_name_params) = Returns st ->
  isdir (fs w) dir = true ->
  fs w (os_path_join dir file_name_x) = Some (TableFile tx) ->
  filter nonempty (data tx) = [] ->
  _load_array (fs w) (os_path_join dir file_name_y) cy = Returns (ya, yn) ->
  let r := load' dir None (Slice start stop) cy rnf w in
  fst r = Raises (ValueError zero_size_msg)
  /\ x (self (snd r)) = Some (mk_array2 (slice_len 1 start stop) [])
  /\ y (self (snd r)) = Some ya
  /\ n_samples (self (snd r)) = n_samples (self w)
  /\ x_ranges (self (snd r)) = x_ranges (self w).
Proof.
  intros Hst Hdir Hx Hd Hy. cbv zeta.
  rewrite (load_unfold file_name_params file_name_x file_name_y Params_load).
  pose proof (load_settings_cases file_name_params Params_load dir w) as Hs.
  rewrite Hst in Hs. rewrite Hs.
  unfold load_rest, assign_paths. unfold_monad. cbv beta.
  cbn [truthy_opt fs]. rewrite andb_false_r, Hdir. cbv beta iota.
  assert (Ex : exists names,
                 _load_array (fs w) (os_path_join dir file_name_x) (Slice start stop)
                 = Returns (mk_array2 (slice_len 1 start stop) [], names)).
  { unfold _load_array, genfromtxt, _try_to_load_names_array. rewrite Hx, Hd.
    cbn [rbind]. destruct (last_comment HASH (leading_lines tx) None); [|now eexists].
    cbv zeta. cbn [shape1 newaxis_col]. destruct (1 =? _); now eexists. }
  destruct Ex as [names Ex].
  unfold load_data. unfold_monad. cbv beta. cbn [fs].
  rewrite Ex, Hy. cbn. repeat split.
Qed.

End LoadNoRows.

Lemma load_folder_without_rows_raises_witness :
  let f := fs_write Scenario.fs_nan "nf/x_sample.txt" (TableFile (mk_table [] [])) in
  fst (Scenario.load "nf" None Scenario.all_columns Scenario.all_columns false
         (Scenario.fresh f))
  = Raises (ValueError zero_size_msg).
Proof.
  exact (proj1 (load_folder_without_rows_raises
                  Scenario.file_name_params Scenario.file_name_x Scenario.file_name_y
                  Params_load_open "nf" None None Scenario.all_columns false
                  (Scenario.fresh
                     (fs_write Scenario.fs_nan "nf/x_sample.txt"
                        (TableFile (mk_table [] []))))
                  (YDict []) (mk_table [] [])
                  (mk_array2 2 [[1%float; nan]; [2%float; 3%float]; [nan; infinity]]) None
                  eq_refl eq_refl eq_refl eq_refl eq_refl)).
Defined.
(** ** generate, with and without files *)

Section GenerateFiles.

Variables file_name_params file_header_params file_name_x file_name_y : string.
Variable Params_save : option yaml -> string -> string -> string -> FS -> result FS.
Variable Folder_create : string -> FS -> result FS.
Variable model : Type.
Variable fng : string -> option (sampling_function model).
Variable Sampler_get_x : string -> yaml -> list string -> Z -> result array2.

Local Abbreviation generate_first' :=
  (generate_first file_name_params file_header_params file_name_x file_name_y
     Params_save Folder_create fng Sampler_get_x).
Local Abbreviation generate_step' := (@generate_step file_name_y model).
Local Abbreviation generate' :=
  (generate file_name_params file_header_params file_name_x file_name_y
     Params_save Folder_create fng Sampler_get_x).
Local Abbreviation resume' := (resume file_name_y fng).
Local Abbreviation resume_step' := (@resume_step file_name_y model).

Lemma generate_first_keeps_files params sf n spacing out w :
  let r := generate_first' params sf n spacing false out w in
  fs (snd r) = fs w /\ path (self (snd r)) = path (self w)
  /\ warnings (snd r) = warnings w.
Proof.
  cbv zeta. unfold generate_first, eval_fng. unfold_monad. cbv beta iota.
  repeat (break_inner; cbn); repeat split.
Qed.

Lemma generate_loop_keeps_files f mdl names params out l :
  forall w,
  let r := for_each l (generate_step' f mdl names params false out) w in
  fs (snd r) = fs w /\ path (self (snd r)) = path (self w)
  /\ warnings (snd r) = warnings w.
Proof.
  induction l as [|xr l IH]; intro w; cbv zeta; [cbn; repeat split|].
  assert (E : exists W, generate_step' f mdl names params false out xr w = (Returns tt, W)
                        /\ fs W = fs w /\ path (self W) = path (self w)
                        /\ warnings W = warnings w).
  { unfold generate_step. destruct (f xr (Some names) params (Some mdl)) as [[y_val ?] ?].
    unfold_monad. cbv beta iota. eexists. split; [reflexivity|]. cbn. repeat split. }
  destruct E as (W & E & E1 & E2 & E3).
  rewrite for_each_cons, E. destruct (IH W) as (H1 & H2 & H3).
  repeat split; congruence.
Qed.

Lemma generate_last_keeps_files w :
  fs (snd (generate_last w)) = fs w
  /\ path (self (snd (generate_last w))) = path (self w)
  /\ warnings (snd (generate_last w)) = warnings w.
Proof.
  unfold generate_last. unfold_monad. repeat (break_inner; cbn); repeat split.
Qed.

Lemma resume_loop_keeps_files f mdl names params l :
  forall w,
  fs (snd (for_each l (resume_step' f mdl names params false) w)) = fs w.
Proof.
  induction l as [|xr l IH]; intro w; [reflexivity|].
  rewrite for_each_cons.
  assert (E : fs (snd (resume_step' f mdl names params false xr w)) = fs w).
  { unfold resume_step. destruct (f xr names params (Some mdl)) as [[y_val ?] ?].
    unfold_monad. cbv beta iota. repeat (break_inner; cbn); reflexivity. }
  destruct (resume_step' f mdl names params false xr w) as [[[]|e] w1]; cbn [snd] in E.
  - now rewrite IH.
  - exact E.
Qed.

Lemma resume_keeps_files w : fs (snd (resume' false w)) = fs w.
Proof.
  unfold resume, eval_fng. unfold_monad. cbv beta.
  repeat (break_inner; cbn [fst snd]); try reflexivity.
  all: apply resume_loop_keeps_files.
Qed.

(** X7: without [save_incrementally] no file is written.  [generate]
    leaves every file as it is, whatever [output_path] is and whether it
    returns or raises, and the [path] of the object and the warnings with
    them; [resume] leaves every file as it is. *)
Theorem without_saving_files_are_kept :
  (forall params sf n spacing out w,
      let r := generate' params sf n spacing false out w in
      fs (snd r) = fs w /\ path (self (snd r)) = path (self w)
      /\ warnings (snd r) = warnings w)
  /\ (forall w, fs (snd (resume' false w)) = fs w).
Proof.
  split; [|exact resume_keeps_files].
  intros params sf n spacing out w.
  cbv zeta. unfold generate. unfold bind. cbv beta.
  destruct (generate_first_keeps_files params sf n spacing out w) as (F1 & F2 & F3).
  destruct (generate_first' params sf n spacing false out w) as [[c|e] w1];
    cbn [snd] in F1, F2, F3; [|cbn [snd]; auto].
  destruct c as [[[f mdl] names] xa]. cbv beta iota.
  destruct (generate_loop_keeps_files f mdl names params out (tl (rows xa)) w1)
    as (L1 & L2 & L3).
  destruct (for_each (tl (rows xa)) _ w1) as [[[]|e] w2];
    cbn [snd] in L1, L2, L3; [|cbn [snd]; repeat split; congruence].
  destruct (generate_last_keeps_files w2) as (G1 & G2 & G3).
  repeat split; congruence.
Qed.

(** [hasattr(fng, name)]: [sampling_functions.py] is not among the
    sources; what it defines as a sampling function is one of its
    attributes. *)
Variable module_attribute : string -> bool.
Hypothesis functions_are_attributes :
  forall name f, fng name = Some f -> module_attribute name = true.

(** X8: with [save_incrementally], [generate] creates the folder and
    writes the settings before it looks the sampled function up: for the
    name of an attribute (an identifier, not a keyword) that
    [sampling_functions] does not have, it raises [AttributeError] with
    the folder created, the settings written and held by the object, and
    no array. *)
Theorem generate_unknown_function params sf n spacing out w f1 f2 :
  attribute_name sf = true ->
  module_attribute sf = false ->
  Folder_create out (fs w) = Returns f1 ->
  Params_save (Some (settings_of params sf n spacing)) file_name_params out
    file_header_params f1 = Returns f2 ->
  generate' params sf n spacing true (Some out) w
  = (Raises (AttributeError sf),
     mk_world (set_settings (Some (settings_of params sf n spacing))
                 (set_path (Some out) (self w)))
       f2 (warnings w)).
Proof.
  intros _ Ha H1 H2.
  assert (Hf : fng sf = None).
  { destruct (fng sf) as [f|] eqn:E; [|reflexivity].
    apply functions_are_attributes in E. congruence. }
  unfold generate, generate_first, _save_settings, eval_fng, settings_of in *.
  unfold_monad. cbv beta iota. cbn [fs self warnings]. rewrite H1. cbv beta iota.
  cbn [fs self warnings settings set_settings]. rewrite H2. cbv beta iota.
  rewrite Hf. reflexivity.
Qed.

End GenerateFiles.

Lemma generate_unknown_function_witness :
  let r := Scenario.generate Scenario.params "no_such_function" 3%Z "grid" true (Some "out")
             (Scenario.fresh empty_fs) in
  fst r = Raises (AttributeError "no_such_function")
  /\ fs (snd r) "out" = Some Directory
  /\ fs (snd r) "out/params.yaml"
     = Some (YamlFile (settings_of Scenario.params "no_such_function" 3%Z "grid"))
  /\ fs (snd r) "out/x_sample.txt" = None
  /\ x (self (snd r)) = None.
Proof.
  assert (H := generate_unknown_function
                 Scenario.file_name_params Scenario.file_header_params
                 Scenario.file_name_x Scenario.file_name_y
                 Params_save_open Folder_create_mkdir unit Scenario.fng
                 Scenario.Sampler_get_x
                 (fun name => String.eqb name "two_outputs")
                 ltac:(intros name f; unfold Scenario.fng;
                       destruct (String.eqb name "two_outputs");
                       [reflexivity | discriminate])
                 Scenario.params "no_such_function" 3%Z "grid" "out"
                 (Scenario.fresh empty_fs) _ _ eq_refl eq_refl eq_refl eq_refl).
  cbv zeta. unfold Scenario.generate. rewrite H. repeat split.
Defined.
(** ** The files of a run *)

Lemma isdir_false_savetxt f p X h :
  isdir f p = false ->
  np_savetxt f p X h = Returns (fs_write f p (TableFile (mk_table (header_lines h) X))).
Proof.
  unfold isdir, np_savetxt. destruct (f p) as [[| |]|]; try reflexivity. discriminate.
Qed.

Lemma isfile_false_mkdir f p :
  isfile f p = false -> Folder_create_mkdir p f = Returns (fs_write f p Directory).
Proof.
  unfold isfile, Folder_create_mkdir. destruct (f p) as [[| |]|]; try reflexivity;
    discriminate.
Qed.

Lemma isdir_write_other f p n q : q <> p -> isdir (fs_write f p n) q = isdir f q.
Proof. intro H. unfold isdir. now rewrite fs_write_other. Qed.

Section RunFiles.

Variables file_name_params file_header_params file_name_x file_name_y : string.
Variable model : Type.
Variable fng : string -> option (sampling_function model).
Variable Sampler_get_x : string -> yaml -> list string -> Z -> result array2.
Variable out : string.
Variable f0 : FS.

Hypothesis file_name_x_given : file_name_x <> "".
Hypothesis file_name_y_given : file_name_y <> "".
Hypothesis file_name_params_given : file_name_params <> "".
Hypothesis file_names_x_y : file_name_x <> file_name_y.
Hypothesis file_names_x_params : file_name_x <> file_name_params.
Hypothesis file_names_y_params : file_name_y <> file_name_params.

Local Abbreviation generate_first' :=
  (generate_first file_name_params file_header_params file_name_x file_name_y
     Params_save_open Folder_create_mkdir fng Sampler_get_x).
Local Abbreviation generate_step' := (@generate_step file_name_y model).
Local Abbreviation generate' :=
  (generate file_name_params file_header_params file_name_x file_name_y
     Params_save_open Folder_create_mkdir fng Sampler_get_x).
Local Abbreviation generate_killed' :=
  (generate_killed file_name_params file_header_params file_name_x file_name_y
     Params_save_open Folder_create_mkdir fng Sampler_get_x).
Local Abbreviation load' :=
  (load file_name_params file_name_x file_name_y Params_load_open).
Local Abbreviation resume' := (resume file_name_y fng).
Local Abbreviation resume_step' := (@resume_step file_name_y model).
Local Abbreviation xp := (os_path_join out file_name_x).
Local Abbreviation yp := (os_path_join out file_name_y).
Local Abbreviation pp := (os_path_join out file_name_params).
Local Abbreviation first_files' :=
  (first_files file_name_params file_name_x file_name_y out f0).

(** The folder is not in the way of the run: its path is not a regular
    file and the paths of the two tables are not directories. *)
Hypothesis out_free : isfile f0 out = false.
Hypothesis xp_free : isdir f0 xp = false.
Hypothesis yp_free : isdir f0 yp = false.

Lemma apart :
  xp <> pp /\ xp <> out /\ yp <> xp /\ yp <> pp /\ yp <> out /\ pp <> out.
Proof.
  exact (paths_apart file_name_params file_name_x file_name_y out
           file_name_x_given file_name_y_given file_name_params_given
           file_names_x_y file_names_x_params file_names_y_params).
Qed.

Lemma generate_first_files params sf n spacing s0 ws f sp names xa x0 y0 ynames mdl :
  fng sf = Some f ->
  sampled_params_of params sf = Returns sp ->
  varying_names sp = Returns names ->
  Sampler_get_x spacing sp names n = Returns xa ->
  getitem_row0 xa = Returns x0 ->
  f x0 (Some names) params None = (y0, ynames, mdl) ->
  let r := generate_first' params sf n spacing true (Some out) (mk_world s0 f0 ws) in
  fst r = Returns (f, mdl, names, xa)
  /\ fs (snd r) = first_files' params sf n spacing names xa ynames y0.
Proof.
  intros Hf Hsp Hn Hx Hx0 Hy0. destruct apart as (P1 & P2 & P3 & P4 & P5 & P6).
  cbv zeta. unfold first_files, generate_first, _save_settings, _save_x, _save_y, savetxt_attribute, eval_fng,
    sampled_params_of, Params_save_open in *.
  unfold_monad. rewrite Hf. unfold settings_of.
  cbn [fs self warnings].
  rewrite (isfile_false_mkdir f0 out out_free).
  destruct (sf =? cobaya)%string eqn:Ec; [rewrite Hsp | injection Hsp as <-].
  all: cbn -[os_path_join fs_write header_lines join_str String.eqb np_savetxt].
  all: rewrite Hn.
  all: cbn -[os_path_join fs_write header_lines join_str String.eqb np_savetxt].
  all: rewrite Hx.
  all: cbn -[os_path_join fs_write header_lines join_str String.eqb np_savetxt].
  all: rewrite isdir_false_savetxt
         by (rewrite !isdir_write_other by assumption; exact xp_free).
  all: cbn -[os_path_join fs_write header_lines join_str String.eqb np_savetxt].
  all: rewrite Hx0.
  all: cbn -[os_path_join fs_write header_lines join_str String.eqb np_savetxt].
  all: rewrite Hy0.
  all: cbn -[os_path_join fs_write header_lines join_str String.eqb np_savetxt].
  all: rewrite isdir_false_savetxt
         by (rewrite !isdir_write_other by assumption; exact yp_free).
  all: cbn -[os_path_join fs_write header_lines join_str String.eqb np_savetxt].
  all: split; [reflexivity|].
  all: destruct ynames; reflexivity.
Qed.


Lemma first_files_lookups params sf n spacing names xa ynames y0 :
  let F := first_files' params sf n spacing names xa ynames y0 in
  F out = Some Directory
  /\ F pp = Some (YamlFile (settings_of params sf n spacing))
  /\ F xp = Some (TableFile (mk_table (header_lines (join_str (String TAB "") names))
                               (rows xa)))
  /\ F yp = Some (TableFile (mk_table (header_lines (header_of ynames)) [y0]))
  /\ (forall q, q <> out -> q <> pp -> q <> xp -> q <> yp -> F q = f0 q).
Proof.
  destruct apart as (P1 & P2 & P3 & P4 & P5 & P6). cbv zeta. unfold first_files.
  split; [rewrite (fs_write_other _ yp _ out (not_eq_sym P5)),
            (fs_write_other _ xp _ out (not_eq_sym P2)),
            (fs_write_other _ pp _ out (not_eq_sym P6)); apply fs_write_same|].
  split; [rewrite (fs_write_other _ yp _ pp (not_eq_sym P4)),
            (fs_write_other _ xp _ pp (not_eq_sym P1)); apply fs_write_same|].
  split; [rewrite (fs_write_other _ yp _ xp (not_eq_sym P3)); apply fs_write_same|].
  split; [apply fs_write_same|].
  intros q Q1 Q2 Q3 Q4. now rewrite !fs_write_other by assumption.
Qed.

(** X9: a run of [generate] with [save_incrementally] that is terminated
    once [k] rows of y are written leaves a folder with the settings, the
    whole of x under its names, and a y file with the header of the names
    of y and exactly the first [k] rows of y; no other file is touched.
    The x file is complete before the first row of y is written. *)
Theorem generate_killed_files
    params sf n spacing k s0 ws f sp names xa x0 y0 ynames mdl :
  fng sf = Some f ->
  sampled_params_of params sf = Returns sp ->
  varying_names sp = Returns names ->
  Sampler_get_x spacing sp names n = Returns xa ->
  getitem_row0 xa = Returns x0 ->
  f x0 (Some names) params None = (y0, ynames, mdl) ->
  1 <= k ->
  let r := generate_killed' k params sf n spacing true (Some out) (mk_world s0 f0 ws) in
  let ys := y0 :: map (y_of f (Some names) params mdl) (tl (rows xa)) in
  fst r = Returns tt
  /\ fs (snd r) out = Some Directory
  /\ fs (snd r) pp = Some (YamlFile (settings_of params sf n spacing))
  /\ fs (snd r) xp
     = Some (TableFile (mk_table (header_lines (join_str (String TAB "") names)) (rows xa)))
  /\ fs (snd r) yp
     = Some (TableFile (mk_table (header_lines (header_of ynames)) (firstn k ys)))
  /\ (forall q, q <> out -> q <> pp -> q <> xp -> q <> yp -> fs (snd r) q = f0 q).
Proof.
  intros Hf Hsp Hn Hx Hx0 Hy0 Hk. destruct apart as (P1 & P2 & P3 & P4 & P5 & P6).
  destruct (generate_first_files params sf n spacing s0 ws f sp names xa x0 y0 ynames mdl
              Hf Hsp Hn Hx Hx0 Hy0) as (F1 & Ffs).
  destruct (first_files_lookups params sf n spacing names xa ynames y0)
    as (Lo & Lp & Lx & Ly & Lq).
  set (FIRST := generate_first' params sf n spacing true (Some out) (mk_world s0 f0 ws)) in *.
  pose proof (run_returns FIRST _ F1) as EF.
  rewrite <- Ffs in Lo, Lp, Lx, Ly, Lq.
  destruct (generate_loop_saved file_name_y model out f mdl names params
              (firstn (k - 1) (tl (rows xa))) (snd FIRST) _ _ Ly) as (K1 & Kyp & Kother).
  cbv zeta.
  assert (E : generate_killed' k params sf n spacing true (Some out) (mk_world s0 f0 ws)
              = for_each (firstn (k - 1) (tl (rows xa)))
                  (generate_step' f mdl names params true (Some out)) (snd FIRST)).
  { unfold generate_killed. unfold bind at 1. fold FIRST. rewrite EF. reflexivity. }
  rewrite E.
  split; [exact K1|].
  split; [rewrite (Kother out (not_eq_sym P5)); exact Lo|].
  split; [rewrite (Kother pp (not_eq_sym P4)); exact Lp|].
  split; [rewrite (Kother xp (not_eq_sym P3)); exact Lx|].
  split.
  - rewrite Kyp. do 3 f_equal. destruct k as [|k]; [lia|].
    replace (S k - 1) with k by lia.
    cbn [firstn app]. f_equal. symmetry. apply firstn_map.
  - intros q Q1 Q2 Q3 Q4. rewrite (Kother q Q4). now apply Lq.
Qed.





End RunFiles.
Lemma generate_killed_files_witness :
  let r := Scenario.generate_killed 2 Scenario.params "two_outputs" 3%Z "grid" true
             (Some "out") (Scenario.fresh empty_fs) in
  fst r = Returns tt
  /\ fs (snd r) (os_path_join "out" Scenario.file_name_y)
     = Some (TableFile (mk_table (header_lines (header_of (Some ["y0"; "y1"])))
                          (firstn 2 ([0%float; 1%float]
                                     :: map (y_of Scenario.two_outputs (Some ["a"])
                                               Scenario.params tt)
                                          [[1%float]; [2%float]])))).
Proof.
  assert (H := generate_killed_files
                 Scenario.file_name_params Scenario.file_header_params
                 Scenario.file_name_x Scenario.file_name_y unit Scenario.fng
                 Scenario.Sampler_get_x "out" empty_fs
                 ltac:(discriminate) ltac:(discriminate) ltac:(discriminate)
                 ltac:(discriminate) ltac:(discriminate) ltac:(discriminate)
                 eq_refl eq_refl eq_refl
                 Scenario.params "two_outputs" 3%Z "grid" 2 Sample_init []
                 Scenario.two_outputs
                 Scenario.params ["a"] (mk_array2 1 [[0%float]; [1%float]; [2%float]])
                 [0%float] [0%float; 1%float] (Some ["y0"; "y1"]) tt
                 eq_refl eq_refl eq_refl eq_refl eq_refl eq_refl ltac:(lia)).
  cbv zeta in H. destruct H as (H1 & _ & _ & _ & H5 & _).
  cbv zeta. split; [exact H1 | exact H5].
Defined.

(** ** join in groups *)

Lemma rmap_app {A B} (f : A -> result B) (l1 l2 : list A) (b1 b2 : list B) :
  rmap f l1 = Returns b1 -> rmap f l2 = Returns b2 ->
  rmap f (l1 ++ l2) = Returns (b1 ++ b2).
Proof.
  revert b1. induction l1 as [|a l1 IH]; intros b1 H1 H2; cbn [rmap app] in *.
  - injection H1 as <-. exact H2.
  - destruct (f a) as [b|]; [|discriminate H1].
    destruct (rmap f l1) as [bs|]; [|discriminate H1].
    injection H1 as <-. rewrite (IH bs eq_refl H2). reflexivity.
Qed.

Lemma sum_n_samples_app l1 l2 n1 n2 :
  sum_n_samples l1 = Returns n1 -> sum_n_samples l2 = Returns n2 ->
  sum_n_samples (l1 ++ l2) = Returns (n1 + n2).
Proof.
  revert n1. induction l1 as [|s l1 IH]; intros n1 H1 H2; cbn [sum_n_samples app] in *.
  - injection H1 as <-. exact H2.
  - destruct (n_samples s) as [n|]; [|discriminate H1].
    destruct (sum_n_samples l1) as [m|]; [|discriminate H1].
    injection H1 as <-. rewrite (IH m eq_refl H2). now rewrite Nat.add_assoc.
Qed.

(** What a successful [join] went through. *)
Lemma join_inv samples j :
  join samples = Returns j ->
  exists s0 rest xs xa mins maxs ys ya n,
    samples = s0 :: rest
    /\ forallb (fun s => eqb_opt_nat (n_x s) (n_x s0)) samples = true
    /\ forallb (fun s => eqb_opt_nat (n_y s) (n_y s0)) samples = true
    /\ arrays_of x samples = Returns xs /\ vstack xs = Returns xa
    /\ np_min_axis0 xa = Returns mins /\ np_max_axis0 xa = Returns maxs
    /\ arrays_of y samples = Returns ys /\ vstack ys = Returns ya
    /\ sum_n_samples samples = Returns n
    /\ j = set_n_samples (Some n)
             (set_y_names (y_names s0)
                (set_x_names (x_names s0)
                   (set_y (Some ya)
                      (set_x_ranges (Some (combine mins maxs))
                         (set_x (Some xa)
                            (set_n_y (n_y s0) (set_n_x (n_x s0) Sample_init))))))).
Proof.
  unfold join. destruct samples as [|s0 rest]; [discriminate|].
  destruct (forallb (fun s => eqb_opt_nat (n_x s) (n_x s0)) (s0 :: rest)) eqn:E1;
    [|discriminate].
  destruct (forallb (fun s => eqb_opt_nat (n_y s) (n_y s0)) (s0 :: rest)) eqn:E2;
    [|discriminate].
  destruct (arrays_of x (s0 :: rest)) as [xs|] eqn:E3; cbn [rbind]; [|discriminate].
  destruct (vstack xs) as [xa|] eqn:E4; cbn [rbind]; [|discriminate].
  destruct (np_min_axis0 xa) as [mins|] eqn:E5; cbn [rbind]; [|discriminate].
  destruct (np_max_axis0 xa) as [maxs|] eqn:E6; cbn [rbind]; [|discriminate].
  destruct (arrays_of y (s0 :: rest)) as [ys|] eqn:E7; cbn [rbind]; [|discriminate].
  destruct (vstack ys) as [ya|] eqn:E8; cbn [rbind]; [|discriminate].
  destruct (sum_n_samples (s0 :: rest)) as [n|] eqn:E9; cbn [rbind]; [|discriminate].
  intro H. injection H as <-.
  exists s0, rest, xs, xa, mins, maxs, ys, ya, n. repeat split; assumption.
Qed.

Lemma forallb_eqb_opt_nat (get : Sample -> option nat) s0 rest v :
  forallb (fun s => eqb_opt_nat (get s) (get s0)) (s0 :: rest) = true ->
  forallb (fun s => eqb_opt_nat (get s) v) (s0 :: rest) = eqb_opt_nat (get s0) v.
Proof.
  intro H. rewrite forallb_forall in H.
  destruct (eqb_opt_nat (get s0) v) eqn:E.
  - apply forallb_forall. intros s Hs. apply eqb_opt_nat_spec.
    apply eqb_opt_nat_spec in E. rewrite <- E. apply eqb_opt_nat_spec. now apply H.
  - cbn [forallb]. now rewrite E.
Qed.

Lemma eqb_opt_nat_sym a b : eqb_opt_nat a b = eqb_opt_nat b a.
Proof. destruct a, b; cbn; try reflexivity. apply Nat.eqb_sym. Qed.

Lemma eqb_opt_nat_refl a : eqb_opt_nat a a = true.
Proof. now apply eqb_opt_nat_spec. Qed.

(** The arrays a successful [vstack] stacked have the columns of the
    first, and so has the result. *)
Lemma vstack_inv l a :
  vstack l = Returns a ->
  exists a0 l', l = a0 :: l'
    /\ forallb (fun b => shape1 b =? shape1 a0) l' = true
    /\ a = mk_array2 (shape1 a0) (concat (map rows l)).
Proof.
  unfold vstack. destruct l as [|a0 l']; [discriminate|].
  destruct (forallb (fun b => shape1 b =? shape1 a0) l') eqn:E; [|discriminate].
  intro H. injection H as <-. now exists a0, l'.
Qed.

Lemma forallb_shape1 a0 l' c :
  forallb (fun b => shape1 b =? shape1 a0) l' = true ->
  forallb (fun b => shape1 b =? c) (a0 :: l') = (shape1 a0 =? c).
Proof.
  intro H. rewrite forallb_forall in H.
  destruct (shape1 a0 =? c) eqn:E.
  - apply forallb_forall. intros b [<- | Hb]; [exact E|].
    apply Nat.eqb_eq in E. rewrite <- E. now apply H.
  - cbn [forallb]. now rewrite E.
Qed.

(** Stacking two stacks is stacking everything. *)
Lemma vstack_app l1 l2 a1 a2 :
  vstack l1 = Returns a1 -> vstack l2 = Returns a2 ->
  vstack (l1 ++ l2) = vstack [a1; a2].
Proof.
  intros H1 H2.
  destruct (vstack_inv _ _ H1) as (b1 & l1' & -> & F1 & ->).
  destruct (vstack_inv _ _ H2) as (b2 & l2' & -> & F2 & ->).
  unfold vstack. cbn [app shape1 forallb].
  rewrite forallb_app, F1, (forallb_shape1 b2 l2' (shape1 b1) F2), andb_true_r.
  cbn [andb]. destruct (shape1 b2 =? shape1 b1); [|reflexivity].
  do 2 f_equal. cbn [map rows concat]. rewrite app_nil_r.
  change (b1 :: l1' ++ b2 :: l2') with ((b1 :: l1') ++ b2 :: l2').
  rewrite map_app, concat_app. cbn [map concat]. now rewrite app_assoc.
Qed.

(** X11: joining in groups is joining at once: when [join] returns on
    each of two lists, [join] of the two results does what [join] of the
    two lists in a row does, be it the same sample, [x_ranges] included,
    or the same exception. *)
Theorem join_of_joins (l1 l2 : list Sample) (j1 j2 : Sample) :
  join l1 = Returns j1 -> join l2 = Returns j2 ->
  join [j1; j2] = join (l1 ++ l2).
Proof.
  intros H1 H2.
  destruct (join_inv _ _ H1)
    as (s0 & r1 & xs1 & xa1 & mins1 & maxs1 & ys1 & ya1 & n1
        & -> & Nx1 & Ny1 & Ax1 & Vx1 & _ & _ & Ay1 & Vy1 & Sn1 & ->).
  destruct (join_inv _ _ H2)
    as (t0 & r2 & xs2 & xa2 & mins2 & maxs2 & ys2 & ya2 & n2
        & -> & Nx2 & Ny2 & Ax2 & Vx2 & _ & _ & Ay2 & Vy2 & Sn2 & ->).
  set (J1 := set_n_samples (Some n1) _). set (J2 := set_n_samples (Some n2) _).
  assert (LHS : join [J1; J2]
                = if eqb_opt_nat (n_x t0) (n_x s0) then
                    if eqb_opt_nat (n_y t0) (n_y s0) then
                      (xa <-- vstack [xa1; xa2] ;;;
                       mins <-- np_min_axis0 xa ;;;
                       maxs <-- np_max_axis0 xa ;;;
                       ya <-- vstack [ya1; ya2] ;;;
                       Returns (set_n_samples (Some (n1 + n2))
                         (set_y_names (y_names s0)
                            (set_x_names (x_names s0)
                               (set_y (Some ya)
                                  (set_x_ranges (Some (combine mins maxs))
                                     (set_x (Some xa)
                                        (set_n_y (n_y s0)
                                           (set_n_x (n_x s0) Sample_init)))))))))%res
                    else Raises (ValueError join_msg)
                  else Raises (ValueError join_msg)).
  { unfold join. cbn [forallb]. subst J1 J2.
    cbn [n_x n_y x y x_names y_names n_samples set_n_samples set_y_names set_x_names set_y
         set_x_ranges set_x set_n_y set_n_x Sample_init arrays_of rmap rbind sum_n_samples].
    rewrite !eqb_opt_nat_refl, !andb_true_r. cbn [andb].
    rewrite Nat.add_0_r. reflexivity. }
  rewrite LHS. clear LHS.
  unfold join. cbn [app].
  change (s0 :: r1 ++ t0 :: r2) with ((s0 :: r1) ++ t0 :: r2).
  rewrite !forallb_app, Nx1, Ny1.
  rewrite (forallb_eqb_opt_nat n_x t0 r2 (n_x s0) Nx2).
  rewrite (forallb_eqb_opt_nat n_y t0 r2 (n_y s0) Ny2).
  cbn [andb].
  destruct (eqb_opt_nat (n_x t0) (n_x s0)); [|reflexivity].
  destruct (eqb_opt_nat (n_y t0) (n_y s0)); [|reflexivity].
  rewrite (rmap_app _ _ _ _ _ Ax1 Ax2 : arrays_of x _ = _). cbn [rbind].
  rewrite (vstack_app _ _ _ _ Vx1 Vx2).
  destruct (vstack [xa1; xa2]) as [xa|]; cbn [rbind]; [|reflexivity].
  destruct (np_min_axis0 xa) as [mins|]; cbn [rbind]; [|reflexivity].
  destruct (np_max_axis0 xa) as [maxs|]; cbn [rbind]; [|reflexivity].
  rewrite (rmap_app _ _ _ _ _ Ay1 Ay2 : arrays_of y _ = _). cbn [rbind].
  rewrite (vstack_app _ _ _ _ Vy1 Vy2).
  destruct (vstack [ya1; ya2]) as [ya|]; cbn [rbind]; [|reflexivity].
  rewrite (sum_n_samples_app _ _ _ _ Sn1 Sn2). reflexivity.
Qed.

Lemma join_of_joins_witness :
  join [Scenario.sample_1x1; Scenario.sample_2x1; Scenario.sample_1x1]
  = rbind (join [Scenario.sample_1x1; Scenario.sample_2x1])
      (fun j1 => rbind (join [Scenario.sample_1x1]) (fun j2 => join [j1; j2])).
Proof.
  symmetry.
  exact (join_of_joins [Scenario.sample_1x1; Scenario.sample_2x1] [Scenario.sample_1x1]
           _ _ eq_refl eq_refl).
Defined.
(** ** resume on what load and join leave *)

Section ResumeOn.

Variables file_name_params file_name_x file_name_y : string.
Variable Params_load : FS -> string -> result yaml.
Variable model : Type.
Variable fng : string -> option (sampling_function model).

Local Abbreviation load' := (load file_name_params file_name_x file_name_y Params_load).
Local Abbreviation resume' := (resume file_name_y fng).

Lemma resume_without_settings si w :
  settings (self w) = None ->
  resume' si w = (Raises (TypeError "'NoneType' object is not subscriptable"), w).
Proof. intro H. unfold resume. unfold_monad. cbv beta. now rewrite H. Qed.

(** X12: [resume] works only on a sample that was loaded from a folder.
    When a new object is loaded from a file, or from two, the settings
    loader raises [NotADirectoryError] and [load] goes on without the
    settings; [resume] on what [load] leaves then raises [TypeError] and
    changes nothing. *)
Theorem resume_after_load_of_files path path_y cx cy rnf si w :
  settings (self w) = None ->
  Params_load (fs w) (os_path_join path file_name_params) = Raises NotADirectoryError ->
  resume' si (snd (load' path path_y cx cy rnf w))
  = (Raises (TypeError "'NoneType' object is not subscriptable"),
     snd (load' path path_y cx cy rnf w)).
Proof.
  intros Hs Hp. apply resume_without_settings.
  rewrite (load_unfold file_name_params file_name_x file_name_y Params_load).
  pose proof (load_settings_cases file_name_params Params_load path w) as Hc.
  rewrite Hp in Hc. cbn [is_NotADirectoryError] in Hc. rewrite Hc.
  destruct (load_rest_keeps file_name_x file_name_y path path_y cx cy rnf
              (mk_world (self w) (fs w) (warnings w ++ [settings_warning]))) as (K & _).
  rewrite K. exact Hs.
Qed.

(** X13: a sample that [join] returns holds no settings, no path and no
    split, whatever the inputs held, and [resume] on it raises
    [TypeError]. *)
Theorem joined_sample_cannot_be_resumed samples j :
  join samples = Returns j ->
  settings j = None /\ path j = None
  /\ x_train j = None /\ y_train j = None /\ x_test j = None /\ y_test j = None
  /\ forall si f ws,
       resume' si (mk_world j f ws)
       = (Raises (TypeError "'NoneType' object is not subscriptable"), mk_world j f ws).
Proof.
  intro H. destruct (join_inv _ _ H)
    as (s0 & r1 & xs1 & xa1 & mins1 & maxs1 & ys1 & ya1 & n1
        & _ & _ & _ & _ & _ & _ & _ & _ & _ & _ & ->).
  do 6 (split; [reflexivity|]). intros si f ws. now apply resume_without_settings.
Qed.

(** X14: [resume] twice is [resume] once.  On a sample whose settings ask
    for as many rows as x has and whose y has no more rows than x, a
    [resume] that returns leaves y with the rows of x, and a second
    [resume] returns without a change. *)
Theorem resume_twice si w st xa ya :
  settings (self w) = Some st ->
  getitem_int st "n_samples" = Returns (Z.of_nat (shape0 xa)) ->
  x (self w) = Some xa -> y (self w) = Some ya ->
  shape0 ya <= shape0 xa ->
  fst (resume' si w) = Returns tt ->
  shape0 (the_y (self (snd (resume' si w)))) = shape0 xa
  /\ resume' si (snd (resume' si w)) = (Returns tt, snd (resume' si w)).
Proof.
  intros Hst Hn Hx Hy Hle Hr.
  pose proof (run_returns _ _ Hr) as E.
  destruct (resume_returns file_name_y model fng si w _ st _ xa ya E Hst Hn Hx Hy)
    as [[Ek Ew] | (Hk & sf & f & params & x0 & _ & _ & _ & _ & Hy' & Hs)].
  - rewrite Ew. unfold the_y. rewrite Hy. split; [lia|].
    unfold resume. unfold_monad. cbv beta. rewrite Hst, Hn, Hy. cbv beta iota.
    replace (Z.of_nat (shape0 xa) - Z.of_nat (shape0 ya) =? 0)%Z with true
      by (symmetry; apply Z.eqb_eq; lia).
    reflexivity.
  - cbv zeta in Hy'. destruct Hs as (_ & _ & _ & _ & _ & _ & Sst & _).
    assert (Hrows : shape0 (the_y (self (snd (resume' si w)))) = shape0 xa).
    { unfold the_y. rewrite Hy'. unfold shape0, rows_from. cbn [rows].
      rewrite length_app, length_map, length_skipn. unfold shape0 in Hle. lia. }
    split; [exact Hrows|].
    unfold the_y in Hrows. rewrite Hy' in Hrows.
    unfold resume at 1. unfold_monad. cbv beta. rewrite Sst, Hst, Hn, Hy'. cbv beta iota.
    rewrite Hrows, Z.sub_diag. reflexivity.
Qed.

End ResumeOn.

Lemma resume_after_load_of_files_witness :
  let l := Scenario.load "xy.txt" None Scenario.all_columns Scenario.all_columns false
             (Scenario.fresh Scenario.fs_single) in
  fst l = Returns tt
  /\ fst (Scenario.resume true (snd l))
     = Raises (TypeError "'NoneType' object is not subscriptable").
Proof.
  cbv zeta. split; [reflexivity|].
  unfold Scenario.resume, Scenario.load.
  rewrite (resume_after_load_of_files
             Scenario.file_name_params Scenario.file_name_x Scenario.file_name_y
             Params_load_open unit Scenario.fng "xy.txt" None
             Scenario.all_columns Scenario.all_columns false true
             (Scenario.fresh Scenario.fs_single) eq_refl eq_refl).
  reflexivity.
Defined.

Lemma joined_sample_cannot_be_resumed_witness :
  exists j, join [Scenario.sample_1x1; Scenario.sample_2x1] = Returns j
            /\ settings j = None
            /\ fst (Scenario.resume false (Scenario.holding j))
               = Raises (TypeError "'NoneType' object is not subscriptable").
Proof.
  eexists. split; [reflexivity|].
  destruct (joined_sample_cannot_be_resumed Scenario.file_name_y unit Scenario.fng
              [Scenario.sample_1x1; Scenario.sample_2x1] _ eq_refl)
    as (Hs & _ & _ & _ & _ & _ & Hr).
  split; [exact Hs|]. unfold Scenario.resume, Scenario.holding. now rewrite Hr.
Defined.

Lemma resume_twice_witness :
  let r := Scenario.resumed 2 in
  fst r = Returns tt
  /\ shape0 (the_y (self (snd r))) = 3
  /\ fst (Scenario.resume true (snd r)) = Returns tt.
Proof.
  assert (H := resume_twice Scenario.file_name_y unit Scenario.fng true
                 (snd (Scenario.reloaded 2)) Scenario.settings_3
                 (mk_array2 1 [[0%float]; [1%float]; [2%float]])
                 (mk_array2 2 [[0%float; 1%float]; [1%float; 2%float]])
                 ltac:(vm_compute; reflexivity) ltac:(vm_compute; reflexivity)
                 ltac:(vm_compute; reflexivity) ltac:(vm_compute; reflexivity)
                 ltac:(cbn; lia) ltac:(vm_compute; reflexivity)).
  destruct H as [H1 H2]. cbv zeta. split; [vm_compute; reflexivity|].
  split; [exact H1|]. unfold Scenario.resumed, Scenario.resume. now rewrite H2.
Defined.
(** ** save *)

Section SaveRaises.

Variables file_name_params file_header_params file_name_x file_name_y : string.
Variable Params_save : option yaml -> string -> string -> string -> FS -> result FS.
Variable Folder_create : string -> FS -> result FS.

Local Abbreviation save' :=
  (save file_name_params file_header_params file_name_x file_name_y Params_save
     Folder_create).

(** X15: [save] needs the names of x and not the names of y.  On a
    sample without [x_names], as [load] leaves it for a file without a
    header, [save] raises [TypeError] once the folder is created and the
    settings are written, and writes no array. *)
Theorem save_without_x_names_raises dir w f1 f2 :
  x_names (self w) = None ->
  Folder_create dir (fs w) = Returns f1 ->
  Params_save (settings (self w)) file_name_params dir file_header_params f1 = Returns f2 ->
  save' dir w
  = (Raises (TypeError "can only join an iterable"),
     mk_world (set_path (Some dir) (self w)) f2 (warnings w)).
Proof.
  intros Hn H1 H2. unfold save, _save_settings, _save_x. unfold_monad. cbv beta.
  cbn [fs self warnings]. rewrite H1. cbv beta iota. cbn [fs self warnings settings set_path].
  rewrite H2. cbv beta iota. cbn [fs self warnings x_names set_path]. rewrite Hn.
  reflexivity.
Qed.

End SaveRaises.

Lemma save_without_x_names_raises_witness :
  let l := Scenario.load "xy.txt" None Scenario.all_columns Scenario.all_columns false
             (Scenario.fresh Scenario.fs_single) in
  let r := save Scenario.file_name_params Scenario.file_header_params Scenario.file_name_x
             Scenario.file_name_y Params_save_open Folder_create_mkdir "copy" (snd l) in
  fst l = Returns tt
  /\ fst r = Raises (TypeError "can only join an iterable")
  /\ fs (snd r) "copy" = Some Directory
  /\ fs (snd r) "copy/x_sample.txt" = None.
Proof.
  cbv zeta. split; [reflexivity|].
  rewrite (save_without_x_names_raises
             Scenario.file_name_params Scenario.file_header_params Scenario.file_name_x
             Scenario.file_name_y Params_save_open Folder_create_mkdir "copy"
             (snd (Scenario.load "xy.txt" None Scenario.all_columns Scenario.all_columns false
                     (Scenario.fresh Scenario.fs_single)))
             _ _ eq_refl eq_refl eq_refl).
  repeat split.
Defined.

Section LoadFolderNames.

Variables file_name_params file_name_x file_name_y : string.
Variable Params_load : FS -> string -> result yaml.

Local Abbreviation load' := (load file_name_params file_name_x file_name_y Params_load).


End LoadFolderNames.

Section SaveLoad.

Variables file_name_params file_header_params file_name_x file_name_y : string.
Variable dir : string.
Variable f0 : FS.

Hypothesis file_name_x_given : file_name_x <> "".
Hypothesis file_name_y_given : file_name_y <> "".
Hypothesis file_name_params_given : file_name_params <> "".
Hypothesis file_names_x_y : file_name_x <> file_name_y.
Hypothesis file_names_x_params : file_name_x <> file_name_params.
Hypothesis file_names_y_params : file_name_y <> file_name_params.

Local Abbreviation save' :=
  (save file_name_params file_header_params file_name_x file_name_y Params_save_open
     Folder_create_mkdir).
Local Abbreviation load' :=
  (load file_name_params file_name_x file_name_y Params_load_open).
Local Abbreviation xp := (os_path_join dir file_name_x).
Local Abbreviation yp := (os_path_join dir file_name_y).
Local Abbreviation pp := (os_path_join dir file_name_params).

(** The folder is not in the way: its path is not a regular file and the
    paths of the two tables are not directories. *)
Hypothesis dir_free : isfile f0 dir = false.
Hypothesis xp_free : isdir f0 xp = false.
Hypothesis yp_free : isdir f0 yp = false.




End SaveLoad.

(** ** What generate leaves in the object *)

Section GenerateResult.

Variables file_name_params file_header_params file_name_x file_name_y : string.
Variable Params_save : option yaml -> string -> string -> string -> FS -> result FS.
Variable Folder_create : string -> FS -> result FS.
Variable model : Type.
Variable fng : string -> option (sampling_function model).
Variable Sampler_get_x : string -> yaml -> list string -> Z -> result array2.

Local Abbreviation generate_first' :=
  (generate_first file_name_params file_header_params file_name_x file_name_y
     Params_save Folder_create fng Sampler_get_x).
Local Abbreviation generate_step' := (@generate_step file_name_y model).
Local Abbreviation generate' :=
  (generate file_name_params file_header_params file_name_x file_name_y
     Params_save Folder_create fng Sampler_get_x).

Lemma generate_first_object params sf n spacing out w f sp names xa x0 y0 ynames mdl :
  fng sf = Some f ->
  sampled_params_of params sf = Returns sp ->
  varying_names sp = Returns names ->
  Sampler_get_x spacing sp names n = Returns xa ->
  getitem_row0 xa = Returns x0 ->
  f x0 (Some names) params None = (y0, ynames, mdl) ->
  generate_first' params sf n spacing false out w
  = (Returns (f, mdl, names, xa),
     mk_world
       (set_y (Some (mk_array2 (length y0) [y0]))
          (set_y_names ynames
             (set_n_x (Some (shape1 xa))
                (set_x (Some xa)
                   (set_x_names (Some names)
                      (set_settings (Some (settings_of params sf n spacing)) (self w)))))))
       (fs w) (warnings w)).
Proof.
  unfold generate_first, eval_fng, sampled_params_of, settings_of.
  intros Hf Hsp Hn Hx Hx0 Hy0. unfold_monad. cbv beta iota. rewrite Hf. cbv beta iota.
  destruct (String.eqb sf cobaya);
    [rewrite Hsp | injection Hsp as <-];
    cbv beta iota; rewrite Hn; cbv beta iota; rewrite Hx; cbv beta iota;
    rewrite Hx0; cbv beta iota; rewrite Hy0; reflexivity.
Qed.

(** X17: the y of [generate] is the sampled function on the rows of x.
    When the function is known, the sampler gives an x with a first row,
    and the rows of y have one length, [generate] returns with the x of
    the sampler under the names of the varying parameters, with a y whose
    first row is the function on the first row of x without a model and
    whose other rows are the function on the other rows of x with the
    model of the first call, in the order of x, with [n_x], [n_y] and the
    four settings; [n_samples] is left as it was. *)
Theorem generate_computes_y params sf n spacing out w f sp names xa x0 y0 ynames mdl :
  fng sf = Some f ->
  sampled_params_of params sf = Returns sp ->
  varying_names sp = Returns names ->
  Sampler_get_x spacing sp names n = Returns xa ->
  getitem_row0 xa = Returns x0 ->
  f x0 (Some names) params None = (y0, ynames, mdl) ->
  (forall xr, In xr (tl (rows xa)) ->
              length (y_of f (Some names) params mdl xr) = length y0) ->
  let r := generate' params sf n spacing false out w in
  fst r = Returns tt
  /\ x (self (snd r)) = Some xa
  /\ y (self (snd r))
     = Some (mk_array2 (length y0)
               (y0 :: map (y_of f (Some names) params mdl) (tl (rows xa))))
  /\ x_names (self (snd r)) = Some names /\ y_names (self (snd r)) = ynames
  /\ n_x (self (snd r)) = Some (shape1 xa) /\ n_y (self (snd r)) = Some (length y0)
  /\ settings (self (snd r)) = Some (settings_of params sf n spacing)
  /\ n_samples (self (snd r)) = n_samples (self w).
Proof.
  intros Hf Hsp Hn Hx Hx0 Hy0 Hlen. cbv zeta.
  pose proof (generate_first_object params sf n spacing out w f sp names xa x0 y0 ynames mdl
                Hf Hsp Hn Hx Hx0 Hy0) as EF.
  set (w1 := mk_world _ (fs w) (warnings w)) in EF.
  pose proof (generate_loop_no_save file_name_y model f mdl names params out
                (tl (rows xa)) w1) as L1.
  pose proof (run_returns _ _ L1) as EL.
  set (L := for_each (tl (rows xa)) (generate_step' f mdl names params false out) w1) in *.
  assert (Hy1 : y (self w1) = Some (mk_array2 (length y0) [y0])) by reflexivity.
  destruct (generate_loop_returns file_name_y model f mdl names params false out
              (tl (rows xa)) w1 (snd L) _ EL Hy1) as [HyL HsL].
  cbn [shape1 rows app] in HyL.
  pose proof (generate_last_returns (snd L) _ HyL) as Hlast. cbn [rows] in Hlast.
  rewrite np_array_rows in Hlast
    by (intros r Hr; apply in_map_iff in Hr; destruct Hr as [xr [<- Hin]];
        now apply Hlen).
  assert (E : generate' params sf n spacing false out w = generate_last (snd L)).
  { unfold generate. unfold bind at 1. rewrite EF. cbv beta iota.
    unfold bind at 1. fold L. rewrite EL. reflexivity. }
  rewrite E, Hlast.
  destruct HsL as (Sx & Sxn & Syn & Sn & Snx & _ & Sst & _).
  cbn [fst snd self x y x_names y_names n_x n_y settings n_samples set_y set_n_y shape1].
  split; [reflexivity|]. split; [now rewrite Sx|]. split; [reflexivity|].
  split; [now rewrite Sxn|]. split; [now rewrite Syn|]. split; [now rewrite Snx|].
  split; [reflexivity|]. split; [now rewrite Sst | now rewrite Sn].
Qed.

(** X18: a sample that [generate] made on a new object cannot be joined.
    [generate] leaves [n_samples] unset, and the sum of the [n_samples] of
    the inputs, which [join] takes at its end, raises [TypeError]: [join]
    of a list that holds the sample does not return, and [join] of the
    sample alone raises this [TypeError]. *)
Theorem generated_sample_cannot_be_joined params sf n spacing si out w :
  n_samples (self w) = None ->
  fst (generate' params sf n spacing si out w) = Returns tt ->
  let s := self (snd (generate' params sf n spacing si out w)) in
  (forall l j, In s l -> join l <> Returns j)
  /\ join [s]
     = Raises (TypeError "unsupported operand type(s) for +: 'int' and 'NoneType'").
Proof.
  intros Hns Hr. pose proof (run_returns _ _ Hr) as E.
  destruct (generate_returns file_name_params file_header_params file_name_x file_name_y
              Params_save Folder_create model fng Sampler_get_x _ _ _ _ _ _ _ _ E)
    as (f & mdl & names & xa & sp & x0 & y0 & ynames
        & _ & _ & _ & _ & Hx0 & _ & Hx & Hnx & Hy & Hny & Hn).
  cbv zeta. set (s := self (snd (generate' params sf n spacing si out w))) in *.
  rewrite Hns in Hn. split.
  - intros l j Hin Hj.
    destruct (join_inv _ _ Hj)
      as (s0 & r1 & xs1 & xa1 & mins1 & maxs1 & ys1 & ya1 & n1
          & _ & _ & _ & _ & _ & _ & _ & _ & _ & Hsum & _).
    clear -Hin Hn Hsum. revert n1 Hsum.
    induction l as [|t l IH]; [contradiction|]. intros n1. cbn [sum_n_samples].
    destruct Hin as [-> | Hin].
    + rewrite Hn. discriminate.
    + destruct (n_samples t); [|discriminate].
      destruct (sum_n_samples l) as [m|]; [|discriminate]. intros _. now apply (IH Hin m).
  - unfold join. cbn [forallb]. rewrite !eqb_opt_nat_refl. cbn [andb].
    cbn [arrays_of rmap]. rewrite Hx, Hy. cbn [rbind vstack forallb map rows concat].
    rewrite app_nil_r. cbn [shape1].
    pose proof (getitem_row0_rows _ _ Hx0) as Hrows.
    unfold np_min_axis0, np_max_axis0, reduce_axis0. cbn [rows]. rewrite Hrows.
    cbn [rbind sum_n_samples]. rewrite Hn. reflexivity.
Qed.

End GenerateResult.

Lemma generate_computes_y_witness :
  let r := Scenario.generate Scenario.params "two_outputs" 3%Z "grid" false None
             (Scenario.fresh empty_fs) in
  fst r = Returns tt
  /\ y (self (snd r))
     = Some (mk_array2 2 [[0%float; 1%float]; [1%float; 2%float]; [2%float; 3%float]])
  /\ n_samples (self (snd r)) = None.
Proof.
  assert (H := generate_computes_y
                 Scenario.file_name_params Scenario.file_header_params
                 Scenario.file_name_x Scenario.file_name_y
                 Params_save_open Folder_create_mkdir unit Scenario.fng
                 Scenario.Sampler_get_x
                 Scenario.params "two_outputs" 3%Z "grid" None (Scenario.fresh empty_fs)
                 Scenario.two_outputs
                 Scenario.params ["a"] (mk_array2 1 [[0%float]; [1%float]; [2%float]])
                 [0%float] [0%float; 1%float] (Some ["y0"; "y1"]) tt
                 eq_refl eq_refl eq_refl eq_refl eq_refl eq_refl
                 ltac:(intros [|v xr] _; reflexivity)).
  cbv zeta in H. destruct H as (H1 & _ & H3 & _ & _ & _ & _ & _ & H9).
  cbv zeta. split; [exact H1|]. split; [exact H3 | exact H9].
Defined.

Lemma generated_sample_cannot_be_joined_witness :
  join [self (snd Scenario.uninterrupted)]
  = Raises (TypeError "unsupported operand type(s) for +: 'int' and 'NoneType'").
Proof.
  exact (proj2 (generated_sample_cannot_be_joined
                  Scenario.file_name_params Scenario.file_header_params
                  Scenario.file_name_x Scenario.file_name_y
                  Params_save_open Folder_create_mkdir unit Scenario.fng
                  Scenario.Sampler_get_x
                  Scenario.params "two_outputs" 3%Z "grid" true (Some "out")
                  (Scenario.fresh empty_fs) eq_refl
                  ltac:(vm_compute; reflexivity))).
Defined.
(** ** One file for x and y *)

Lemma firstn_length_but_last {A} (l : list A) c :
  length l = c -> py_slice None (Some (-1)%Z) l = firstn (c - 1) l.
Proof. intros <-. apply py_slice_but_last. Qed.

Lemma skipn_length_last {A} (l : list A) c :
  length l = c -> py_slice (Some (-1)%Z) None l = skipn (c - 1) l.
Proof. intros <-. apply py_slice_last. Qed.

Section SingleFile.

Variables file_name_params file_name_x file_name_y : string.
Variable Params_load : FS -> string -> result yaml.

Local Abbreviation load' := (load file_name_params file_name_x file_name_y Params_load).
Local Abbreviation load_settings' := (load_settings file_name_params Params_load).

(** X19: for a single file the columns the caller asks for are not used.
    When [path_y] is not given and [path] is a regular file, [load] reads
    x from all columns but the last and y from the last column whatever
    [columns_x] and [columns_y] are. *)
Theorem load_single_file_ignores_columns path path_y cx cy cx' cy' rnf w :
  truthy_opt path_y = false ->
  isdir (fs w) path = false -> isfile (fs w) path = true ->
  load' path path_y cx cy rnf w = load' path path_y cx' cy' rnf w
  /\ load' path path_y cx cy rnf w
     = load' path path_y (Slice None (Some (-1)%Z)) (Slice (Some (-1)%Z) None) rnf w.
Proof.
  intros Hy Hd Hf.
  assert (E : forall c1 c2,
            load' path path_y c1 c2 rnf w
            = match load_settings' path w with
              | (Returns _, w1) =>
                  load_data path path (Slice None (Some (-1)%Z)) (Slice (Some (-1)%Z) None)
                    rnf w1
              | (Raises e, w1) => (Raises e, w1)
              end).
  { intros c1 c2.
    rewrite (load_unfold file_name_params file_name_x file_name_y Params_load).
    pose proof (load_settings_fs file_name_params Params_load path w) as Hfs.
    destruct (load_settings' path w) as [[[]|e] w1]; [|reflexivity].
    cbn [snd] in Hfs. unfold load_rest, assign_paths. unfold_monad. cbv beta.
    rewrite Hy, andb_false_r, Hfs, Hd, Hf. reflexivity. }
  split; rewrite !E; reflexivity.
Qed.

(** X20: a single file with at least two rows of [c >= 2] values each is
    read as the specification has it: once the settings step is over, x
    is the first [c - 1] values of every row and y the last one, the
    names, when the header gives [c] of them, are split in the same way,
    and [n_samples], [n_x], [n_y] are the number of rows, [c - 1] and 1. *)
Theorem load_single_file_splits path path_y cx cy w t r1 r2 rs c names :
  fst (load_settings' path w) = Returns tt ->
  truthy_opt path_y = false ->
  fs w path = Some (TableFile t) ->
  data t = r1 :: r2 :: rs ->
  Forall (fun r => length r = c) (data t) -> 2 <= c ->
  _try_to_load_names_array (fs w) path (Some c) = Returns names ->
  let r := load' path path_y cx cy false w in
  fst r = Returns tt
  /\ x (self (snd r)) = Some (mk_array2 (c - 1) (map (firstn (c - 1)) (data t)))
  /\ y (self (snd r)) = Some (mk_array2 1 (map (skipn (c - 1)) (data t)))
  /\ x_names (self (snd r)) = option_map (firstn (c - 1)) names
  /\ y_names (self (snd r)) = option_map (skipn (c - 1)) names
  /\ n_samples (self (snd r)) = Some (length (data t))
  /\ n_x (self (snd r)) = Some (c - 1) /\ n_y (self (snd r)) = Some 1.
Proof.
  intros Hs Hpy Hp Hd Hall Hc Hn. cbv zeta.
  rewrite (load_unfold file_name_params file_name_x file_name_y Params_load).
  pose proof (load_settings_fs file_name_params Params_load path w) as Hfs.
  destruct (load_settings' path w) as [r0 w1]. cbn [fst snd] in Hs, Hfs. subst r0.
  rewrite <- Hfs in Hp, Hn.
  unfold load_rest, assign_paths. unfold_monad. cbv beta.
  rewrite Hpy, andb_false_r. unfold isdir, isfile. rewrite Hp. cbv beta iota.
  assert (Hnl : match names with Some ns => length ns = c | None => True end).
  { destruct names as [ns|]; [|exact I]. destruct c as [|c]; [lia|].
    now apply _try_to_load_names_array_length in Hn. }
  assert (E1 : map (py_slice None (Some (-1)%Z)) (data t) = map (firstn (c - 1)) (data t)).
  { apply map_ext_in. intros r Hr. apply firstn_length_but_last.
    rewrite Forall_forall in Hall. now apply Hall. }
  assert (E2 : map (py_slice (Some (-1)%Z) None) (data t) = map (skipn (c - 1)) (data t)).
  { apply map_ext_in. intros r Hr. apply skipn_length_last.
    rewrite Forall_forall in Hall. now apply Hall. }
  assert (L1 : slice_len c None (Some (-1)%Z) = c - 1).
  { unfold slice_len, slice_stop, slice_start, slice_bound. cbn [Z.ltb Z.compare]. lia. }
  assert (L2 : slice_len c (Some (-1)%Z) None = 1).
  { unfold slice_len, slice_stop, slice_start, slice_bound. cbn [Z.ltb Z.compare]. lia. }
  assert (Ex : _load_array (fs w1) path (Slice None (Some (-1)%Z))
               = Returns (mk_array2 (c - 1) (map (firstn (c - 1)) (data t)),
                          option_map (firstn (c - 1)) names)).
  { unfold _load_array.
    rewrite (genfromtxt_table (fs w1) path t r1 r2 rs c Hp Hd Hall Hc). cbn [rbind shape1].
    rewrite Hn. cbn [rbind getitem_cols shape1 rows]. rewrite E1, L1.
    destruct names as [ns|]; [|reflexivity].
    cbn [getitem_names rbind option_map]. now rewrite (firstn_length_but_last ns c Hnl). }
  assert (Ey : _load_array (fs w1) path (Slice (Some (-1)%Z) None)
               = Returns (mk_array2 1 (map (skipn (c - 1)) (data t)),
                          option_map (skipn (c - 1)) names)).
  { unfold _load_array.
    rewrite (genfromtxt_table (fs w1) path t r1 r2 rs c Hp Hd Hall Hc). cbn [rbind shape1].
    rewrite Hn. cbn [rbind getitem_cols shape1 rows]. rewrite E2, L2.
    destruct names as [ns|]; [|reflexivity].
    cbn [getitem_names rbind option_map]. now rewrite (skipn_length_last ns c Hnl). }
  assert (Hne : rows (mk_array2 (c - 1) (map (firstn (c - 1)) (data t))) <> [])
    by (rewrite Hd; discriminate).
  destruct (load_data_run path path (Slice None (Some (-1)%Z)) (Slice (Some (-1)%Z) None)
              false w1 _ _ _ _ Ex Ey Hne) as [H _].
  destruct (H eq_refl) as (H1 & H2 & H3 & H4 & H5 & H6 & H7 & H8).
  unfold shape0 in H6. cbn [rows shape1] in H6, H7, H8. rewrite length_map in H6.
  repeat split; assumption.
Qed.

End SingleFile.

Lemma load_single_file_ignores_columns_witness :
  Scenario.load "xy.txt" None (Indices [0%Z]) (Indices [1%Z]) false
    (Scenario.fresh Scenario.fs_single)
  = Scenario.load "xy.txt" None Scenario.all_columns Scenario.all_columns false
      (Scenario.fresh Scenario.fs_single).
Proof.
  exact (proj1 (load_single_file_ignores_columns
                  Scenario.file_name_params Scenario.file_name_x Scenario.file_name_y
                  Params_load_open "xy.txt" None (Indices [0%Z]) (Indices [1%Z])
                  Scenario.all_columns Scenario.all_columns false
                  (Scenario.fresh Scenario.fs_single) eq_refl eq_refl eq_refl)).
Defined.

Lemma load_single_file_splits_witness :
  let f := fs_write empty_fs "xy.txt"
             (Scenario.table_of (join_str (String TAB "") ["a"; "b"; "c"])
                [[1%float; 2%float; 3%float]; [4%float; 5%float; 6%float]]) in
  let r := Scenario.load "xy.txt" None Scenario.all_columns Scenario.all_columns false
             (Scenario.fresh f) in
  fst r = Returns tt
  /\ x (self (snd r)) = Some (mk_array2 2 [[1%float; 2%float]; [4%float; 5%float]])
  /\ y (self (snd r)) = Some (mk_array2 1 [[3%float]; [6%float]])
  /\ x_names (self (snd r)) = Some ["a"; "b"]
  /\ y_names (self (snd r)) = Some ["c"].
Proof.
  assert (H := load_single_file_splits
                 Scenario.file_name_params Scenario.file_name_x Scenario.file_name_y
                 Params_load_open "xy.txt" None Scenario.all_columns Scenario.all_columns
                 (Scenario.fresh
                    (fs_write empty_fs "xy.txt"
                       (Scenario.table_of (join_str (String TAB "") ["a"; "b"; "c"])
                          [[1%float; 2%float; 3%float]; [4%float; 5%float; 6%float]])))
                 (mk_table (header_lines (join_str (String TAB "") ["a"; "b"; "c"]))
                    [[1%float; 2%float; 3%float]; [4%float; 5%float; 6%float]])
                 [1%float; 2%float; 3%float] [4%float; 5%float; 6%float] [] 3
                 (Some ["a"; "b"; "c"])
                 eq_refl eq_refl eq_refl eq_refl
                 ltac:(repeat constructor) ltac:(lia) eq_refl).
  cbv zeta in H. destruct H as (H1 & H2 & H3 & H4 & H5 & _).
  cbv zeta. split; [exact H1|]. split; [exact H2|]. split; [exact H3|].
  split; [exact H4 | exact H5].
Defined.
(** ** The pipeline *)

Section PipelineProperties.

Variables file_name_params file_name_x file_name_y : string.
Variable Params_load : FS -> string -> result yaml.

Local Abbreviation load' := (load file_name_params file_name_x file_name_y Params_load).
Local Abbreviation load_new' :=
  (load_new file_name_params file_name_x file_name_y Params_load).
Local Abbreviation sample_emu' :=
  (sample_emu file_name_params file_name_x file_name_y Params_load).

Lemma load_keeps_files path path_y cx cy rnf w :
  fs (snd (load' path path_y cx cy rnf w)) = fs w.
Proof.
  rewrite (load_unfold file_name_params file_name_x file_name_y Params_load).
  pose proof (load_settings_fs file_name_params Params_load path w) as Hfs.
  destruct (load_settings file_name_params Params_load path w) as [[[]|e] w1];
    cbn [snd] in Hfs; [|exact Hfs].
  destruct (load_rest_keeps file_name_x file_name_y path path_y cx cy rnf w1)
    as (_ & _ & K). now rewrite K.
Qed.

Lemma load_new_keeps_files path path_y w :
  fs (snd (load_new' path path_y w)) = fs w.
Proof.
  unfold load_new. unfold bind, update_self. cbv beta iota.
  now rewrite load_keeps_files.
Qed.

Lemma load_new_returns p path_y w :
  fst (load_new' p path_y w) = Returns tt ->
  counted (self (snd (load_new' p path_y w))) = true
  /\ (truthy p && truthy_opt path_y = true ->
      path (self (snd (load_new' p path_y w))) = None).
Proof.
  unfold load_new. unfold bind, update_self. cbv beta iota.
  set (w0 := mk_world Sample_init (fs w) (warnings w)). intro H. split.
  - now apply (load_returns file_name_params file_name_x file_name_y Params_load).
  - intro Ht. revert H.
    rewrite (load_unfold file_name_params file_name_x file_name_y Params_load).
    pose proof (load_settings_cases file_name_params Params_load p w0) as Hc.
    assert (Hp : path (self (snd (load_settings file_name_params Params_load p w0)))
                 = None).
    { destruct (Params_load _ _) as [st|e]; [now rewrite Hc|].
      destruct (is_NotADirectoryError e); now rewrite Hc. }
    destruct (load_settings file_name_params Params_load p w0) as [[[]|e] w1];
      cbn [snd] in Hp; [|discriminate].
    intros _. unfold load_rest, assign_paths. unfold_monad. cbv beta. rewrite Ht.
    cbv beta iota.
    destruct (load_data_keeps p match path_y with Some q => q | None => "" end
                (Slice None None) (Slice None None) false w1) as (_ & K & _).
    now rewrite K.
Qed.

(** X21: [sample_emu] generates nothing.  It loads three samples and
    exits: whatever the files are, it leaves every one of them as it is
    and ends with [SystemExit] or with the exception of a [load]; when it
    ends with [SystemExit] the object it holds is the one of the last
    [load], with x, y and their counts and without a path. *)
Theorem sample_emu_only_loads w :
  fs (snd (sample_emu' w)) = fs w
  /\ (fst (sample_emu' w) = SystemExit ->
      counted (self (snd (sample_emu' w))) = true
      /\ path (self (snd (sample_emu' w))) = None).
Proof.
  unfold sample_emu, bind. cbv beta.
  pose proof (load_new_keeps_files "output/full_2files" None w) as F1.
  destruct (load_new' "output/full_2files" None w) as [[[]|e1] w1];
    cbn [snd] in F1; cbv beta iota.
  2:{ cbn [fst snd]. split; [exact F1 | intro HH; discriminate HH]. }
  pose proof (load_new_keeps_files "output/full_1file/xy_sample.txt" None w1) as F2.
  destruct (load_new' "output/full_1file/xy_sample.txt" None w1) as [[[]|e2] w2];
    cbn [snd] in F2; cbv beta iota.
  2:{ cbn [fst snd]. split; [congruence | intro HH; discriminate HH]. }
  pose proof (load_new_keeps_files "output/full_2files/x_sample.txt"
                (Some "output/full_2files/y_sample.txt") w2) as F3.
  pose proof (load_new_returns "output/full_2files/x_sample.txt"
                (Some "output/full_2files/y_sample.txt") w2) as R3.
  destruct (load_new' "output/full_2files/x_sample.txt"
              (Some "output/full_2files/y_sample.txt") w2) as [[[]|e3] w3];
    cbn [fst snd] in *.
  - split; [congruence|]. intros _. destruct (R3 eq_refl) as [C P].
    split; [exact C | now apply P].
  - split; [congruence | intro HH; discriminate HH].
Qed.

End PipelineProperties.

Lemma sample_emu_only_loads_witness :
  let r := sample_emu Scenario.file_name_params Scenario.file_name_x Scenario.file_name_y
             Params_load_open (Scenario.fresh pipeline_files) in
  fst r = SystemExit
  /\ fs (snd r) = pipeline_files
  /\ path (self (snd r)) = None
  /\ warnings (snd r) = [settings_warning; settings_warning].
Proof.
  destruct (sample_emu_only_loads
              Scenario.file_name_params Scenario.file_name_x Scenario.file_name_y
              Params_load_open (Scenario.fresh pipeline_files)) as [F H].
  destruct (H ltac:(vm_compute; reflexivity)) as [_ P].
  cbv zeta. split; [vm_compute; reflexivity|]. split; [exact F|].
  split; [exact P | vm_compute; reflexivity].
Defined.
(** ** Two files *)

Section TwoFiles.

Variables file_name_params file_name_x file_name_y : string.
Variable Params_load : FS -> string -> result yaml.

Local Abbreviation load' := (load file_name_params file_name_x file_name_y Params_load).
Local Abbreviation load_settings' := (load_settings file_name_params Params_load).

(** X22: when both [path] and [path_y] are given, [load] reads x from
    [path] and y from [path_y] with the columns of the caller and never
    looks into a folder: once the settings step is over, it returns the
    two arrays with their names and counts and leaves the [path] of the
    object as it was, and when [path] is a folder it raises
    [IsADirectoryError], also if the folder holds the files of a
    sample. *)
Theorem load_two_files p q cx cy w :
  fst (load_settings' p w) = Returns tt ->
  truthy p = true -> truthy q = true ->
  (forall xa xn ya yn,
      _load_array (fs w) p cx = Returns (xa, xn) ->
      _load_array (fs w) q cy = Returns (ya, yn) ->
      rows xa <> [] ->
      let r := load' p (Some q) cx cy false w in
      fst r = Returns tt
      /\ x (self (snd r)) = Some xa /\ y (self (snd r)) = Some ya
      /\ x_names (self (snd r)) = xn /\ y_names (self (snd r)) = yn
      /\ n_samples (self (snd r)) = Some (shape0 xa)
      /\ n_x (self (snd r)) = Some (shape1 xa) /\ n_y (self (snd r)) = Some (shape1 ya)
      /\ path (self (snd r)) = path (self w))
  /\ (isdir (fs w) p = true ->
      forall rnf, fst (load' p (Some q) cx cy rnf w) = Raises IsADirectoryError).
Proof.
  intros Hs Hp Hq.
  pose proof (load_settings_fs file_name_params Params_load p w) as Hfs.
  pose proof (load_settings_cases file_name_params Params_load p w) as Hc.
  assert (Hpath : path (self (snd (load_settings' p w))) = path (self w)).
  { destruct (Params_load _ _) as [st|e]; [now rewrite Hc|].
    destruct (is_NotADirectoryError e); now rewrite Hc. }
  assert (E : forall rnf, load' p (Some q) cx cy rnf w
                          = load_data p q cx cy rnf (snd (load_settings' p w))).
  { intro rnf. rewrite (load_unfold file_name_params file_name_x file_name_y Params_load).
    destruct (load_settings' p w) as [r0 w1]. cbn [fst snd] in *. subst r0.
    unfold load_rest, assign_paths. unfold_monad. cbv beta.
    cbn [truthy_opt]. rewrite Hp, Hq. reflexivity. }
  split.
  - intros xa xn ya yn Hx Hy Hne. cbv zeta. rewrite E. rewrite <- Hfs in Hx, Hy.
    destruct (load_data_run p q cx cy false _ xa xn ya yn Hx Hy Hne) as [H _].
    destruct (H eq_refl) as (H1 & H2 & H3 & H4 & H5 & H6 & H7 & H8).
    destruct (load_data_keeps p q cx cy false (snd (load_settings' p w))) as (_ & K & _).
    repeat split; try assumption. now rewrite K.
  - intros Hd rnf. rewrite E. unfold load_data. unfold_monad. cbv beta.
    rewrite Hfs. unfold _load_array, genfromtxt. unfold isdir in Hd.
    destruct (fs w p) as [[| |]|]; try discriminate Hd. reflexivity.
Qed.

End TwoFiles.

Lemma load_two_files_witness :
  let w := Scenario.fresh Scenario.fs_no_settings in
  let r := Scenario.load "ns/x_sample.txt" (Some "ns/y_sample.txt")
             Scenario.all_columns Scenario.all_columns false w in
  fst r = Returns tt
  /\ x (self (snd r)) = Some (mk_array2 1 [[1%float]; [2%float]])
  /\ y (self (snd r)) = Some (mk_array2 1 [[3%float]; [4%float]])
  /\ path (self (snd r)) = None
  /\ fst (Scenario.load "nf" (Some "nf/y_sample.txt")
            Scenario.all_columns Scenario.all_columns false
            (Scenario.fresh Scenario.fs_nan))
     = Raises IsADirectoryError.
Proof.
  destruct (load_two_files
              Scenario.file_name_params Scenario.file_name_x Scenario.file_name_y
              Params_load_open "ns/x_sample.txt" "ns/y_sample.txt"
              Scenario.all_columns Scenario.all_columns
              (Scenario.fresh Scenario.fs_no_settings) eq_refl eq_refl eq_refl) as [H _].
  destruct (H (mk_array2 1 [[1%float]; [2%float]]) (Some ["a"])
              (mk_array2 1 [[3%float]; [4%float]]) (Some ["c"])
              eq_refl eq_refl ltac:(discriminate))
    as (H1 & H2 & H3 & _ & _ & _ & _ & _ & H9).
  destruct (load_two_files
              Scenario.file_name_params Scenario.file_name_x Scenario.file_name_y
              Params_load_open "nf" "nf/y_sample.txt"
              Scenario.all_columns Scenario.all_columns
              (Scenario.fresh Scenario.fs_nan) eq_refl eq_refl eq_refl) as [_ D].
  cbv zeta. split; [exact H1|]. split; [exact H2|]. split; [exact H3|].
  split; [exact H9|]. exact (D eq_refl false).
Defined.
(** ** The outcomes of join *)

Lemma arrays_of_inv get (the : Sample -> array2) l xs :
  (forall s a, get s = Some a -> the s = a) ->
  arrays_of get l = Returns xs ->
  xs = map the l /\ forall s, In s l -> get s = Some (the s).
Proof.
  intros Hthe. unfold arrays_of. revert xs.
  induction l as [|s l IH]; intros xs; cbn [rmap map].
  - intro H. injection H as <-. split; [reflexivity | intros s []].
  - destruct (get s) as [a|] eqn:E; [|discriminate].
    destruct (rmap _ l) as [bs|]; [|discriminate].
    intro H. injection H as <-. destruct (IH bs eq_refl) as [-> Hall].
    rewrite (Hthe s a E). split; [reflexivity|].
    intros t [<- | Ht]; [now rewrite E, (Hthe s a E) | now apply Hall].
Qed.

Lemma sum_n_samples_inv l n :
  sum_n_samples l = Returns n -> forall s, In s l -> n_samples s <> None.
Proof.
  revert n. induction l as [|s l IH]; intros n; cbn [sum_n_samples]; [intros _ t []|].
  destruct (n_samples s) as [m|] eqn:E; [|discriminate].
  destruct (sum_n_samples l) as [k|]; [|discriminate].
  intros _ t [<- | Ht]; [congruence | now apply (IH k)].
Qed.

Lemma concat_rows_nonempty (the : Sample -> array2) l :
  concat (map rows (map the l)) <> [] ->
  existsb (fun s => nonempty (rows (the s))) l = true.
Proof.
  induction l as [|s l IH]; cbn [map concat existsb]; [congruence|].
  destruct (rows (the s)) as [|r rs]; cbn [nonempty app orb]; [exact IH | reflexivity].
Qed.

Lemma existsb_rows_nonempty (the : Sample -> array2) l :
  existsb (fun s => nonempty (rows (the s))) l = true ->
  concat (map (fun s => rows (the s)) l) <> [].
Proof.
  induction l as [|s l IH]; cbn [map concat existsb]; [discriminate|].
  destruct (rows (the s)) as [|r rs]; cbn [nonempty app orb]; [exact IH | discriminate].
Qed.

Lemma forallb_of_map {A B} (f : A -> B) (p : B -> bool) l :
  forallb p (map f l) = forallb (fun a => p (f a)) l.
Proof. induction l as [|a l IH]; cbn [map forallb]; [reflexivity | now rewrite IH]. Qed.

Lemma the_x_some s a : x s = Some a -> the_x s = a.
Proof. unfold the_x. now intros ->. Qed.

Lemma the_y_some s a : y s = Some a -> the_y s = a.
Proof. unfold the_y. now intros ->. Qed.

(** [join] returns exactly on the inputs that agree on [n_x] and [n_y]
    and can be stacked. *)
Lemma join_returns_iff s0 rest :
  (exists j, join (s0 :: rest) = Returns j)
  <-> (forallb (fun s => eqb_opt_nat (n_x s) (n_x s0)) (s0 :: rest) = true
       /\ forallb (fun s => eqb_opt_nat (n_y s) (n_y s0)) (s0 :: rest) = true
       /\ stackable (s0 :: rest) = true).
Proof.
  split.
  - intros [j Hj].
    destruct (join_inv _ _ Hj)
      as (t0 & r1 & xs & xa & mins & maxs & ys & ya & n
          & E & Nx & Ny & Ax & Vx & Emin & _ & Ay & Vy & Sn & _).
    injection E as <- <-. split; [exact Nx|]. split; [exact Ny|].
    destruct (arrays_of_inv x the_x _ _ the_x_some Ax) as [-> Hx].
    destruct (arrays_of_inv y the_y _ _ the_y_some Ay) as [-> Hy].
    pose proof (sum_n_samples_inv _ _ Sn) as Hn.
    destruct (vstack_inv _ _ Vx) as (a0 & lx & Ex & Fx & ->).
    destruct (vstack_inv _ _ Vy) as (b0 & ly & Ey & Fy & _).
    cbn [map] in Ex, Ey. injection Ex as <- <-. injection Ey as <- <-.
    apply reduce_axis0_rows in Emin. cbn [rows] in Emin.
    unfold stackable. rewrite !andb_true_iff. repeat split.
    + apply forallb_forall. intros s Hs. rewrite (Hx s Hs), (Hy s Hs).
      specialize (Hn s Hs). destruct (n_samples s); [reflexivity | congruence].
    + cbn [forallb]. rewrite Nat.eqb_refl. rewrite forallb_of_map in Fx. exact Fx.
    + cbn [forallb]. rewrite Nat.eqb_refl. rewrite forallb_of_map in Fy. exact Fy.
    + now apply concat_rows_nonempty.
  - intros (Nx & Ny & Hs). unfold stackable in Hs. rewrite !andb_true_iff in Hs.
    destruct Hs as [[[Hset Hsx] Hsy] Hrow].
    rewrite forallb_forall in Hset.
    assert (Hx : forall s, In s (s0 :: rest) -> x s = Some (the_x s)).
    { intros s Hs. specialize (Hset s Hs). unfold the_x. destruct (x s); [reflexivity|].
      discriminate. }
    assert (Hy : forall s, In s (s0 :: rest) -> y s = Some (the_y s)).
    { intros s Hs. specialize (Hset s Hs). unfold the_y.
      destruct (x s); [|discriminate]. destruct (y s); [reflexivity | discriminate]. }
    assert (Hn : forall s, In s (s0 :: rest) -> n_samples s = Some (the_n_samples s)).
    { intros s Hs. specialize (Hset s Hs). unfold the_n_samples.
      destruct (x s); [|discriminate]. destruct (y s); [|discriminate].
      destruct (n_samples s); [reflexivity | discriminate]. }
    cbn [forallb] in Hsx, Hsy. apply andb_true_iff in Hsx, Hsy.
    destruct Hsx as [_ Hsx]. destruct Hsy as [_ Hsy]. rewrite forallb_forall in Hsx, Hsy.
    apply existsb_rows_nonempty in Hrow.
    unfold join. rewrite Nx, Ny.
    rewrite (arrays_of_some x the_x (s0 :: rest) Hx). cbn [rbind].
    rewrite (vstack_same_shape the_x s0 rest)
      by (intros s Hs; apply Nat.eqb_eq; now apply Hsx).
    cbn [rbind]. unfold np_min_axis0, np_max_axis0, reduce_axis0. cbn [rows].
    destruct (concat (map (fun s => rows (the_x s)) (s0 :: rest))) as [|r rs] eqn:Ec;
      [congruence|].
    cbn [rbind].
    rewrite (arrays_of_some y the_y (s0 :: rest) Hy). cbn [rbind].
    rewrite (vstack_same_shape the_y s0 rest)
      by (intros s Hs; apply Nat.eqb_eq; now apply Hsy).
    cbn [rbind]. rewrite (sum_n_samples_some (s0 :: rest) Hn). cbn [rbind].
    eexists. reflexivity.
Qed.

(** What [join] can raise on inputs that agree on [n_x] and [n_y]. *)
Lemma join_compatible_raises s0 rest e :
  forallb (fun s => eqb_opt_nat (n_x s) (n_x s0)) (s0 :: rest) = true ->
  forallb (fun s => eqb_opt_nat (n_y s) (n_y s0)) (s0 :: rest) = true ->
  join (s0 :: rest) = Raises e ->
  e = not_an_array \/ e = ValueError vstack_msg \/ e = ValueError zero_size_msg
  \/ e = TypeError "unsupported operand type(s) for +: 'int' and 'NoneType'".
Proof.
  intros Hx Hy. unfold join. rewrite Hx, Hy. unfold rbind.
  destruct (arrays_of x _) as [tx|e1] eqn:Etx.
  2:{ apply arrays_of_raises in Etx. intro H. injection H as <-. subst. now left. }
  destruct (vstack tx) as [xa|e1] eqn:Exa.
  2:{ intro H. injection H as <-. destruct tx as [|a l].
      - unfold arrays_of in Etx. cbn [rmap] in Etx.
        destruct (x s0); [|discriminate]. destruct (rmap _ rest); discriminate.
      - unfold vstack in Exa. destruct (forallb _ l); [discriminate|].
        injection Exa as <-. right. now left. }
  destruct (np_min_axis0 xa) as [mins|e1] eqn:Emin.
  2:{ apply reduce_axis0_raises in Emin. intro H. injection H as <-. subst.
      right. right. now left. }
  destruct (np_max_axis0 xa) as [maxs|e1] eqn:Emax.
  2:{ apply reduce_axis0_raises in Emax. intro H. injection H as <-. subst.
      right. right. now left. }
  destruct (arrays_of y _) as [ty|e1] eqn:Ety.
  2:{ apply arrays_of_raises in Ety. intro H. injection H as <-. subst. now left. }
  destruct (vstack ty) as [ya|e1] eqn:Eya.
  2:{ intro H. injection H as <-. destruct ty as [|a l].
      - unfold arrays_of in Ety. cbn [rmap] in Ety.
        destruct (y s0); [|discriminate]. destruct (rmap _ rest); discriminate.
      - unfold vstack in Eya. destruct (forallb _ l); [discriminate|].
        injection Eya as <-. right. now left. }
  destruct (sum_n_samples _) as [n|e1] eqn:En.
  2:{ apply sum_n_samples_raises in En. intro H. injection H as <-. subst.
      right. right. now right. }
  discriminate.
Qed.

(** C4 (as amended): for a non-empty list of samples, [join] raises the
    error the specification calls [IncompatibleSampleError] exactly when
    some input has an [n_x] or an [n_y] different from the first input's.
    When all inputs agree on both, it does not raise this error; and
    when, moreover, every input holds an x and a y, it raises no error at
    all exactly when the inputs can be stacked (every input holds
    [n_samples], every x has the columns of the first x, every y those of
    the first y, and some x has a row), and on the other inputs it raises
    a [ValueError] of numpy or a [TypeError]. *)
Theorem join_raises_iff_incompatible (s0 : Sample) (rest : list Sample) :
  (join (s0 :: rest) = Raises IncompatibleSampleError <->
   exists s, In s (s0 :: rest) /\ (n_x s <> n_x s0 \/ n_y s <> n_y s0))
  /\ ((forall s, In s (s0 :: rest) -> n_x s = n_x s0 /\ n_y s = n_y s0) ->
      join (s0 :: rest) <> Raises IncompatibleSampleError
      /\ ((forall s, In s (s0 :: rest) -> x s <> None /\ y s <> None) ->
          ((exists j, join (s0 :: rest) = Returns j) <-> stackable (s0 :: rest) = true)
          /\ (stackable (s0 :: rest) = false ->
              exists e, join (s0 :: rest) = Raises e
                        /\ e <> IncompatibleSampleError
                        /\ ((exists msg, e = ValueError msg)
                            \/ (exists msg, e = TypeError msg))))).
Proof.
  assert (Hiff : join (s0 :: rest) = Raises IncompatibleSampleError <->
   exists s, In s (s0 :: rest) /\ (n_x s <> n_x s0 \/ n_y s <> n_y s0)).
  { destruct (forallb (fun s => eqb_opt_nat (n_x s) (n_x s0)) (s0 :: rest)) eqn:Hx.
    - destruct (forallb (fun s => eqb_opt_nat (n_y s) (n_y s0)) (s0 :: rest)) eqn:Hy.
      + split.
        * intro H. now apply join_compatible_not_incompatible in H.
        * intros [s [Hin [H | H]]]; exfalso; apply H; apply eqb_opt_nat_spec.
          -- rewrite forallb_forall in Hx. now apply Hx.
          -- rewrite forallb_forall in Hy. now apply Hy.
      + split.
        * intros _. apply forallb_false_exists in Hy. destruct Hy as [s [Hin Hs]].
          exists s. split; [assumption|]. right. intro E.
          apply eqb_opt_nat_spec in E. congruence.
        * intros _. unfold join. rewrite Hx, Hy. reflexivity.
    - split.
      + intros _. apply forallb_false_exists in Hx. destruct Hx as [s [Hin Hs]].
        exists s. split; [assumption|]. left. intro E.
        apply eqb_opt_nat_spec in E. congruence.
      + intros _. unfold join. rewrite Hx. reflexivity. }
  split; [exact Hiff|].
  intros Hall.
  assert (Nx : forallb (fun s => eqb_opt_nat (n_x s) (n_x s0)) (s0 :: rest) = true)
    by (apply forallb_forall; intros s Hs; apply eqb_opt_nat_spec; now apply Hall).
  assert (Ny : forallb (fun s => eqb_opt_nat (n_y s) (n_y s0)) (s0 :: rest) = true)
    by (apply forallb_forall; intros s Hs; apply eqb_opt_nat_spec; now apply Hall).
  assert (Hret : (exists j, join (s0 :: rest) = Returns j) <-> stackable (s0 :: rest) = true).
  { rewrite join_returns_iff. tauto. }
  assert (Hnot : join (s0 :: rest) <> Raises IncompatibleSampleError)
    by now apply join_compatible_not_incompatible.
  split; [exact Hnot|]. intros _. split; [exact Hret|].
  intro Hs. destruct (join (s0 :: rest)) as [j|e] eqn:E.
  - assert (stackable (s0 :: rest) = true) by (apply Hret; now exists j). congruence.
  - exists e. split; [reflexivity|]. split; [congruence|].
    destruct (join_compatible_raises s0 rest e Nx Ny E) as [-> | [-> | [-> | ->]]];
      [right | left | left | right]; eexists; reflexivity.
Qed.

Lemma join_raises_iff_incompatible_witness :
  join [Scenario.sample_1x1; Scenario.sample_2x1] <> Raises IncompatibleSampleError
  /\ (exists j, join [Scenario.sample_1x1; Scenario.sample_2x1] = Returns j)
  /\ join [Scenario.sample_1x1; Scenario.sample_1x2] = Raises IncompatibleSampleError.
Proof.
  destruct (proj2 (join_raises_iff_incompatible Scenario.sample_1x1 [Scenario.sample_2x1]))
    as (H1 & H2).
  - intros s [<- | [<- | []]]; split; reflexivity.
  - destruct H2 as (H2 & _).
    + intros s [<- | [<- | []]]; split; discriminate.
    + split; [exact H1|]. split; [apply H2; reflexivity | reflexivity].
Defined.

(** C4, as stated, fails on inputs that agree on [n_x] and [n_y]: the
    sample that [load] with [remove_non_finite] leaves for the folder
    [an] has no row, and [join] of two of it raises the [ValueError] of
    the minimum over no row; the sample of a run of [generate] has no
    [n_samples], and [join] of two of it raises [TypeError]. *)
Lemma join_of_agreeing_samples_raises :
  let r := Scenario.load "an" None Scenario.all_columns Scenario.all_columns true
             (Scenario.fresh Scenario.fs_all_nan) in
  let s := self (snd r) in
  let g := self (snd Scenario.uninterrupted) in
  fst r = Returns tt /\ fst Scenario.uninterrupted = Returns tt
  /\ n_x s = Some 1 /\ n_y s = Some 1 /\ n_samples s = Some 0
  /\ join [s; s] = Raises (ValueError zero_size_msg)
  /\ n_x g = Some 1 /\ n_y g = Some 2
  /\ join [g; g]
     = Raises (TypeError "unsupported operand type(s) for +: 'int' and 'NoneType'").
Proof. vm_compute. repeat split. Qed.
